(** * Multi-service job processor: a shallow embedding

    This development embeds the job-processing core of the repository
    ([container-app/multi_service_processor.py] together with the parts of
    [container-app/ailibs/style_transfer.py] it relies on) as executable
    Rocq definitions and proves the properties its specification states.

    Python objects become records, [dict]s with optional keys become records
    of [option]s, exceptions become the [Raise] branch of a result type, and
    the mutable processor object, the module-level model handle and the blob
    container are threaded through a small state-and-exception monad.  The
    opaque collaborators (model download, vector index, language client, CSV
    reader, image codec) are fields of an environment record [Env].

    What the model leaves out.  The storage services are in-memory and
    reliable: the blob container is a finite map, a queue is a list of
    messages with a visibility time, and their calls do not raise, so the
    outer [try] of the polling loop never fires.  A handler takes no time:
    the clock moves only when the loop sleeps, so the clock of the model is
    a lower bound of the real one, and statements about it are kept to what
    holds whatever the handlers' durations are.  Job payloads are typed after
    the message shapes the services accept (strings, a natural-number limit,
    rational numbers).  The values that reach [style_trans] are Python values
    ([pyval]): strings, images, and numbers including the floats that are
    not rationals (NaN and the infinities).  Strings are UTF-8 encoded text.
    What Python's own renderings ([str] of a number or an object, the name of
    a type) and the image library's floating-point rounding give is taken
    from the environment.  Logging is not modelled. *)

From Stdlib Require Import QArith Qround Qabs Ascii String.
From stdpp Require Import gmap strings list fin_maps sorting.

Local Open Scope string_scope.

(** ** Python exceptions and results *)

(** An exception instance: its class name and [str(e)]. *)
Inductive exn : Type :=
  PyExc (cls : string) (msg : string).

Definition exn_class (e : exn) : string := let 'PyExc c _ := e in c.

(** [str(e)] *)
Definition str (e : exn) : string := let 'PyExc _ m := e in m.

Inductive res (A : Type) : Type :=
| Ret (a : A)
| Raise (e : exn).
Arguments Ret {A} a.
Arguments Raise {A} e.

Definition is_ret {A} (r : res A) : bool :=
  match r with Ret _ => true | Raise _ => false end.

Definition KeyError (key : string) : exn := PyExc "KeyError" ("'" +:+ key +:+ "'").
Definition TypeError (msg : string) : exn := PyExc "TypeError" msg.
Definition ValueError (msg : string) : exn := PyExc "ValueError" msg.
Definition RuntimeError (msg : string) : exn := PyExc "RuntimeError" msg.

(** [except ImportError] also catches its subclass [ModuleNotFoundError]. *)
Definition is_ImportError (e : exn) : bool :=
  String.eqb (exn_class e) "ImportError" || String.eqb (exn_class e) "ModuleNotFoundError".

(** ** State and exceptions

    A computation reads and writes a state of type [S] and either returns or
    raises; the state written before a [raise] is kept, as in Python. *)

Definition M (S A : Type) : Type := S -> res A * S.

Definition ret {S A} (a : A) : M S A := fun s => (Ret a, s).
Definition raise {S A} (e : exn) : M S A := fun s => (Raise e, s).

Definition bind {S A B} (m : M S A) (k : A -> M S B) : M S B :=
  fun s => match m s with
           | (Ret a, s') => k a s'
           | (Raise e, s') => (Raise e, s')
           end.

(** [try: m  except Exception as e: h e] *)
Definition try_except {S A} (m : M S A) (h : exn -> M S A) : M S A :=
  fun s => match m s with
           | (Ret a, s') => (Ret a, s')
           | (Raise e, s') => h e s'
           end.

Definition get {S} : M S S := fun s => (Ret s, s).
Definition modify {S} (f : S -> S) : M S unit := fun s => (Ret tt, f s).

(** Lift the outcome of an opaque collaborator call. *)
Definition lift {S A} (r : res A) : M S A := fun s => (r, s).

(** [d[key]] on a dict whose key may be missing. *)
Definition subscript {S A} (key : string) (o : option A) : M S A :=
  match o with
  | Some a => ret a
  | None => raise (KeyError key)
  end.

Declare Scope py_scope.
Delimit Scope py_scope with py.
Notation "'let*' x ':=' c1 'in' c2" := (bind c1 (fun x => c2))
  (at level 10, x pattern, c1 at level 100, c2 at level 200) : py_scope.
Notation "c1 '>>' c2" := (bind c1 (fun _ => c2))
  (at level 100, c2 at level 200, right associativity) : py_scope.
Local Open Scope py_scope.

(** ** Data model *)

(** The three services; each has its own queue and its own handler. *)
Inductive Service : Type := style_transfer | rag_chat | recommendation.

#[global] Instance Service_eq_dec : EqDecision Service.
Proof. solve_decision. Defined.

(** The [service_type] string written into results, which is also the key of
    the [queues] dict in [main]. *)
Definition service_name (svc : Service) : string :=
  match svc with
  | style_transfer => "style_transfer"
  | rag_chat => "rag_chat"
  | recommendation => "recommendation"
  end.

(** [queue_name=...] of each queue client. *)
Definition queue_name (svc : Service) : string :=
  match svc with
  | style_transfer => "style-transfer-jobs"
  | rag_chat => "rag-jobs"
  | recommendation => "recommendation-jobs"
  end.

(** A row of [tourism_with_id.csv], restricted to the columns the handler
    reads.  Numbers are exact rationals. *)
Record Row : Type := {
  Place_Id : Z;
  Place_Name : string;
  Description : string;
  Category : string;
  City : string;
  Price : Q;
  Rating : Q;
  Time_Minutes : Q;
  Lat : Q;
  Long : Q
}.

Definition DataFrame : Type := list Row.

(** The [preferences] mapping of a recommendation job; every key is optional. *)
Record Prefs : Type := {
  category : option string;
  city : option string;
  max_price : option Q;
  min_rating : option Q
}.

(** A decoded queue message ([job_data]): a dict seen through the keys the
    three handlers read.  [None] is a missing key. *)
Record Job : Type := {
  job_id : option string;
  (* style transfer *)
  content_image : option string;
  style_image : option string;
  strength : option Q;
  (* chat *)
  question : option string;
  (* recommendation *)
  user_id : option string;
  preferences : option Prefs;
  limit : option nat;
  (* set by the dispatcher at dequeue *)
  start_time : option nat
}.

(** An image: its size and an opaque identifier of its pixel data. *)
Record Image : Type := {
  im_width : positive;
  im_height : positive;
  im_pixels : nat
}.

(** One record of the recommendation output. *)
Record Recommendation : Type := {
  place_id : Z;
  place_name : string;
  description : string;
  rec_category : string;
  rec_city : string;
  price : Q;
  rating : Q;
  time_minutes : Q;
  latitude : Q;
  longitude : Q
}.

(** The service-specific fields of a result dict. *)
Inductive Output : Type :=
| StyleOutput (result_image : string) (processing_time : nat)
| ChatOutput (question answer : string) (context_used : bool)
| RecommendationOutput (user_id : string) (preferences_used : Prefs)
    (recommendations : list Recommendation) (total_found : nat)
| ErrorOutput (error : string).

(** [result_data] / [error_result]. *)
Record Result : Type := {
  r_job_id : string;
  r_service_type : string;
  r_status : string;
  r_output : Output;
  r_timestamp : nat
}.

(** The loaded style-transfer model: the IP-Adapter wrapper, or the bare
    pipeline kept as a fallback when the wrapper cannot be built.  The number
    is the construction that produced it. *)
Inductive Model : Type :=
| IPAdapter (built : nat)
| Pipeline (built : nat).

(** [hasattr(ip_model, 'generate')] *)
Definition has_generate (m : Model) : bool :=
  match m with IPAdapter _ => true | Pipeline _ => false end.

(** Handles of the chat resources, tagged with the construction that made them. *)
Inductive ChromaClient : Type := PersistentClient (built : nat).
Inductive Collection : Type := CulturalDocuments (built : nat).
Inductive OllamaClient : Type := Client (built : nat).

(** The values that reach [style_trans] from its callers: a string, a
    number, or an image.  A number is an [int] or a finite [float]
    ([PyNum], with its exact value), or one of the floats that have none:
    NaN and the two infinities. *)
Inductive pyval : Type :=
| PyStr (s : string)
| PyNum (q : Q)
| PyNaN
| PyInf (negative : bool)
| PyImage (im : Image).

(** Keyword arguments of [ip_model.generate].  [scale] and [guidance_scale]
    are whatever values the caller of [style_trans] supplied. *)
Record GenCall : Type := {
  pil_image : Image;
  prompt : string;
  negative_prompt : string;
  scale : pyval;
  guidance_scale : pyval;
  num_samples : nat;
  num_inference_steps : nat;
  image : Image;
  controlnet_conditioning_scale : Q;
  height : Z;
  width : Z
}.

(** The attributes of a [MultiServiceProcessor] instance.  An attribute that
    has not been assigned yet is [None]; [ollama_client] can also hold
    Python's [None], the inner option. *)
Record Processor : Type := {
  style_transfer_loaded : bool;
  rag_system_loaded : bool;
  recommendation_data_loaded : bool;
  chroma_client : option ChromaClient;
  rag_collection : option Collection;
  ollama_client : option (option OllamaClient);
  tourism_df : option DataFrame;
  tourism_rating_df : option nat;
  user_df : option nat
}.

(** What a handler can see and change: the processor object, the module
    global [ip_model] of [ailibs/style_transfer.py], and the blob container
    [ai-service-results].  The remaining fields are ghost state: how often
    each construction body was entered, and the generation calls made. *)
Record PState : Type := {
  self : Processor;
  ip_model : option Model;
  blobs : gmap string Result;
  model_constructions : nat;
  rag_constructions : nat;
  recommendation_constructions : nat;
  generate_calls : list GenCall
}.

(** [MultiServiceProcessor.__init__] *)
Definition Processor_init : Processor :=
  {| style_transfer_loaded := false;
     rag_system_loaded := false;
     recommendation_data_loaded := false;
     chroma_client := None; rag_collection := None; ollama_client := None;
     tourism_df := None; tourism_rating_df := None; user_df := None |}.

Definition PState_init (container : gmap string Result) : PState :=
  {| self := Processor_init; ip_model := None; blobs := container;
     model_constructions := 0; rag_constructions := 0;
     recommendation_constructions := 0; generate_calls := [] |}.

Definition with_self (f : Processor -> Processor) (s : PState) : PState :=
  {| self := f (self s); ip_model := ip_model s; blobs := blobs s;
     model_constructions := model_constructions s;
     rag_constructions := rag_constructions s;
     recommendation_constructions := recommendation_constructions s;
     generate_calls := generate_calls s |}.

Definition set_ip_model (m : option Model) (s : PState) : PState :=
  {| self := self s; ip_model := m; blobs := blobs s;
     model_constructions := model_constructions s;
     rag_constructions := rag_constructions s;
     recommendation_constructions := recommendation_constructions s;
     generate_calls := generate_calls s |}.

Definition set_blobs (b : gmap string Result) (s : PState) : PState :=
  {| self := self s; ip_model := ip_model s; blobs := b;
     model_constructions := model_constructions s;
     rag_constructions := rag_constructions s;
     recommendation_constructions := recommendation_constructions s;
     generate_calls := generate_calls s |}.

Definition enter_construction (svc : Service) (s : PState) : PState :=
  {| self := self s; ip_model := ip_model s; blobs := blobs s;
     model_constructions :=
       (if decide (svc = style_transfer) then S else id) (model_constructions s);
     rag_constructions :=
       (if decide (svc = rag_chat) then S else id) (rag_constructions s);
     recommendation_constructions :=
       (if decide (svc = recommendation) then S else id) (recommendation_constructions s);
     generate_calls := generate_calls s |}.

Definition record_generate (c : GenCall) (s : PState) : PState :=
  {| self := self s; ip_model := ip_model s; blobs := blobs s;
     model_constructions := model_constructions s;
     rag_constructions := rag_constructions s;
     recommendation_constructions := recommendation_constructions s;
     generate_calls := (generate_calls s ++ [c])%list |}.

Definition constructions (svc : Service) (s : PState) : nat :=
  match svc with
  | style_transfer => model_constructions s
  | rag_chat => rag_constructions s
  | recommendation => recommendation_constructions s
  end.

Definition loaded (svc : Service) (s : PState) : bool :=
  match svc with
  | style_transfer => style_transfer_loaded (self s)
  | rag_chat => rag_system_loaded (self s)
  | recommendation => recommendation_data_loaded (self s)
  end.

(** ** Opaque collaborators

    Everything the processor calls but does not define.  A construction step
    is indexed by the number of constructions of that service entered before
    it, so that an environment can fail first and succeed later. *)
Record Env : Type := {
  (* ailibs/style_transfer.py *)
  fetch_pipeline : nat -> res unit;      (* downloads, ControlNet and pipeline set-up *)
  build_ip_adapter : nat -> res unit;    (* [IPAdapter(pipe, ...)] *)
  ip_generate : GenCall -> res Image;    (* [ip_model.generate(...)[0]] *)
  INFERENCE_STEPS : nat;
  b64decode : string -> res string;
  image_open : string -> res Image;      (* [Image.open(BytesIO(data))] *)
  convert_rgb : Image -> res Image;      (* [image.convert("RGB")] *)
  resize_pixels : nat -> positive -> positive -> nat;
  (* [round_aspect] of [Image.thumbnail] took the ceiling, for an image of
     the first two sides and a box of the last two *)
  round_up : positive -> positive -> positive -> positive -> bool;
  canny_pixels : nat -> nat;
  str_value : pyval -> string;           (* [str(v)] of a value that is not a string *)
  type_name : pyval -> string;           (* [type(v).__name__] *)
  save_b64 : string -> Image -> string;  (* [image.save(buf, format)] then b64encode *)
  (* chat *)
  open_chroma : nat -> res unit;         (* [chromadb.PersistentClient(...)] *)
  get_collection : nat -> res unit;
  import_ollama : nat -> res unit;       (* [from ollama import Client; Client()] *)
  collection_query : string -> res (list (list string));  (* [results['documents']] *)
  ollama_generate : string -> res string;                 (* [response['response']] *)
  (* recommendation *)
  read_tourism_csv : nat -> res DataFrame;
  read_rating_csv : nat -> res nat;
  read_user_csv : nat -> res nat;
  (* start-up *)
  probe_gpu : res unit;                         (* [import torch] and the CUDA queries *)
  from_connection_string : string -> res unit   (* the SDK parses the credential *)
}.

(** ** Service loaders *)

Definition set_style_transfer_loaded (p : Processor) : Processor :=
  {| style_transfer_loaded := true;
     rag_system_loaded := rag_system_loaded p;
     recommendation_data_loaded := recommendation_data_loaded p;
     chroma_client := chroma_client p; rag_collection := rag_collection p;
     ollama_client := ollama_client p; tourism_df := tourism_df p;
     tourism_rating_df := tourism_rating_df p; user_df := user_df p |}.

Definition set_rag_system_loaded (p : Processor) : Processor :=
  {| style_transfer_loaded := style_transfer_loaded p;
     rag_system_loaded := true;
     recommendation_data_loaded := recommendation_data_loaded p;
     chroma_client := chroma_client p; rag_collection := rag_collection p;
     ollama_client := ollama_client p; tourism_df := tourism_df p;
     tourism_rating_df := tourism_rating_df p; user_df := user_df p |}.

Definition set_recommendation_data_loaded (p : Processor) : Processor :=
  {| style_transfer_loaded := style_transfer_loaded p;
     rag_system_loaded := rag_system_loaded p;
     recommendation_data_loaded := true;
     chroma_client := chroma_client p; rag_collection := rag_collection p;
     ollama_client := ollama_client p; tourism_df := tourism_df p;
     tourism_rating_df := tourism_rating_df p; user_df := user_df p |}.

Definition set_chroma_client (c : ChromaClient) (p : Processor) : Processor :=
  {| style_transfer_loaded := style_transfer_loaded p;
     rag_system_loaded := rag_system_loaded p;
     recommendation_data_loaded := recommendation_data_loaded p;
     chroma_client := Some c; rag_collection := rag_collection p;
     ollama_client := ollama_client p; tourism_df := tourism_df p;
     tourism_rating_df := tourism_rating_df p; user_df := user_df p |}.

Definition set_rag_collection (c : Collection) (p : Processor) : Processor :=
  {| style_transfer_loaded := style_transfer_loaded p;
     rag_system_loaded := rag_system_loaded p;
     recommendation_data_loaded := recommendation_data_loaded p;
     chroma_client := chroma_client p; rag_collection := Some c;
     ollama_client := ollama_client p; tourism_df := tourism_df p;
     tourism_rating_df := tourism_rating_df p; user_df := user_df p |}.

Definition set_ollama_client (c : option OllamaClient) (p : Processor) : Processor :=
  {| style_transfer_loaded := style_transfer_loaded p;
     rag_system_loaded := rag_system_loaded p;
     recommendation_data_loaded := recommendation_data_loaded p;
     chroma_client := chroma_client p; rag_collection := rag_collection p;
     ollama_client := Some c; tourism_df := tourism_df p;
     tourism_rating_df := tourism_rating_df p; user_df := user_df p |}.

Definition set_tourism_df (d : DataFrame) (p : Processor) : Processor :=
  {| style_transfer_loaded := style_transfer_loaded p;
     rag_system_loaded := rag_system_loaded p;
     recommendation_data_loaded := recommendation_data_loaded p;
     chroma_client := chroma_client p; rag_collection := rag_collection p;
     ollama_client := ollama_client p; tourism_df := Some d;
     tourism_rating_df := tourism_rating_df p; user_df := user_df p |}.

Definition set_tourism_rating_df (d : nat) (p : Processor) : Processor :=
  {| style_transfer_loaded := style_transfer_loaded p;
     rag_system_loaded := rag_system_loaded p;
     recommendation_data_loaded := recommendation_data_loaded p;
     chroma_client := chroma_client p; rag_collection := rag_collection p;
     ollama_client := ollama_client p; tourism_df := tourism_df p;
     tourism_rating_df := Some d; user_df := user_df p |}.

Definition set_user_df (d : nat) (p : Processor) : Processor :=
  {| style_transfer_loaded := style_transfer_loaded p;
     rag_system_loaded := rag_system_loaded p;
     recommendation_data_loaded := recommendation_data_loaded p;
     chroma_client := chroma_client p; rag_collection := rag_collection p;
     ollama_client := ollama_client p; tourism_df := tourism_df p;
     tourism_rating_df := tourism_rating_df p; user_df := Some d |}.

Section Loaders.
Context (env : Env).

(** [ailibs.style_transfer.model_load]: returns the cached global when it
    is set; otherwise downloads and builds the pipeline, wraps it in the
    IP-Adapter (falling back to the bare pipeline when that fails), stores
    the outcome in the global and returns it. *)
Definition model_load : M PState Model :=
  let* s := get in
  match ip_model s with
  | Some m => ret m
  | None =>
      let n := model_constructions s in
      modify (enter_construction style_transfer) >>
      lift (fetch_pipeline env n) >>
      let* m := try_except
                  (lift (build_ip_adapter env n) >> ret (IPAdapter n))
                  (fun _ => ret (Pipeline n)) in
      modify (set_ip_model (Some m)) >>
      ret m
  end.

(** [MultiServiceProcessor.load_style_transfer_model] *)
Definition load_style_transfer_model : M PState unit :=
  let* s := get in
  if negb (style_transfer_loaded (self s)) then
    try_except
      (model_load >>
       modify (with_self set_style_transfer_loaded))
      (fun e => raise e)
  else ret tt.

(** [MultiServiceProcessor.load_rag_system] *)
Definition load_rag_system : M PState unit :=
  let* s := get in
  if negb (rag_system_loaded (self s)) then
    let n := rag_constructions s in
    try_except
      (modify (enter_construction rag_chat) >>
       lift (open_chroma env n) >>
       modify (with_self (set_chroma_client (PersistentClient n))) >>
       lift (get_collection env n) >>
       modify (with_self (set_rag_collection (CulturalDocuments n))) >>
       try_except
         (lift (import_ollama env n) >>
          modify (with_self (set_ollama_client (Some (Client n)))))
         (fun e => if is_ImportError e
                   then modify (with_self (set_ollama_client None))
                   else raise e) >>
       modify (with_self set_rag_system_loaded))
      (fun e => raise e)
  else ret tt.

(** [MultiServiceProcessor.load_recommendation_data] *)
Definition load_recommendation_data : M PState unit :=
  let* s := get in
  if negb (recommendation_data_loaded (self s)) then
    let n := recommendation_constructions s in
    try_except
      (modify (enter_construction recommendation) >>
       let* t := lift (read_tourism_csv env n) in
       modify (with_self (set_tourism_df t)) >>
       let* r := lift (read_rating_csv env n) in
       modify (with_self (set_tourism_rating_df r)) >>
       let* u := lift (read_user_csv env n) in
       modify (with_self (set_user_df u)) >>
       modify (with_self set_recommendation_data_loaded))
      (fun e => raise e)
  else ret tt.

(** The loader of a service. *)
Definition load (svc : Service) : M PState unit :=
  match svc with
  | style_transfer => load_style_transfer_model
  | rag_chat => load_rag_system
  | recommendation => load_recommendation_data
  end.


(** The exception, if any, with which the [n]-th construction of a service
    ends, read off the environment. *)
Definition construction_error (svc : Service) (n : nat) : option exn :=
  match svc with
  | style_transfer =>
      match fetch_pipeline env n with Raise e => Some e | Ret _ => None end
  | rag_chat =>
      match open_chroma env n, get_collection env n, import_ollama env n with
      | Raise e, _, _ => Some e
      | Ret _, Raise e, _ => Some e
      | Ret _, Ret _, Raise e => if is_ImportError e then None else Some e
      | Ret _, Ret _, Ret _ => None
      end
  | recommendation =>
      match read_tourism_csv env n, read_rating_csv env n, read_user_csv env n with
      | Raise e, _, _ => Some e
      | Ret _, Raise e, _ => Some e
      | Ret _, Ret _, Raise e => Some e
      | Ret _, Ret _, Ret _ => None
      end
  end.

(** Nothing of the service is cached: its flag is unset and, for style
    transfer, the module global holds no model. *)
Definition unloaded (svc : Service) (s : PState) : Prop :=
  loaded svc s = false /\ (svc = style_transfer -> ip_model s = None).

End Loaders.

(** ** Result store *)

Definition BLOB_CONTAINER : string := "ai-service-results".

(** The blob name [f"results/{job_id}.json"]. *)
Definition blob_name (job_id : string) : string :=
  "results/" +:+ job_id +:+ ".json".

(** [MultiServiceProcessor.upload_result]: [upload_blob(..., overwrite=True)]
    replaces whatever the container holds under the blob name. *)
Definition upload_result (job_id : string) (result_data : Result) : M PState unit :=
  modify (fun s => set_blobs (<[blob_name job_id := result_data]> (blobs s)) s).

(** ** Strings *)

Definition newline : string := String (ascii_of_nat 10) EmptyString.

(** [needle in s] *)
Definition contains (needle s : string) : bool :=
  match String.index 0 needle s with Some _ => true | None => false end.

Definition lower_ascii (c : ascii) : ascii :=
  let n := nat_of_ascii c in
  if (65 <=? n)%nat && (n <=? 90)%nat then ascii_of_nat (n + 32) else c.

(** [s.lower()], on ASCII letters. *)
Fixpoint lower (s : string) : string :=
  match s with
  | EmptyString => EmptyString
  | String c s' => String (lower_ascii c) (lower s')
  end.

(** ["\n".join(parts)] *)
Fixpoint join_lines (parts : list string) : string :=
  match parts with
  | [] => ""
  | [p] => p
  | p :: rest => p +:+ newline +:+ join_lines rest
  end.

(** The number of bytes of the white-space character [s] starts with, and 0
    when it starts with none.  White space is what [str.split] and
    [str.strip] go by: U+0009 to U+000D, U+001C to U+0020, U+0085, U+00A0,
    U+1680, U+2000 to U+200A, U+2028, U+2029, U+202F, U+205F and U+3000, in
    their UTF-8 encodings. *)
Definition space_width (s : string) : nat :=
  match s with
  | EmptyString => 0
  | String c1 s1 =>
      let n1 := nat_of_ascii c1 in
      if ((9 <=? n1)%nat && (n1 <=? 13)%nat) || ((28 <=? n1)%nat && (n1 <=? 32)%nat) then 1
      else
        match s1 with
        | EmptyString => 0
        | String c2 s2 =>
            let n2 := nat_of_ascii c2 in
            if (n1 =? 194)%nat && ((n2 =? 133)%nat || (n2 =? 160)%nat) then 2
            else
              match s2 with
              | EmptyString => 0
              | String c3 _ =>
                  let n3 := nat_of_ascii c3 in
                  if (n1 =? 225)%nat && (n2 =? 154)%nat && (n3 =? 128)%nat then 3
                  else if (n1 =? 226)%nat && (n2 =? 128)%nat
                          && (((128 <=? n3)%nat && (n3 <=? 138)%nat)
                              || (n3 =? 168)%nat || (n3 =? 169)%nat || (n3 =? 175)%nat) then 3
                  else if (n1 =? 226)%nat && (n2 =? 129)%nat && (n3 =? 159)%nat then 3
                  else if (n1 =? 227)%nat && (n2 =? 128)%nat && (n3 =? 128)%nat then 3
                  else 0
              end
        end
  end.

(** [drop_spaces skip s]: [s] without its white-space characters, the first
    [skip] bytes being the rest of a white-space character already found. *)
Fixpoint drop_spaces (skip : nat) (s : string) : string :=
  match s with
  | EmptyString => EmptyString
  | String c s' =>
      match skip with
      | S k => drop_spaces k s'
      | O =>
          match space_width s with
          | O => String c (drop_spaces 0 s')
          | S k => drop_spaces k s'
          end
      end
  end.

(** [''.join(s.split())]: all white space removed. *)
Definition remove_whitespace (s : string) : string := drop_spaces 0 s.

Definition is_base64_char (c : ascii) : bool :=
  let n := nat_of_ascii c in
  ((65 <=? n)%nat && (n <=? 90)%nat) || ((97 <=? n)%nat && (n <=? 122)%nat)
  || ((48 <=? n)%nat && (n <=? 57)%nat) || (n =? 43)%nat || (n =? 47)%nat.

(** [re.match(r'^[A-Za-z0-9+/]*={0,2}$', s)], for [s] without white space. *)
Fixpoint matches_base64 (s : string) : bool :=
  match s with
  | EmptyString => true
  | String c s' =>
      if is_base64_char c then matches_base64 s'
      else String.eqb s "=" || String.eqb s "=="
  end.

(** [s.split(sep, 1)[1]], for [s] containing [sep]. *)
Definition after_first (sep s : string) : option string :=
  match String.index 0 sep s with
  | Some i => Some (String.substring (i + String.length sep)
                      (String.length s - (i + String.length sep)) s)
  | None => None
  end.

(** ** Recommendation: the tabular filter *)

(** [df[df[col] == v]] when the key is supplied, [df] otherwise. *)
Definition filter_equal (col : Row -> string) (v : option string) (df : DataFrame) : DataFrame :=
  match v with
  | Some x => List.filter (fun r => String.eqb (col r) x) df
  | None => df
  end.

(** [df[df['Price'] <= v]] *)
Definition filter_max_price (v : option Q) (df : DataFrame) : DataFrame :=
  match v with
  | Some x => List.filter (fun r => Qle_bool (Price r) x) df
  | None => df
  end.

(** [df[df['Rating'] >= v]] *)
Definition filter_min_rating (v : option Q) (df : DataFrame) : DataFrame :=
  match v with
  | Some x => List.filter (fun r => Qle_bool x (Rating r)) df
  | None => df
  end.

(** The four [if key in preferences] steps, in source order. *)
Definition apply_preferences (p : Prefs) (df : DataFrame) : DataFrame :=
  filter_min_rating (min_rating p)
    (filter_max_price (max_price p)
       (filter_equal City (city p)
          (filter_equal Category (category p) df))).

(** Insertion into a list ordered by rating, highest first; among equal
    ratings the inserted row goes first. *)
Fixpoint insert_by_rating (r : Row) (l : list Row) : list Row :=
  match l with
  | [] => [r]
  | x :: l' =>
      if Qle_bool (Rating x) (Rating r) then r :: x :: l'
      else x :: insert_by_rating r l'
  end.

(** Rows by rating descending, rows of equal rating in their original order. *)
Fixpoint sort_by_rating (df : DataFrame) : list Row :=
  match df with
  | [] => []
  | r :: rest => insert_by_rating r (sort_by_rating rest)
  end.

(** [df.nlargest(n, 'Rating')] (pandas, [keep='first']): the first [n] rows
    in descending order of rating. *)
Definition nlargest (n : nat) (df : DataFrame) : DataFrame :=
  take n (sort_by_rating df).

(** The dict appended to [recommendation_list] for one row. *)
Definition to_recommendation (row : Row) : Recommendation :=
  {| place_id := Place_Id row;
     place_name := Place_Name row;
     description := Description row;
     rec_category := Category row;
     rec_city := City row;
     price := Price row;
     rating := Rating row;
     time_minutes := Time_Minutes row;
     latitude := Lat row;
     longitude := Long row |}.

(** ** Images: [PIL.Image.thumbnail] *)

(** [round_aspect] of [Image.thumbnail]: the floor or the ceiling of
    [number], but at least 1.  The library takes the one whose aspect ratio
    is nearer to the image's, and compares the two in double precision: at
    and near a tie the outcome depends on the rounding of the doubles, so
    which of the two it was is an input, [ceiling]. *)
Definition round_aspect (ceiling : bool) (number : Q) : Z :=
  Z.max (if ceiling then Qceiling number else Qfloor number) 1.

(** The size [Image.thumbnail((x, y))] gives an image of size [w] by [h];
    [None] when the image already fits and is left alone. *)
Definition thumbnail_size (ceiling : bool) (w h x y : positive)
    : option (positive * positive) :=
  if ((w <=? x)%positive && (h <=? y)%positive)%bool then None
  else
    let aspect : Q := Z.pos w # h in
    if Qle_bool aspect (Z.pos x # y) then
      Some (Z.to_pos (round_aspect ceiling (inject_Z (Z.pos y) * aspect)), y)
    else
      Some (x, Z.to_pos (round_aspect ceiling (inject_Z (Z.pos x) / aspect))).

Definition longest_side (im : Image) : positive :=
  Pos.max (im_width im) (im_height im).

(** ** Calling a Python function *)

(** The name of the first keyword argument that is not a parameter. *)
Fixpoint unexpected_keyword (params : list string) (kwargs : list (string * pyval)) : option string :=
  match kwargs with
  | [] => None
  | (k, _) :: rest =>
      if existsb (String.eqb k) params then unexpected_keyword params rest else Some k
  end.

(** Argument binding for a function whose parameters are all positional-or-
    keyword without defaults: positional arguments fill the parameters from
    the left, keyword arguments by name.  A keyword that names no parameter or
    an already filled one, too many positional arguments, and a parameter
    left unfilled each raise [TypeError], checked in that order. *)
Definition bind_arguments (fname : string) (params : list string)
    (args : list pyval) (kwargs : list (string * pyval)) : res (list (string * pyval)) :=
  let positional := zip params args in
  match unexpected_keyword params kwargs with
  | Some k =>
      Raise (TypeError (fname +:+ "() got an unexpected keyword argument '" +:+ k +:+ "'"))
  | None =>
      if existsb (fun kv => existsb (String.eqb (fst kv)) (map fst positional)) kwargs then
        Raise (TypeError (fname +:+ "() got multiple values for argument"))
      else if (List.length params <? List.length args)%nat then
        Raise (TypeError (fname +:+ "() takes fewer positional arguments than were given"))
      else
        let bound := (positional ++ kwargs)%list in
        if forallb (fun p => existsb (String.eqb p) (map fst bound)) params then Ret bound
        else Raise (TypeError (fname +:+ "() missing required positional arguments"))
  end.

Fixpoint lookup_argument (name : string) (bound : list (string * pyval)) : option pyval :=
  match bound with
  | [] => None
  | (k, v) :: rest => if String.eqb k name then Some v else lookup_argument name rest
  end.

(** ** Style transfer: [ailibs/style_transfer.py] *)

Definition base_prompt_head : string :=
  "a profile picture or avatar, fun, artistic, represent indonesian culture, traditional, art, fit for poster, good for instagram".

Definition base_prompt_tail : string :=
  "suitable for sharing on social media like Instagram.".

Definition NEGATIVE_PROMPT : string :=
  "nsfw, nude, mutated, ugly, watermark, lowres, low quality, worst quality, deformed, glitch, low contrast, noisy, saturation, blurry, boring, too formal, bad anatomy, propaganda, politics.".

(** The parameter list of [style_trans]. *)
Definition style_trans_params : list string :=
  ["content_image_b64"; "style_image_b64"; "influence"; "creativity"; "additional_prompt"].

Section StyleTransfer.
Context (env : Env).

(** [image.thumbnail(size, LANCZOS)]: in place, to the size computed by
    [thumbnail_size]; untouched when it already fits. *)
Definition thumbnail (im : Image) (size : positive * positive) : Image :=
  match thumbnail_size
          (round_up env (im_width im) (im_height im) (fst size) (snd size))
          (im_width im) (im_height im) (fst size) (snd size) with
  | None => im
  | Some (x, y) =>
      if decide ((im_width im, im_height im) = (x, y)) then im
      else {| im_width := x; im_height := y;
              im_pixels := resize_pixels env (im_pixels im) x y |}
  end.

(** [Image.fromarray(cv2.Canny(np.array(im), 100, 200))]: an edge map of
    the same size. *)
Definition canny (im : Image) : Image :=
  {| im_width := im_width im; im_height := im_height im;
     im_pixels := canny_pixels env (im_pixels im) |}.

(** [decode_base64_image]: plain base64 or a data URL.  Every failure on a
    string leaves as a [ValueError].  An argument that is not a string has
    no [startswith]; the handler of the outer [try] then fails in its turn,
    on the slice [base64_string[:100]] it prints, and that [TypeError] is
    what leaves. *)
Definition decode_base64_image (base64_string : pyval) : M PState Image :=
  try_except
    (let* base64_data :=
       match base64_string with
       | PyStr s =>
           if String.prefix "data:" s then
             match after_first ";base64," s with
             | Some d => ret d
             | None => raise (ValueError "Invalid data URL format - missing ';base64,' separator")
             end
           else ret s
       | _ => raise (PyExc "AttributeError"
                       ("'" +:+ type_name env base64_string
                        +:+ "' object has no attribute 'startswith'"))
       end in
     let base64_data := remove_whitespace base64_data in
     if negb (matches_base64 base64_data) then
       raise (ValueError "Invalid base64 characters detected")
     else
       let* image_data :=
         try_except (lift (b64decode env base64_data))
           (fun decode_error =>
              raise (ValueError ("Failed to decode base64 data: " +:+ str decode_error))) in
       try_except
         (let* image := lift (image_open env image_data) in
          lift (convert_rgb env image))
         (fun image_error =>
            raise (ValueError ("Failed to create image from decoded data: "
                               +:+ str image_error))))
    (fun e =>
       match base64_string with
       | PyStr _ => raise (ValueError ("Failed to decode base64 image: " +:+ str e))
       | _ => raise (TypeError ("'" +:+ type_name env base64_string
                                +:+ "' object is not subscriptable"))
       end).

(** [min(creativity, 15)]: 15 when [15 < creativity], else [creativity].
    Every comparison with NaN is false, so NaN comes back as it is; a value
    that is not a number cannot be compared with 15. *)
Definition min_15 (creativity : pyval) : res pyval :=
  match creativity with
  | PyNum q => Ret (if Qle_bool q 15 then PyNum q else PyNum 15)
  | PyNaN => Ret PyNaN
  | PyInf true => Ret (PyInf true)
  | PyInf false => Ret (PyNum 15)
  | PyStr _ | PyImage _ =>
      Raise (TypeError ("'<' not supported between instances of 'int' and '"
                        +:+ type_name env creativity +:+ "'"))
  end.

(** The f-string rendering [f"{v}"]: a string as it is, any other value as
    Python prints it. *)
Definition format_value (v : pyval) : string :=
  match v with
  | PyStr s => s
  | _ => str_value env v
  end.

(** The body of [style_trans], entered once the arguments are bound. *)
Definition style_trans_body
    (content_image_b64 style_image_b64 influence creativity additional_prompt : pyval)
    : M PState Image :=
  try_except
    (let* s := get in
     let* model :=
       match ip_model s with
       | None => let* m := model_load env in
                 modify (set_ip_model (Some m)) >> ret m
       | Some m => ret m
       end in
     let* content_image := decode_base64_image content_image_b64 in
     let* style_image := decode_base64_image style_image_b64 in
     let max_size := 512%positive in
     let content_image := thumbnail content_image (max_size, max_size) in
     let style_image := thumbnail style_image (max_size, max_size) in
     let prompt :=
       base_prompt_head +:+ newline +:+ format_value additional_prompt +:+ "."
       +:+ newline +:+ base_prompt_tail in
     if has_generate model then
       let canny_image := canny content_image in
       let* guidance := lift (min_15 creativity) in
       let call :=
         {| pil_image := style_image;
            prompt := prompt;
            negative_prompt := NEGATIVE_PROMPT;
            scale := influence;
            guidance_scale := guidance;
            num_samples := 1;
            num_inference_steps := INFERENCE_STEPS env;
            image := canny_image;
            controlnet_conditioning_scale := (6 # 10)%Q;
            height := 512;
            width := 512 |} in
       modify (record_generate call) >>
       lift (ip_generate env call)
     else
       ret content_image)
    (fun e => raise (RuntimeError ("Style transfer failed: " +:+ str e))).

(** A call of [style_trans] with positional arguments [args] and keyword
    arguments [kwargs]: the arguments are bound to the
    five parameters before the body, and so before its [try], is entered. *)
Definition style_trans (args : list pyval) (kwargs : list (string * pyval)) : M PState Image :=
  let* bound := lift (bind_arguments "style_trans" style_trans_params args kwargs) in
  match lookup_argument "content_image_b64" bound,
        lookup_argument "style_image_b64" bound,
        lookup_argument "influence" bound,
        lookup_argument "creativity" bound,
        lookup_argument "additional_prompt" bound with
  | Some c, Some s, Some i, Some g, Some p => style_trans_body c s i g p
  | _, _, _, _, _ => raise (TypeError "style_trans() missing required positional arguments")
  end.

End StyleTransfer.

(** ** Service handlers: [MultiServiceProcessor.process_*]

    A handler reads the clock once; [now] is that reading. *)

Definition fallback_borobudur : string :=
  "Borobudur adalah candi Buddha terbesar di dunia yang terletak di Magelang, Jawa Tengah. Candi ini dibangun pada abad ke-8 hingga ke-9 oleh Dinasti Syailendra.".

Definition fallback_monas : string :=
  "Monumen Nasional (Monas) adalah monumen setinggi 132 meter yang terletak di Jakarta Pusat. Monas didirikan untuk mengenang perjuangan kemerdekaan Indonesia.".

Definition fallback_other : string :=
  "Maaf, saya memerlukan informasi lebih lanjut untuk menjawab pertanyaan Anda tentang budaya Indonesia. Bisa tolong berikan pertanyaan yang lebih spesifik?".

(** [MultiServiceProcessor.generate_fallback_response] *)
Definition generate_fallback_response (question context : string) : string :=
  if contains "borobudur" (lower question) then fallback_borobudur
  else if contains "monas" (lower question) then fallback_monas
  else fallback_other.

(** The [error_result] dict of the three handlers. *)
Definition error_result (svc : Service) (now : nat) (jid : string) (e : exn) : Result :=
  {| r_job_id := jid;
     r_service_type := service_name svc;
     r_status := "error";
     r_output := ErrorOutput (str e);
     r_timestamp := now |}.

(** The [except Exception as e:] block shared by the three handlers: build
    the error result, upload it, and re-raise. *)
Definition on_handler_error {A} (svc : Service) (now : nat) (job_data : Job)
    (e : exn) : M PState A :=
  let* jid := subscript "job_id" (job_id job_data) in
  upload_result jid (error_result svc now jid e) >>
  raise e.

Section Handlers.
Context (env : Env).

(** The [try] block of [MultiServiceProcessor.process_style_transfer]. *)
Definition process_style_transfer_try (now : nat) (job_data : Job) : M PState Result :=
  load_style_transfer_model env >>
  let* jid := subscript "job_id" (job_id job_data) in
  let* content_b64 := subscript "content_image" (content_image job_data) in
  let* content_image_data := lift (b64decode env content_b64) in
  let* style_b64 := subscript "style_image" (style_image job_data) in
  let* style_image_data := lift (b64decode env style_b64) in
  let* content_image := lift (image_open env content_image_data) in
  let* style_image := lift (image_open env style_image_data) in
  let* result_image :=
    style_trans env
      [PyImage content_image; PyImage style_image]
      [("strength", PyNum (default (8 # 10)%Q (strength job_data)))] in
  let result_base64 := save_b64 env "JPEG" result_image in
  let result_data :=
    {| r_job_id := jid;
       r_service_type := "style_transfer";
       r_status := "completed";
       r_output := StyleOutput result_base64 (now - default now (start_time job_data));
       r_timestamp := now |} in
  upload_result jid result_data >>
  ret result_data.

(** [MultiServiceProcessor.process_style_transfer] *)
Definition process_style_transfer (now : nat) (job_data : Job) : M PState Result :=
  try_except (process_style_transfer_try now job_data)
    (on_handler_error style_transfer now job_data).

(** The [try] block of [MultiServiceProcessor.process_rag_chat]. *)
Definition process_rag_chat_try (now : nat) (job_data : Job) : M PState Result :=
  load_rag_system env >>
  let* jid := subscript "job_id" (job_id job_data) in
  let* question := subscript "question" (question job_data) in
  let* documents := lift (collection_query env question) in
  let context := match documents with
                 | [] => ""
                 | first :: _ => join_lines first
                 end in
  let* s := get in
  let* answer :=
    match ollama_client (self s) with
    | Some (Some _) =>
        try_except
          (lift (ollama_generate env
                   ("Context: " +:+ context +:+ newline +:+ newline
                    +:+ "Question: " +:+ question +:+ newline +:+ newline
                    +:+ "Answer:")))
          (fun _ => ret (generate_fallback_response question context))
    | Some None => ret (generate_fallback_response question context)
    | None => raise (PyExc "AttributeError" "ollama_client")
    end in
  let result_data :=
    {| r_job_id := jid;
       r_service_type := "rag_chat";
       r_status := "completed";
       r_output := ChatOutput question answer (negb (String.eqb context ""));
       r_timestamp := now |} in
  upload_result jid result_data >>
  ret result_data.

(** [MultiServiceProcessor.process_rag_chat] *)
Definition process_rag_chat (now : nat) (job_data : Job) : M PState Result :=
  try_except (process_rag_chat_try now job_data)
    (on_handler_error rag_chat now job_data).

(** The [try] block of [MultiServiceProcessor.process_recommendation]. *)
Definition process_recommendation_try (now : nat) (job_data : Job) : M PState Result :=
  load_recommendation_data env >>
  let* jid := subscript "job_id" (job_id job_data) in
  let* uid := subscript "user_id" (user_id job_data) in
  let* prefs := subscript "preferences" (preferences job_data) in
  let lim := default 10%nat (limit job_data) in
  let* s := get in
  let* df := match tourism_df (self s) with
             | Some df => ret df
             | None => raise (PyExc "AttributeError" "tourism_df")
             end in
  let filtered_df := apply_preferences prefs df in
  let recommendations := nlargest lim filtered_df in
  let recommendation_list := map to_recommendation recommendations in
  let result_data :=
    {| r_job_id := jid;
       r_service_type := "recommendation";
       r_status := "completed";
       r_output := RecommendationOutput uid prefs recommendation_list
                     (List.length recommendation_list);
       r_timestamp := now |} in
  upload_result jid result_data >>
  ret result_data.

(** [MultiServiceProcessor.process_recommendation] *)
Definition process_recommendation (now : nat) (job_data : Job) : M PState Result :=
  try_except (process_recommendation_try now job_data)
    (on_handler_error recommendation now job_data).

(** The [try] block of the handler of a service. *)
Definition handler_try (svc : Service) : nat -> Job -> M PState Result :=
  match svc with
  | style_transfer => process_style_transfer_try
  | rag_chat => process_rag_chat_try
  | recommendation => process_recommendation_try
  end.

(** The handler of a service: the [if]/[elif] chain of the dispatcher. *)
Definition handler (svc : Service) : nat -> Job -> M PState Result :=
  match svc with
  | style_transfer => process_style_transfer
  | rag_chat => process_rag_chat
  | recommendation => process_recommendation
  end.

End Handlers.

(** ** Queues

    A storage queue as the dispatcher uses it.  A message that has been
    received stays in the queue, hidden until its visibility timeout runs
    out; deleting it removes it for good. *)

Inductive Content : Type :=
| NotJson                 (* [json.loads] raises *)
| JsonOther               (* valid JSON that is not an object *)
| JsonObject (j : Job).

Record Message : Type := {
  message_id : nat;
  content : Content;
  visible_from : nat;
  dequeue_count : nat
}.

Definition hide (until : nat) (m : Message) : Message :=
  {| message_id := message_id m; content := content m;
     visible_from := until; dequeue_count := S (dequeue_count m) |}.

(** [receive_messages(max_messages=1, visibility_timeout=t)] at time [now]:
    the first visible message, if any, which becomes hidden for [t] seconds. *)
Fixpoint receive_messages (now t : nat) (q : list Message) : option Message * list Message :=
  match q with
  | [] => (None, [])
  | m :: rest =>
      if (visible_from m <=? now)%nat then (Some m, hide (now + t) m :: rest)
      else let '(r, rest') := receive_messages now t rest in (r, m :: rest')
  end.

(** [delete_message(message)] *)
Definition delete_message (m : Message) (q : list Message) : list Message :=
  List.filter (fun x => negb (message_id x =? message_id m)%nat) q.

Definition message_ids (q : list Message) : list nat := map message_id q.

(** ** The dispatcher: [main] *)

Inductive Event : Type :=
| Polled (svc : Service) (received : option nat)
| Handled (svc : Service) (m : nat) (returned : bool)
| Deleted (svc : Service) (m : nat).

(** The variables of [main]'s loop, the queues and the clock.  [trace] and
    [cycles] are ghost: what the loop did, and how many cycles it began. *)
Record Dispatcher : Type := {
  now : nat;
  style_transfer_jobs : list Message;
  rag_jobs : list Message;
  recommendation_jobs : list Message;
  idle_count : nat;
  processor : PState;
  trace : list Event;
  cycles : nat
}.

Definition queue (svc : Service) (d : Dispatcher) : list Message :=
  match svc with
  | style_transfer => style_transfer_jobs d
  | rag_chat => rag_jobs d
  | recommendation => recommendation_jobs d
  end.

Definition set_queue (svc : Service) (q : list Message) (d : Dispatcher) : Dispatcher :=
  {| now := now d;
     style_transfer_jobs := if decide (svc = style_transfer) then q else style_transfer_jobs d;
     rag_jobs := if decide (svc = rag_chat) then q else rag_jobs d;
     recommendation_jobs := if decide (svc = recommendation) then q else recommendation_jobs d;
     idle_count := idle_count d; processor := processor d;
     trace := trace d; cycles := cycles d |}.

Definition set_idle_count (n : nat) (d : Dispatcher) : Dispatcher :=
  {| now := now d; style_transfer_jobs := style_transfer_jobs d;
     rag_jobs := rag_jobs d; recommendation_jobs := recommendation_jobs d;
     idle_count := n; processor := processor d;
     trace := trace d; cycles := cycles d |}.

Definition set_processor (p : PState) (d : Dispatcher) : Dispatcher :=
  {| now := now d; style_transfer_jobs := style_transfer_jobs d;
     rag_jobs := rag_jobs d; recommendation_jobs := recommendation_jobs d;
     idle_count := idle_count d; processor := p;
     trace := trace d; cycles := cycles d |}.

Definition emit (e : Event) (d : Dispatcher) : Dispatcher :=
  {| now := now d; style_transfer_jobs := style_transfer_jobs d;
     rag_jobs := rag_jobs d; recommendation_jobs := recommendation_jobs d;
     idle_count := idle_count d; processor := processor d;
     trace := (trace d ++ [e])%list; cycles := cycles d |}.

(** [time.sleep(seconds)] *)
Definition sleep (seconds : nat) (d : Dispatcher) : Dispatcher :=
  {| now := now d + seconds; style_transfer_jobs := style_transfer_jobs d;
     rag_jobs := rag_jobs d; recommendation_jobs := recommendation_jobs d;
     idle_count := idle_count d; processor := processor d;
     trace := trace d; cycles := cycles d |}.

Definition begin_cycle (d : Dispatcher) : Dispatcher :=
  {| now := now d; style_transfer_jobs := style_transfer_jobs d;
     rag_jobs := rag_jobs d; recommendation_jobs := recommendation_jobs d;
     idle_count := idle_count d; processor := processor d;
     trace := trace d; cycles := S (cycles d) |}.

Definition set_start_time (t : nat) (j : Job) : Job :=
  {| job_id := job_id j; content_image := content_image j;
     style_image := style_image j; strength := strength j;
     question := question j; user_id := user_id j;
     preferences := preferences j; limit := limit j;
     start_time := Some t |}.

Definition max_idle_time : nat := 120.
Definition visibility_timeout : nat := 600.

(** The keys of the [queues] dict, in insertion order. *)
Definition queue_order : list Service := [style_transfer; rag_chat; recommendation].

Section Dispatch.
Context (env : Env).

(** The inner [try] of the loop for one received message: parse the body,
    stamp the start time, run the handler of the queue's service, and
    delete the message; any exception on the way leaves the message.  How
    long the handler runs is not modelled: the clock is left where it was,
    and reads the time at which the message was received. *)
Definition process_message (svc : Service) (message : Message) (d : Dispatcher) : Dispatcher :=
  match content message with
  | JsonObject j =>
      let job_data := set_start_time (now d) j in
      let '(r, p) := handler env svc (now d) job_data (processor d) in
      let d := set_processor p d in
      match r with
      | Ret _ =>
          let d := emit (Handled svc (message_id message) true) d in
          emit (Deleted svc (message_id message))
            (set_queue svc (delete_message message (queue svc d)) d)
      | Raise _ => emit (Handled svc (message_id message) false) d
      end
  | NotJson | JsonOther => d
  end.

(** One turn of [for service_name, queue_client in queues.items()]: the
    flag says whether a message was received. *)
Definition poll_queue (svc : Service) (d : Dispatcher) : bool * Dispatcher :=
  match receive_messages (now d) visibility_timeout (queue svc d) with
  | (Some message, q) =>
      let d := emit (Polled svc (Some (message_id message))) (set_queue svc q d) in
      let d := set_idle_count 0 d in
      (true, process_message svc message d)
  | (None, _) => (false, emit (Polled svc None) d)
  end.

Fixpoint poll_queues (order : list Service) (message_found : bool) (d : Dispatcher)
    : bool * Dispatcher :=
  match order with
  | [] => (message_found, d)
  | svc :: rest =>
      let '(found, d) := poll_queue svc d in
      poll_queues rest (message_found || found) d
  end.

(** One iteration of [while True]: [true] when the loop goes on, [false]
    on [break].  This is the outer [try] block; its [except], which logs and
    sleeps five seconds, is not reached, since the queue calls do not raise
    and [process_message] absorbs every exception of a handler. *)
Definition poll_cycle (d : Dispatcher) : bool * Dispatcher :=
  let '(message_found, d) := poll_queues queue_order false (begin_cycle d) in
  if negb message_found then
    let d := set_idle_count (idle_count d + 1) d in
    if (max_idle_time <=? idle_count d)%nat then (false, d)
    else (true, sleep 1 d)
  else (true, sleep 1 d).

(** The loop, for at most [fuel] iterations; [None] when it is still
    running after them. *)
Fixpoint main_loop (fuel : nat) (d : Dispatcher) : option Dispatcher :=
  match fuel with
  | 0%nat => None
  | S fuel =>
      let '(go_on, d) := poll_cycle d in
      if go_on then main_loop fuel d else Some d
  end.

(** The dispatcher state after [n] iterations, when the loop runs that long. *)
Fixpoint after_cycles (n : nat) (d : Dispatcher) : option Dispatcher :=
  match n with
  | 0%nat => Some d
  | S n =>
      let '(go_on, d) := poll_cycle d in
      if go_on then after_cycles n d else None
  end.

End Dispatch.

(** What [main] finds when it starts: the environment variable, the clock,
    the three queues and the blob container. *)
Record Deployment : Type := {
  AZURE_STORAGE_CONNECTION_STRING : option string;
  started_at : nat;
  pending_style_transfer : list Message;
  pending_rag : list Message;
  pending_recommendation : list Message;
  container : gmap string Result
}.

(** The state in which the loop is entered: [idle_count = 0] and a fresh
    [MultiServiceProcessor]. *)
Definition ready (w : Deployment) : Dispatcher :=
  {| now := started_at w;
     style_transfer_jobs := pending_style_transfer w;
     rag_jobs := pending_rag w;
     recommendation_jobs := pending_recommendation w;
     idle_count := 0;
     processor := PState_init (container w);
     trace := [];
     cycles := 0 |}.

(** How a run of [main] ends: it returned, with the loop state if the loop
    was entered at all, or an exception left it. *)
Inductive Outcome : Type :=
| Returned (final : option Dispatcher)
| Uncaught (e : exn).

(** The GPU check that opens [main]: a missing [torch] is logged and
    ignored, any other exception leaves [main]. *)
Definition gpu_check_error (env : Env) : option exn :=
  match probe_gpu env with
  | Ret _ => None
  | Raise e => if is_ImportError e then None else Some e
  end.

(** [main()], for at most [fuel] loop iterations.  [if not
    connection_string] holds for an unset and for an empty variable.  The
    blob and queue clients are built from the connection string outside any
    [try]; inside the loop every exception is caught. *)
Definition main (env : Env) (w : Deployment) (fuel : nat) : option Outcome :=
  match gpu_check_error env with
  | Some e => Some (Uncaught e)
  | None =>
      match AZURE_STORAGE_CONNECTION_STRING w with
      | None | Some "" => Some (Returned None)
      | Some connection_string =>
          match from_connection_string env connection_string with
          | Raise e => Some (Uncaught e)
          | Ret _ =>
              match main_loop env fuel (ready w) with
              | Some d => Some (Returned (Some d))
              | None => None
              end
          end
      end
  end.

(** The exit status of [python multi_service_processor.py].  The script
    calls [main()] and nothing else: the interpreter exits with status 0 once
    [main] has returned and with status 1 on an uncaught exception. *)
Definition exit_status (o : Outcome) : Z :=
  match o with
  | Returned _ => 0
  | Uncaught _ => 1
  end.

(** ** The conjunctive reading of the preference filter

    The specification's wording: a row is kept when it meets every constraint
    that is supplied; a key that is absent constrains nothing. *)
Definition meets_preferences (p : Prefs) (r : Row) : bool :=
  match category p with Some c => String.eqb (Category r) c | None => true end
  && match city p with Some c => String.eqb (City r) c | None => true end
  && match max_price p with Some x => Qle_bool (Price r) x | None => true end
  && match min_rating p with Some x => Qle_bool x (Rating r) | None => true end.

(** The same constraints read off an output record. *)
Definition record_meets (p : Prefs) (r : Recommendation) : Prop :=
  (forall c, category p = Some c -> rec_category r = c)
  /\ (forall c, city p = Some c -> rec_city r = c)
  /\ (forall x, max_price p = Some x -> (price r <= x)%Q)
  /\ (forall x, min_rating p = Some x -> (x <= rating r)%Q).

(** The fixed output schema: a record carries the ten fields place id,
    name, description, category, city, price, rating, duration, latitude and
    longitude, each with the value of the row's column. *)
Definition projection_of (row : Row) (r : Recommendation) : Prop :=
  place_id r = Place_Id row
  /\ place_name r = Place_Name row
  /\ description r = Description row
  /\ rec_category r = Category row
  /\ rec_city r = City row
  /\ price r = Price row
  /\ rating r = Rating row
  /\ time_minutes r = Time_Minutes row
  /\ latitude r = Lat row
  /\ longitude r = Long row.

(** The order of the output: [b] may follow [a] when it is not rated higher. *)
Definition rated_no_higher (a b : Row) : Prop := (Rating b <= Rating a)%Q.

Definition record_rated_no_higher (a b : Recommendation) : Prop :=
  (rating b <= rating a)%Q.

(** The size [a] by [b] is what scaling [w] by [h] into a box whose
    constraining side is kept exact gives, the other side being within one
    pixel of the exactly proportional length. *)
Definition proportional_within_a_pixel (w h a b : positive) (x y : positive) : Prop :=
  (b = y /\ (Z.abs (Z.pos a * Z.pos h - Z.pos y * Z.pos w) < Z.pos h)%Z)
  \/ (a = x /\ (Z.abs (Z.pos b * Z.pos w - Z.pos x * Z.pos h) < Z.pos w)%Z).

(** An image is a thumbnail of another for a square box of side [side]: the
    original when that fits, else a proportionally scaled copy whose longest
    side is exactly [side]. *)
Definition downscaled (side : positive) (original t : Image) : Prop :=
  (longest_side t <= side)%positive
  /\ ((longest_side original <= side)%positive -> t = original)
  /\ ((side < longest_side original)%positive ->
      longest_side t = side
      /\ proportional_within_a_pixel (im_width original) (im_height original)
           (im_width t) (im_height t) side side).

(** ** Trace observations *)

Definition polled_services (evs : list Event) : list Service :=
  omap (fun e => match e with Polled svc _ => Some svc | _ => None end) evs.

Definition handled_of (svc : Service) (evs : list Event) : list nat :=
  omap (fun e => match e with
                 | Handled svc' m _ => if decide (svc' = svc) then Some m else None
                 | _ => None
                 end) evs.

Definition event_service (e : Event) : Service :=
  match e with
  | Polled svc _ | Handled svc _ _ | Deleted svc _ => svc
  end.

(** What the events [evs] of a stretch of polling, from dispatcher state [d]
    to [d'], say about the queue of one service: at most one message was
    handled; a message was deleted exactly when its handler returned, and is
    then gone from the queue; a message whose handler raised is still in the
    queue, hidden for the visibility timeout; and every handled message was a
    visible message of the queue whose body parsed, with the recorded outcome
    that of the handler invocation. *)
Definition service_facts (env : Env) (svc : Service) (d d' : Dispatcher)
    (evs : list Event) : Prop :=
  (List.length (handled_of svc evs) <= 1)%nat
  /\ (forall m, In (Deleted svc m) evs <-> In (Handled svc m true) evs)
  /\ (forall m, In (Deleted svc m) evs -> ~ In m (message_ids (queue svc d')))
  /\ (forall m, In (Handled svc m false) evs ->
      exists msg, In msg (queue svc d') /\ message_id msg = m
                  /\ visible_from msg = (now d + visibility_timeout)%nat)
  /\ (forall m returned, In (Handled svc m returned) evs ->
      exists msg j p,
        In msg (queue svc d) /\ message_id msg = m
        /\ (visible_from msg <= now d)%nat
        /\ content msg = JsonObject j
        /\ is_ret (handler env svc (now d) (set_start_time (now d) j) p).1 = returned).

(** Whether the queue of a service has a message to hand out at the time of
    [d]. *)
Definition yields (svc : Service) (d : Dispatcher) : bool :=
  bool_decide (is_Some (receive_messages (now d) visibility_timeout (queue svc d)).1).

(** Whether some queue yields a message in the cycle that starts in [d]. *)
Definition any_yields (d : Dispatcher) : bool :=
  existsb (fun svc => yields svc d) queue_order.

(** No message of any queue is visible before the clock reads [t]. *)
Definition quiet_until (t : nat) (d : Dispatcher) : Prop :=
  forall svc m, In m (queue svc d) -> (t <= visible_from m)%nat.

(** ** Sample environments and data *)

Definition sample_image (w h : positive) : Image :=
  {| im_width := w; im_height := h; im_pixels := 0 |}.

(** Every collaborator works; every decoded picture is 1024 by 768. *)
Definition working_env : Env :=
  {| fetch_pipeline := fun _ => Ret tt;
     build_ip_adapter := fun _ => Ret tt;
     ip_generate := fun c => Ret (sample_image 512 512);
     INFERENCE_STEPS := 10;
     b64decode := fun s => Ret s;
     image_open := fun _ => Ret (sample_image 1024 768);
     convert_rgb := fun im => Ret im;
     resize_pixels := fun p _ _ => S p;
     round_up := fun _ _ _ _ => false;
     canny_pixels := fun p => p;
     str_value := fun v =>
       match v with
       | PyStr s => s
       | PyNum _ => "0.5"
       | PyNaN => "nan"
       | PyInf negative => if negative then "-inf" else "inf"
       | PyImage _ => "<PIL.Image.Image image mode=RGB>"
       end;
     type_name := fun v =>
       match v with
       | PyStr _ => "str"
       | PyImage _ => "Image"
       | _ => "float"
       end;
     save_b64 := fun _ _ => "aW1hZ2U=";
     open_chroma := fun _ => Ret tt;
     get_collection := fun _ => Ret tt;
     import_ollama := fun _ => Raise (PyExc "ImportError" "No module named 'ollama'");
     collection_query := fun _ => Ret [["Candi Borobudur"; "Magelang"]];
     ollama_generate := fun _ => Ret "jawaban";
     read_tourism_csv := fun _ =>
       Ret [ {| Place_Id := 1; Place_Name := "Monumen Nasional"; Description := "Monas";
                Category := "Budaya"; City := "Jakarta"; Price := 20000; Rating := 46 # 10;
                Time_Minutes := 15; Lat := -6; Long := 106 |};
             {| Place_Id := 2; Place_Name := "Kota Tua"; Description := "Kota tua Jakarta";
                Category := "Budaya"; City := "Jakarta"; Price := 0; Rating := 45 # 10;
                Time_Minutes := 90; Lat := -6; Long := 106 |};
             {| Place_Id := 3; Place_Name := "Dunia Fantasi"; Description := "Dufan";
                Category := "Taman Hiburan"; City := "Jakarta"; Price := 270000; Rating := 46 # 10;
                Time_Minutes := 360; Lat := -6; Long := 106 |};
             {| Place_Id := 4; Place_Name := "Candi Prambanan"; Description := "Candi Hindu";
                Category := "Budaya"; City := "Yogyakarta"; Price := 50000; Rating := 47 # 10;
                Time_Minutes := 120; Lat := -7; Long := 110 |};
             {| Place_Id := 5; Place_Name := "Museum Wayang"; Description := "Museum";
                Category := "Budaya"; City := "Jakarta"; Price := 5000; Rating := 44 # 10;
                Time_Minutes := 60; Lat := -6; Long := 106 |} ];
     read_rating_csv := fun _ => Ret 0%nat;
     read_user_csv := fun _ => Ret 0%nat;
     probe_gpu := Raise (PyExc "ImportError" "No module named 'torch'");
     from_connection_string := fun _ => Ret tt |}.

Definition transient : exn := PyExc "OSError" "connection reset".

(** As [working_env], except that the first construction of every service
    fails. *)
Definition flaky_env : Env :=
  {| fetch_pipeline := fun n => if (n =? 0)%nat then Raise transient else Ret tt;
     build_ip_adapter := build_ip_adapter working_env;
     ip_generate := ip_generate working_env;
     INFERENCE_STEPS := INFERENCE_STEPS working_env;
     b64decode := b64decode working_env;
     image_open := image_open working_env;
     convert_rgb := convert_rgb working_env;
     resize_pixels := resize_pixels working_env;
     round_up := round_up working_env;
     canny_pixels := canny_pixels working_env;
     str_value := str_value working_env;
     type_name := type_name working_env;
     save_b64 := save_b64 working_env;
     open_chroma := open_chroma working_env;
     get_collection := fun n => if (n =? 0)%nat then Raise transient else Ret tt;
     import_ollama := import_ollama working_env;
     collection_query := collection_query working_env;
     ollama_generate := ollama_generate working_env;
     read_tourism_csv := read_tourism_csv working_env;
     read_rating_csv := fun n => if (n =? 0)%nat then Raise transient else Ret 0%nat;
     read_user_csv := read_user_csv working_env;
     probe_gpu := probe_gpu working_env;
     from_connection_string := from_connection_string working_env |}.

Definition no_job : Job :=
  {| job_id := None; content_image := None; style_image := None; strength := None;
     question := None; user_id := None; preferences := None; limit := None;
     start_time := None |}.

Definition no_preferences : Prefs :=
  {| category := None; city := None; max_price := None; min_rating := None |}.

(** [{job_id: "r1", user_id: "u1", preferences: {category: "Budaya",
    min_rating: 4.5}, limit: 2}] *)
Definition budaya_job : Job :=
  {| job_id := Some "r1"; content_image := None; style_image := None; strength := None;
     question := None; user_id := Some "u1";
     preferences := Some {| category := Some "Budaya"; city := None;
                            max_price := None; min_rating := Some (45 # 10) |};
     limit := Some 2%nat; start_time := None |}.

(** A recommendation job without its [preferences] key. *)
Definition job_without_preferences : Job :=
  {| job_id := Some "r2"; content_image := None; style_image := None; strength := None;
     question := None; user_id := Some "u1"; preferences := None;
     limit := None; start_time := None |}.

(** [{job_id: "s1", content_image: ..., style_image: ...}] *)
Definition style_job : Job :=
  {| job_id := Some "s1"; content_image := Some "Y29udGVudA=="; style_image := Some "c3R5bGU=";
     strength := None; question := None; user_id := None; preferences := None;
     limit := None; start_time := None |}.

(** A style-transfer job with both pictures and no [job_id]. *)
Definition style_job_without_id : Job :=
  {| job_id := None; content_image := Some "Y29udGVudA=="; style_image := Some "c3R5bGU=";
     strength := None; question := None; user_id := None; preferences := None;
     limit := None; start_time := None |}.

Definition message_of (n : nat) (j : Job) : Message :=
  {| message_id := n; content := JsonObject j; visible_from := 0; dequeue_count := 0 |}.

Definition sample_deployment (q1 q2 q3 : list Message) : Deployment :=
  {| AZURE_STORAGE_CONNECTION_STRING := Some "UseDevelopmentStorage=true";
     started_at := 1000;
     pending_style_transfer := q1; pending_rag := q2; pending_recommendation := q3;
     container := ∅ |}.

(** A deployment in which the connection string is not set. *)
Definition unconfigured_deployment : Deployment :=
  {| AZURE_STORAGE_CONNECTION_STRING := None;
     started_at := 1000;
     pending_style_transfer := []; pending_rag := []; pending_recommendation := [];
     container := ∅ |}.

(** The keyword arguments with which [processor.py] and [main.py] call
    [style_trans]: two base64 pictures, influence, creativity and a prompt. *)
Definition sample_style_call : list (string * pyval) :=
  [("content_image_b64", PyStr "Y29udGVudA==");
   ("style_image_b64", PyStr "data:image/png;base64,c3R5bGU=");
   ("influence", PyNum (8 # 10));
   ("creativity", PyNum 20);
   ("additional_prompt", PyStr "batik")].

(** * Further definitions *)

(** What a run of the worker leaves untouched: the ids of the messages in the
    style-transfer queue, and the log of generator calls. *)
Definition style_work_untouched (d d' : Dispatcher) : Prop :=
  message_ids (queue style_transfer d') = message_ids (queue style_transfer d)
  /\ generate_calls (processor d') = generate_calls (processor d).

(** Whether the dispatcher, in state [d], gets a result out of the handler
    for [message]: the body has to be a JSON object, and the handler of the
    service has to return. *)
Definition handled (env : Env) (svc : Service) (message : Message) (d : Dispatcher) : bool :=
  match content message with
  | JsonObject j =>
      is_ret (handler env svc (now d) (set_start_time (now d) j) (processor d)).1
  | NotJson | JsonOther => false
  end.

(** ** Chat: the pieces of [process_rag_chat] *)

(** ["\n".join(results['documents'][0]) if results['documents'] else ""] *)
Definition context_of (documents : list (list string)) : string :=
  match documents with
  | [] => ""
  | first :: _ => join_lines first
  end.

(** [f"Context: {context}\n\nQuestion: {question}\n\nAnswer:"] *)
Definition chat_prompt (context question : string) : string :=
  "Context: " +:+ context +:+ newline +:+ newline
  +:+ "Question: " +:+ question +:+ newline +:+ newline
  +:+ "Answer:".

(** The three strings [generate_fallback_response] can return. *)
Definition fallback_answers : list string :=
  [fallback_borobudur; fallback_monas; fallback_other].

(** ** More sample environments and data *)

(** As [working_env], with the Ollama package installed and the server
    refusing every request. *)
Definition ollama_down_env : Env :=
  {| fetch_pipeline := fetch_pipeline working_env;
     build_ip_adapter := build_ip_adapter working_env;
     ip_generate := ip_generate working_env;
     INFERENCE_STEPS := INFERENCE_STEPS working_env;
     b64decode := b64decode working_env;
     image_open := image_open working_env;
     convert_rgb := convert_rgb working_env;
     resize_pixels := resize_pixels working_env;
     round_up := round_up working_env;
     canny_pixels := canny_pixels working_env;
     str_value := str_value working_env;
     type_name := type_name working_env;
     save_b64 := save_b64 working_env;
     open_chroma := open_chroma working_env;
     get_collection := get_collection working_env;
     import_ollama := fun _ => Ret tt;
     collection_query := collection_query working_env;
     ollama_generate := fun _ => Raise (PyExc "ConnectionError" "Failed to connect to Ollama");
     read_tourism_csv := read_tourism_csv working_env;
     read_rating_csv := read_rating_csv working_env;
     read_user_csv := read_user_csv working_env;
     probe_gpu := probe_gpu working_env;
     from_connection_string := from_connection_string working_env |}.

(** As [working_env], with an IP-Adapter that cannot be built. *)
Definition no_adapter_env : Env :=
  {| fetch_pipeline := fetch_pipeline working_env;
     build_ip_adapter := fun _ => Raise (PyExc "ModuleNotFoundError" "No module named 'ip_adapter'");
     ip_generate := ip_generate working_env;
     INFERENCE_STEPS := INFERENCE_STEPS working_env;
     b64decode := b64decode working_env;
     image_open := image_open working_env;
     convert_rgb := convert_rgb working_env;
     resize_pixels := resize_pixels working_env;
     round_up := round_up working_env;
     canny_pixels := canny_pixels working_env;
     str_value := str_value working_env;
     type_name := type_name working_env;
     save_b64 := save_b64 working_env;
     open_chroma := open_chroma working_env;
     get_collection := get_collection working_env;
     import_ollama := import_ollama working_env;
     collection_query := collection_query working_env;
     ollama_generate := ollama_generate working_env;
     read_tourism_csv := read_tourism_csv working_env;
     read_rating_csv := read_rating_csv working_env;
     read_user_csv := read_user_csv working_env;
     probe_gpu := probe_gpu working_env;
     from_connection_string := from_connection_string working_env |}.

(** [{job_id: "c1", question: "Ceritakan tentang BOROBUDUR dan Monas"}] *)
Definition borobudur_job : Job :=
  {| job_id := Some "c1"; content_image := None; style_image := None; strength := None;
     question := Some "Ceritakan tentang BOROBUDUR dan Monas"; user_id := None;
     preferences := None; limit := None; start_time := None |}.

(** ** Style transfer: the request to the generator *)

(** What [min(creativity, 15)] leaves of a [creativity]: a number is capped
    at 15 and kept when it is at most 15; positive infinity becomes 15;
    negative infinity and NaN pass as they are (every comparison with NaN is
    false); a value that is not a number has no cap. *)
Definition capped_at_15 (creativity guidance : pyval) : Prop :=
  match creativity with
  | PyNum q =>
      exists g : Q, guidance = PyNum g /\ (g <= 15)%Q /\ (g <= q)%Q
                    /\ ((q <= 15)%Q -> g = q) /\ ((15 < q)%Q -> g = 15%Q)
  | PyNaN => guidance = PyNaN
  | PyInf negative => guidance = if negative then PyInf true else PyNum 15
  | PyStr _ | PyImage _ => False
  end.

(** The bounds of a request [style_trans] sends to [ip_model.generate], given
    the [influence], [creativity] and [additional_prompt] arguments of the
    call: the style strength is the influence as given, whatever value it
    is; the guidance scale is the creativity after [min(creativity, 15)];
    one square sample of side 512 is asked for, in the configured number of
    steps, with the fixed negative prompt and a prompt that wraps the
    rendering of the given text. *)
Definition request_within_bounds (env : Env) (influence creativity additional_prompt : pyval)
    (call : GenCall) : Prop :=
    scale call = influence
    /\ capped_at_15 creativity (guidance_scale call)
    /\ num_samples call = 1%nat
    /\ num_inference_steps call = INFERENCE_STEPS env
    /\ height call = 512%Z
    /\ width call = 512%Z
    /\ negative_prompt call = NEGATIVE_PROMPT
    /\ prompt call
       = base_prompt_head +:+ newline +:+ format_value env additional_prompt +:+ "."
         +:+ newline +:+ base_prompt_tail
    /\ (longest_side (pil_image call) <= 512)%positive
    /\ (longest_side (image call) <= 512)%positive.

(** * The single-job container: [container-app/processor.py]

    The container is started with a job id, reads [<job_id>/input.json] from
    the blob container, runs [style_trans] on it and writes
    [<job_id>/result.json].  The module [ailibs.style_transfer] is the one
    modelled above; its state is the [PState] inside the state of the job.
    Blob storage is allowed to fail here: the source handles a failing upload
    of the error result. *)

Module ProcessorPy.

Definition BLOB_CONTAINER : string := "style-transfer-results".

(** The keys [process_job] reads from the job's JSON object; an absent key is
    [None]. *)
Record JobData : Type := {
  content_image : option pyval;
  style_image : option pyval;
  influence : option pyval;
  creativity : option pyval;
  additional_prompt : option pyval;
  callback_url : option pyval
}.

(** The two dicts [process_job] uploads. *)
Inductive ResultData : Type :=
| result_data (job_id : string) (result_image : string) (processing_time : nat)
    (completed_at : nat) (influence creativity additional_prompt : pyval)
| error_result (job_id : string) (error : string) (failed_at : nat).

(** The ["status"] entry. *)
Definition status (r : ResultData) : string :=
  match r with
  | result_data _ _ _ _ _ _ _ => "completed"
  | error_result _ _ _ => "failed"
  end.

(** What a blob holds. *)
Inductive Blob : Type :=
| NotJson                          (* [json.loads] raises *)
| JsonOther                        (* JSON, but not an object *)
| JobInput (job_data : JobData)    (* a job description *)
| JobResult (r : ResultData).      (* what [process_job] wrote *)

(** What [json.loads] returns: an object, of which only the keys of a job
    matter, or another value. *)
Inductive Json : Type :=
| JObject (d : JobData)
| JValue.

Definition no_keys : JobData :=
  {| content_image := None; style_image := None; influence := None;
     creativity := None; additional_prompt := None; callback_url := None |}.

(** [json.loads(blob_client.download_blob().readall().decode())]; a result
    written by [process_job] is an object with none of the keys of a job. *)
Definition json_loads (b : Blob) : res Json :=
  match b with
  | NotJson => Raise (PyExc "JSONDecodeError" "Expecting value: line 1 column 1 (char 0)")
  | JsonOther => Ret JValue
  | JobInput d => Ret (JObject d)
  | JobResult _ => Ret (JObject no_keys)
  end.

(** The storage service, as far as it can fail: building the client from
    the connection string, downloading, and the [n]-th upload of the run. *)
Record Storage : Type := {
  from_connection_string : option string -> res unit;
  download_blob_error : option exn;
  upload_blob_error : nat -> option exn
}.

(** The state of a run: the module [ailibs.style_transfer], the attribute
    [model_loaded] of the [StyleTransferProcessor], the blob container, and
    the number of uploads attempted so far (ghost). *)
Record State : Type := {
  module_state : PState;
  model_loaded : bool;
  blobs : gmap string Blob;
  uploads : nat
}.

Definition set_module_state (p : PState) (s : State) : State :=
  {| module_state := p; model_loaded := model_loaded s; blobs := blobs s;
     uploads := uploads s |}.

Definition set_model_loaded (b : bool) (s : State) : State :=
  {| module_state := module_state s; model_loaded := b; blobs := blobs s;
     uploads := uploads s |}.

Definition set_blobs (b : gmap string Blob) (s : State) : State :=
  {| module_state := module_state s; model_loaded := model_loaded s; blobs := b;
     uploads := uploads s |}.

Definition count_upload (s : State) : State :=
  {| module_state := module_state s; model_loaded := model_loaded s; blobs := blobs s;
     uploads := S (uploads s) |}.

(** A call into [ailibs.style_transfer]. *)
Definition in_module {A} (m : M PState A) : M State A :=
  fun s => let '(r, p) := m (module_state s) in (r, set_module_state p s).

(** [StyleTransferProcessor.__init__]: a freshly imported module, and
    [model_loaded = False]; [create_container] is tried and its failure
    ignored. *)
Definition StyleTransferProcessor (container : gmap string Blob) : State :=
  {| module_state := PState_init ∅; model_loaded := false; blobs := container;
     uploads := 0 |}.

Section Job.
Context (env : Env) (storage : Storage).
(** [self.job_id], and the two readings of the clock: before [style_trans]
    is called, and when the result is put together. *)
Context (job_id : string) (start_time finish_time : nat).

(** [f"{self.job_id}/input.json"] and [f"{self.job_id}/result.json"] *)
Definition input_blob : string := job_id +:+ "/input.json".
Definition result_blob : string := job_id +:+ "/result.json".

(** [StyleTransferProcessor.load_model_if_needed] *)
Definition load_model_if_needed : M State unit :=
  let* s := get in
  if negb (model_loaded s) then
    try_except
      (in_module (model_load env) >>
       modify (set_model_loaded true))
      (fun e => raise e)
  else ret tt.

(** [StyleTransferProcessor.get_job_data] *)
Definition get_job_data : M State Json :=
  try_except
    (let* s := get in
     match download_blob_error storage with
     | Some e => raise e
     | None =>
         match blobs s !! input_blob with
         | Some b => lift (json_loads b)
         | None => raise (PyExc "ResourceNotFoundError" "The specified blob does not exist.")
         end
     end)
    (fun e => raise e).

(** [blob_client.upload_blob(json.dumps(data), overwrite=True)] *)
Definition upload_blob (name : string) (data : ResultData) : M State unit :=
  let* s := get in
  modify count_upload >>
  match upload_blob_error storage (uploads s) with
  | Some e => raise e
  | None => modify (set_blobs (<[name := JobResult data]> (blobs s)))
  end.

(** [job_data.get(...)] in the log line that follows [get_job_data]: the
    first use of the value as a dict. *)
Definition as_dict (v : Json) : M State JobData :=
  match v with
  | JObject d => ret d
  | JValue => raise (PyExc "AttributeError" "object has no attribute 'get'")
  end.

(** The keyword arguments of the call of [style_trans], evaluated left to
    right. *)
Definition style_trans_arguments (d : JobData) : M State (list (string * pyval)) :=
  let* c := subscript "content_image" (content_image d) in
  let* st := subscript "style_image" (style_image d) in
  ret [("content_image_b64", c);
       ("style_image_b64", st);
       ("influence", default (PyNum (7 # 10)) (influence d));
       ("creativity", default (PyNum (8 # 10)) (creativity d));
       ("additional_prompt", default (PyStr EmptyString) (additional_prompt d))].

(** The [try] block of [StyleTransferProcessor.process_job]. *)
Definition process_job_try : M State bool :=
  let* job_data := get_job_data in
  let* d := as_dict job_data in
  load_model_if_needed >>
  let* kwargs := style_trans_arguments d in
  let* result_image := in_module (style_trans env [] kwargs) in
  let processing_time := (finish_time - start_time)%nat in
  let result_base64 := save_b64 env "PNG" result_image in
  upload_blob result_blob
    (result_data job_id result_base64 processing_time finish_time
       (default (PyNum (7 # 10)) (influence d))
       (default (PyNum (8 # 10)) (creativity d))
       (default (PyStr EmptyString) (additional_prompt d))) >>
  ret true.

(** [StyleTransferProcessor.process_job] *)
Definition process_job : M State bool :=
  try_except process_job_try
    (fun e =>
       try_except
         (upload_blob result_blob (error_result job_id (str e) finish_time))
         (fun save_error => ret tt) >>
       ret false).

End Job.

(** [main()], with [sys.argv], the environment variable and the blob
    container it finds: the exit status and the container it leaves.  An
    exception that leaves [main] ends the interpreter with status 1. *)
Definition main (env : Env) (storage : Storage) (start_time finish_time : nat)
    (argv : list string) (STORAGE_CONNECTION_STRING : option string)
    (container : gmap string Blob) : Z * gmap string Blob :=
  match argv with
  | [_; job_id] =>
      match from_connection_string storage STORAGE_CONNECTION_STRING with
      | Raise _ => (1%Z, container)
      | Ret _ =>
          let processor := StyleTransferProcessor container in
          match process_job env storage job_id start_time finish_time processor with
          | (Ret true, s) => (0%Z, blobs s)
          | (Ret false, s) => (1%Z, blobs s)
          | (Raise _, s) => (1%Z, blobs s)
          end
      end
  | _ => (1%Z, container)
  end.

(** Storage that never fails. *)
Definition reliable : Storage :=
  {| from_connection_string := fun _ => Ret tt;
     download_blob_error := None;
     upload_blob_error := fun _ => None |}.

(** Storage in which the first upload of a run fails. *)
Definition first_upload_fails : Storage :=
  {| from_connection_string := fun _ => Ret tt;
     download_blob_error := None;
     upload_blob_error := fun n => if (n =? 0)%nat then Some transient else None |}.

(** [{content_image: ..., style_image: ...}], every optional key absent. *)
Definition plain_job : JobData :=
  {| content_image := Some (PyStr "Y29udGVudA==");
     style_image := Some (PyStr "data:image/png;base64,c3R5bGU=");
     influence := None; creativity := None; additional_prompt := None;
     callback_url := None |}.

End ProcessorPy.

(** A container that holds the description of job [j1]. *)
Definition job_container : gmap string ProcessorPy.Blob :=
  {[ "j1/input.json" := ProcessorPy.JobInput ProcessorPy.plain_job ]}.

(** * The web service: [main.py], the [/style-transfer] endpoint

    The view function [stytrans] talks to the Express backend over HTTP and
    calls [style_trans]; the backend is opaque, and the requests sent to it
    are logged in a ghost field. *)

Module MainPy.

(** [s[n:]] *)
Fixpoint drop (n : nat) (s : string) : string :=
  match n, s with
  | O, _ => s
  | S _, EmptyString => EmptyString
  | S n', String _ s' => drop n' s'
  end.

(** The truth value of a JSON value, as [not v] tests it: an empty string
    and a zero are false; NaN and the infinities are not zero. *)
Definition truthy (v : pyval) : bool :=
  match v with
  | PyStr s => negb (String.eqb s "")
  | PyNum q => negb (Qeq_bool q 0)
  | PyNaN | PyInf _ | PyImage _ => true
  end.

(** [not data_json.get(key)] is false *)
Definition given (v : option pyval) : bool :=
  match v with
  | Some x => truthy x
  | None => false
  end.

(** The keys [stytrans] reads from the request body; an absent key is
    [None]. *)
Record StyleRequest : Type := {
  content_image : option pyval;
  template_file_id : option pyval;
  influence : option pyval;
  creativity : option pyval;
  prompt : option pyval
}.

(** What [request.get_json()] returns. *)
Inductive JsonBody : Type :=
| Falsy                    (* [None], or an empty or zero value *)
| NotDict                  (* a true value that is not an object *)
| Dict (d : StyleRequest). (* an object that is not empty *)

Record Request : Type := {
  Authorization : option string;   (* [request.headers.get('Authorization')] *)
  get_json : res JsonBody
}.

(** A response of the backend.  [json] stands for [response.json()], of
    which the code reads [['avatar']] and [['avatar']['imageUrl']]: an absent
    key is [None]. *)
Record HttpResponse : Type := {
  status_code : nat;
  text : string;
  content : string;
  content_type : option string;
  json : res (option (option string))
}.

(** The collaborators of the endpoint. *)
Record Web : Type := {
  VITE_API_URL : string;
  requests_get : string -> string -> res HttpResponse;  (* url and Authorization header *)
  requests_post : string -> string -> string -> string -> res HttpResponse;
                                    (* url, picture, description, Authorization header *)
  b64encode : string -> string;
  jpeg_bytes : Image -> string      (* [image.save(buf, format='JPEG')], [buf.getvalue()] *)
}.

Inductive BackendCall : Type :=
| Get (url authorization : string)
| Post (url picture description authorization : string).

(** What [jsonify] is given: an error message, or the record of the saved
    picture. *)
Inductive Payload : Type :=
| error (message : string)
| saved (imageUrl : string).

Definition Response : Type := nat * Payload.

Record State : Type := {
  module_state : PState;
  backend_calls : list BackendCall
}.

Definition set_module_state (p : PState) (s : State) : State :=
  {| module_state := p; backend_calls := backend_calls s |}.

Definition record_call (c : BackendCall) (s : State) : State :=
  {| module_state := module_state s; backend_calls := (backend_calls s ++ [c])%list |}.

Definition in_module {A} (m : M PState A) : M State A :=
  fun s => let '(r, p) := m (module_state s) in (r, set_module_state p s).

(** [except requests.exceptions.RequestException]: the class and its
    subclasses. *)
Definition is_RequestException (e : exn) : bool :=
  existsb (String.eqb (exn_class e))
    ["RequestException"; "HTTPError"; "ConnectionError"; "ProxyError"; "SSLError";
     "Timeout"; "ConnectTimeout"; "ReadTimeout"; "URLRequired"; "TooManyRedirects";
     "MissingSchema"; "InvalidSchema"; "InvalidURL"; "InvalidHeader"; "InvalidProxyURL";
     "ChunkedEncodingError"; "ContentDecodingError"; "StreamConsumedError"; "RetryError";
     "UnrewindableBodyError"; "InvalidJSONError"; "JSONDecodeError"].

Definition DEFAULT_PROMPT : string := "Indonesian traditional cultural style".

(** The three [if not (key in data_json and isinstance(...))] defaults.
    NaN and the infinities, which the JSON parser accepts, are [float]s and
    are kept. *)
Definition number_or (q : Q) (v : option pyval) : pyval :=
  match v with
  | Some (PyNum x) => PyNum x
  | Some PyNaN => PyNaN
  | Some (PyInf negative) => PyInf negative
  | _ => PyNum q
  end.

Definition text_or (s : string) (v : option pyval) : pyval :=
  match v with
  | Some (PyStr x) => PyStr x
  | _ => PyStr s
  end.

Section Endpoint.
Context (env : Env) (web : Web).

(** The inner [try] of [stytrans]: the template picture as a data URL, or
    the response that ends the request. *)
Definition fetch_template (template_file_id : pyval) (user_token : string)
    : M State (Response + string) :=
  try_except
    (let url := VITE_API_URL web +:+ "/files/" +:+ format_value env template_file_id in
     let authorization := "Bearer " +:+ user_token in
     modify (record_call (Get url authorization)) >>
     let* template_response := lift (requests_get web url authorization) in
     if negb (status_code template_response =? 200)%nat then
       ret (inl (400%nat,
                 error ("Failed to fetch template image: " +:+ text template_response)))
     else
       let template_base64 := b64encode web (content template_response) in
       if negb (String.prefix "data:image/" template_base64) then
         let content_type := default "image/jpeg" (content_type template_response) in
         ret (inr ("data:" +:+ content_type +:+ ";base64," +:+ template_base64))
       else ret (inr template_base64))
    (fun e =>
       if is_RequestException e
       then ret (inl (500%nat, error ("Failed to fetch template image: " +:+ str e)))
       else raise e).

(** The [try] block of [stytrans].  A PIL image is a true value, so the
    [if not image] branch is not taken. *)
Definition stytrans_try (request : Request) : M State Response :=
  match Authorization request with
  | None | Some EmptyString => ret (401%nat, error "Authorization token required")
  | Some user_token =>
      let user_token :=
        if String.prefix "Bearer " user_token then drop 7 user_token else user_token in
      let* data_json := lift (get_json request) in
      match data_json with
      | Falsy => ret (400%nat, error "No data provided")
      | NotDict => raise (PyExc "AttributeError" "object has no attribute 'get'")
      | Dict d =>
          if negb (given (content_image d)) || negb (given (template_file_id d)) then
            ret (400%nat, error "Content image or template_file_id is not provided")
          else
            let* template_file_id := subscript "template_file_id" (template_file_id d) in
            let* fetched := fetch_template template_file_id user_token in
            match fetched with
            | inl response => ret response
            | inr template_base64 =>
                let influence := number_or (8 # 10) (influence d) in
                let creativity := number_or 7 (creativity d) in
                let prompt := text_or DEFAULT_PROMPT (prompt d) in
                let* content := subscript "content_image" (content_image d) in
                let* image :=
                  in_module (style_trans env
                               [content; PyStr template_base64; influence; creativity; prompt]
                               []) in
                let picture := jpeg_bytes web image in
                let description :=
                  "Style transfer result using template " +:+ format_value env template_file_id in
                let authorization := "Bearer " +:+ user_token in
                let express_api_url := VITE_API_URL web +:+ "/files/upload-avatar" in
                modify (record_call (Post express_api_url picture description authorization)) >>
                let* response :=
                  lift (requests_post web express_api_url picture description authorization) in
                if (status_code response =? 201)%nat then
                  let* upload_result := lift (json response) in
                  let* avatar := subscript "avatar" upload_result in
                  let* imageUrl := subscript "imageUrl" avatar in
                  ret (200%nat, saved imageUrl)
                else
                  ret (500%nat, error ("Failed to save image: " +:+ text response))
            end
      end
  end.

(** [stytrans], the view function of [POST /style-transfer]. *)
Definition stytrans (request : Request) : M State Response :=
  try_except (stytrans_try request)
    (fun e =>
       if is_RequestException e
       then ret (500%nat, error ("Backend connection error: " +:+ str e))
       else ret (500%nat, error ("Processing error: " +:+ str e))).

End Endpoint.

(** A backend that serves a template picture and stores the result. *)
Definition working_web : Web :=
  {| VITE_API_URL := "http://backend:3000";
     requests_get := fun _ _ =>
       Ret {| status_code := 200; text := ""; content := "template";
              content_type := Some "image/png"; json := Ret None |};
     requests_post := fun _ _ _ _ =>
       Ret {| status_code := 201; text := ""; content := ""; content_type := None;
              json := Ret (Some (Some "http://backend:3000/files/42")) |};
     b64encode := fun s => s;
     jpeg_bytes := fun _ => "jpeg" |}.

(** [{content_image: ..., template_file_id: "t7", creativity: 20}] with a
    bearer token. *)
Definition sample_request : Request :=
  {| Authorization := Some "Bearer abc";
     get_json := Ret (Dict {| content_image := Some (PyStr "Y29udGVudA==");
                              template_file_id := Some (PyStr "t7");
                              influence := None;
                              creativity := Some (PyNum 20);
                              prompt := None |}) |}.

End MainPy.

(** * The test client: [test_client.py], [wait_for_completion]

    Time is counted in whole seconds; a status request takes [latency]
    seconds, which may be none, and the server's reply may depend on the
    time of the request. *)

From stdpp Require Import pretty.

Module TestClient.

(** The keys of the status document that [wait_for_completion] reads. *)
Record StatusResponse : Type := {
  status : option string;
  result : option string;
  error : option string
}.

Record HttpReply : Type := {
  status_code : nat;
  text : string;
  json : StatusResponse
}.

(** The clock, and the number of status requests sent so far (ghost). *)
Record Clock : Type := {
  now : nat;
  polls : nat
}.

Definition after_request (latency : nat) (c : Clock) : Clock :=
  {| now := now c + latency; polls := S (polls c) |}.

(** [time.sleep(seconds)] *)
Definition sleep (seconds : nat) (c : Clock) : Clock :=
  {| now := now c + seconds; polls := polls c |}.

Section Client.
Context (requests_get : string -> nat -> res HttpReply) (latency : nat) (api_url : string).

(** [StyleTransferClient.check_status] *)
Definition check_status (job_id : string) : M Clock StatusResponse :=
  let* c := get in
  modify (after_request latency) >>
  let* response := lift (requests_get (api_url +:+ "/api/status/" +:+ job_id) (now c)) in
  if (status_code response =? 200)%nat then ret (json response)
  else raise (PyExc "Exception" ("Failed to check status: " +:+ text response)).

(** The [while] loop of [wait_for_completion] and the [raise] that follows
    it, for at most [fuel] iterations; [None] when the loop is still running
    after them. *)
Fixpoint wait_loop (fuel : nat) (job_id : string) (start_time max_wait_time poll_interval : nat)
    (c : Clock) : option (res string * Clock) :=
  match fuel with
  | O => None
  | S fuel =>
      if (now c - start_time <? max_wait_time)%nat then
        match check_status job_id c with
        | (Raise e, c) => Some (Raise e, c)
        | (Ret status_response, c) =>
            match status status_response with
            | None => Some (Raise (KeyError "status"), c)
            | Some st =>
                if String.eqb st "completed" then
                  match result status_response with
                  | Some r => Some (Ret r, c)
                  | None => Some (Raise (KeyError "result"), c)
                  end
                else if String.eqb st "failed" then
                  Some (Raise (PyExc "Exception"
                                 ("Job failed: "
                                  +:+ default "Unknown error" (error status_response))), c)
                else
                  wait_loop fuel job_id start_time max_wait_time poll_interval
                    (sleep poll_interval c)
            end
        end
      else
        Some (Raise (PyExc "TimeoutError"
                       ("Job " +:+ job_id +:+ " did not complete within "
                        +:+ pretty max_wait_time +:+ " seconds")), c)
  end.

(** [StyleTransferClient.wait_for_completion] *)
Definition wait_for_completion (fuel : nat) (job_id : string)
    (max_wait_time poll_interval : nat) (c : Clock) : option (res string * Clock) :=
  wait_loop fuel job_id (now c) max_wait_time poll_interval c.

(** The server answers every status request with a status that is neither
    [completed] nor [failed]. *)
Definition always_pending : Prop :=
  forall url t,
    exists reply st,
      requests_get url t = Ret reply
      /\ status_code reply = 200%nat
      /\ status (json reply) = Some st
      /\ String.eqb st "completed" = false
      /\ String.eqb st "failed" = false.

End Client.

(** The number of status requests that fit into the waiting time. *)
Definition polls_within (max_wait_time step : nat) : nat :=
  ((max_wait_time + step - 1) / step)%nat.

(** A server on which the job is still processing, whenever it is asked. *)
Definition processing_server (url : string) (t : nat) : res HttpReply :=
  Ret {| status_code := 200; text := "";
         json := {| status := Some "processing"; result := None; error := None |} |}.

End TestClient.

(** * Filling the document store: [container-app/RAG/fill_chroma.py]

    The script splits two documents into chunks with a library text
    splitter, which is opaque here: the chunks are given.  It numbers them,
    and upserts them into one collection of the database. *)

Module FillChroma.

Record Metadata : Type := {
  title : string;
  author : string;
  createdAt : string;
  source_id : string
}.

(** A chunk, as the splitter returns it. *)
Record Chunk : Type := {
  page_content : string;
  metadata : Metadata
}.

(** A collection maps ids to documents with their metadata; a database maps
    names to collections. *)
Definition Collection : Type := gmap string (string * Metadata).
Definition Database : Type := gmap string Collection.

Definition COLLECTION_NAME : string := "indonesian_culture".

(** The three lists the [for i, chunk in enumerate(chunks)] loop builds,
    from index [i] on. *)
Fixpoint enumerate_chunks (i : nat) (chunks : list Chunk)
    (acc : list string * list Metadata * list string)
    : list string * list Metadata * list string :=
  match chunks with
  | [] => acc
  | chunk :: rest =>
      let '(documents, metadatas, ids) := acc in
      enumerate_chunks (S i) rest
        ((documents ++ [page_content chunk])%list,
         (metadatas ++ [metadata chunk])%list,
         (ids ++ ["ID" +:+ pretty i])%list)
  end.

(** [collection.upsert(documents=..., metadatas=..., ids=...)]: every id is
    written, replacing what the collection held under it. *)
Fixpoint upsert (documents : list string) (metadatas : list Metadata) (ids : list string)
    (c : Collection) : Collection :=
  match documents, metadatas, ids with
  | d :: documents, m :: metadatas, i :: ids =>
      upsert documents metadatas ids (<[i := (d, m)]> c)
  | _, _, _ => c
  end.

(** [chroma_client.get_or_create_collection(name=...)] *)
Definition get_or_create_collection (name : string) (db : Database) : Collection :=
  default ∅ (db !! name).

(** The script, from the chunks on. *)
Definition fill_chroma (chunks : list Chunk) (db : Database) : Database :=
  let '(documents, metadatas, ids) := enumerate_chunks 0 chunks ([], [], []) in
  let collection := get_or_create_collection COLLECTION_NAME db in
  <[COLLECTION_NAME := upsert documents metadatas ids collection]> db.

End FillChroma.


(** * Properties *)

(** Unfolds the monad combinators. *)
Ltac unfold_monad :=
  unfold bind, try_except, get, modify, lift, ret, raise, subscript in *.

(** ** Service loaders *)

Section LoaderFacts.
Context (env : Env).

(** What a loader does when nothing is cached and the construction fails. *)
Lemma load_construction_fails svc s e :
  unloaded svc s ->
  construction_error env svc (constructions svc s) = Some e ->
  exists s1, load env svc s = (Raise e, s1)
             /\ unloaded svc s1
             /\ constructions svc s1 = S (constructions svc s)
             /\ blobs s1 = blobs s.
Proof.
  intros [Hflag Hmodel] Herr.
  destruct svc; cbn in Hflag, Herr |- *.
  - specialize (Hmodel eq_refl).
    unfold load_style_transfer_model, model_load, unloaded. unfold_monad.
    rewrite Hflag. cbn. rewrite Hmodel. cbn.
    destruct (fetch_pipeline env (model_constructions s)) as [[]|e']; [discriminate|].
    injection Herr as <-. eexists; repeat split; cbn; auto.
  - unfold load_rag_system, unloaded. unfold_monad. rewrite Hflag. cbn.
    destruct (open_chroma env (rag_constructions s)) as [[]|e1].
    2:{ injection Herr as <-. eexists; repeat split; cbn; auto; discriminate. }
    destruct (get_collection env (rag_constructions s)) as [[]|e2].
    2:{ injection Herr as <-. eexists; repeat split; cbn; auto; discriminate. }
    destruct (import_ollama env (rag_constructions s)) as [[]|e3]; [discriminate|].
    destruct (is_ImportError e3); [discriminate|].
    injection Herr as <-. eexists; repeat split; cbn; auto; discriminate.
  - unfold load_recommendation_data, unloaded. unfold_monad. rewrite Hflag. cbn.
    destruct (read_tourism_csv env (recommendation_constructions s)) as [t|e1].
    2:{ injection Herr as <-. eexists; repeat split; cbn; auto; discriminate. }
    destruct (read_rating_csv env (recommendation_constructions s)) as [r|e2].
    2:{ injection Herr as <-. eexists; repeat split; cbn; auto; discriminate. }
    destruct (read_user_csv env (recommendation_constructions s)) as [u|e3]; [discriminate|].
    injection Herr as <-. eexists; repeat split; cbn; auto; discriminate.
Qed.

(** What a loader does when nothing is cached and the construction works. *)
Lemma load_construction_succeeds svc s :
  unloaded svc s ->
  construction_error env svc (constructions svc s) = None ->
  exists s1, load env svc s = (Ret tt, s1)
             /\ loaded svc s1 = true
             /\ constructions svc s1 = S (constructions svc s)
             /\ blobs s1 = blobs s.
Proof.
  intros [Hflag Hmodel] Herr.
  destruct svc; cbn in Hflag, Herr |- *.
  - specialize (Hmodel eq_refl).
    unfold load_style_transfer_model, model_load. unfold_monad.
    rewrite Hflag. cbn. rewrite Hmodel. cbn.
    destruct (fetch_pipeline env (model_constructions s)) as [[]|e']; [|discriminate].
    destruct (build_ip_adapter env (model_constructions s)) as [[]|e2];
      eexists; repeat split; cbn; auto.
  - unfold load_rag_system. unfold_monad. rewrite Hflag. cbn.
    destruct (open_chroma env (rag_constructions s)) as [[]|e1]; [|discriminate].
    destruct (get_collection env (rag_constructions s)) as [[]|e2]; [|discriminate].
    destruct (import_ollama env (rag_constructions s)) as [[]|e3].
    + eexists; repeat split; cbn; auto.
    + destruct (is_ImportError e3); [|discriminate].
      eexists; repeat split; cbn; auto.
  - unfold load_recommendation_data. unfold_monad. rewrite Hflag. cbn.
    destruct (read_tourism_csv env (recommendation_constructions s)) as [t|e1]; [|discriminate].
    destruct (read_rating_csv env (recommendation_constructions s)) as [r|e2]; [|discriminate].
    destruct (read_user_csv env (recommendation_constructions s)) as [u|e3]; [|discriminate].
    eexists; repeat split; cbn; auto.
Qed.



(** A loader touches neither the flag nor the construction count of
    another service. *)
Lemma load_other_service svc svc' s :
  svc <> svc' ->
  loaded svc (load env svc' s).2 = loaded svc s
  /\ constructions svc (load env svc' s).2 = constructions svc s.
Proof.
  intros Hne.
  destruct svc'; cbn;
    [unfold load_style_transfer_model, model_load | unfold load_rag_system
    | unfold load_recommendation_data]; unfold_monad.
  - destruct (style_transfer_loaded (self s)); cbn; [done|].
    destruct (ip_model s); cbn; [by destruct svc|].
    destruct (fetch_pipeline env _) as [[]|]; cbn; [|by destruct svc].
    destruct (build_ip_adapter env _) as [[]|]; cbn; by destruct svc.
  - destruct (rag_system_loaded (self s)); cbn; [done|].
    destruct (open_chroma env _) as [[]|]; cbn; [|by destruct svc].
    destruct (get_collection env _) as [[]|]; cbn; [|by destruct svc].
    destruct (import_ollama env _) as [[]|e3]; cbn; [by destruct svc|].
    destruct (is_ImportError e3); cbn; by destruct svc.
  - destruct (recommendation_data_loaded (self s)); cbn; [done|].
    destruct (read_tourism_csv env _); cbn; [|by destruct svc].
    destruct (read_rating_csv env _); cbn; [|by destruct svc].
    destruct (read_user_csv env _); cbn; by destruct svc.
Qed.



End LoaderFacts.

(** ** Handlers and the result store *)

(** Case analysis on an innermost scrutinee of the goal. *)
Ltac destruct_match :=
  match goal with
  | |- context [match ?x with _ => _ end] =>
      lazymatch x with
      | context [match _ with _ => _ end] => fail
      | _ => destruct x eqn:?
      end
  end.

(** Runs a monadic computation symbolically, splitting on every outcome. *)
Ltac run_monad :=
  repeat (first [progress unfold_monad | progress cbn | destruct_match]; try done).

Section HandlerFacts.
Context (env : Env).

(** Loaders never touch the blob container. *)
Lemma load_blobs svc s : blobs (load env svc s).2 = blobs s.
Proof.
  destruct svc; cbn;
    [unfold load_style_transfer_model, model_load | unfold load_rag_system
    | unfold load_recommendation_data]; unfold_monad;
    repeat (destruct_match; cbn; try done).
Qed.

Lemma model_load_blobs s : blobs (model_load env s).2 = blobs s.
Proof.
  unfold model_load; unfold_monad; repeat (destruct_match; cbn; try done).
Qed.

(** Decoding reads the environment only. *)
Lemma decode_base64_image_state v s : (decode_base64_image env v s).2 = s.
Proof.
  unfold decode_base64_image; unfold_monad; repeat (destruct_match; cbn; try done).
Qed.

(** The call made by [process_style_transfer] fails while its arguments
    are bound, before the body of [style_trans] is entered. *)
Lemma style_trans_strength_call content style v s :
  style_trans env [PyImage content; PyImage style] [("strength", v)] s
  = (Raise (TypeError "style_trans() got an unexpected keyword argument 'strength'"), s).
Proof. reflexivity. Qed.

(** The [except] block: with a job id it uploads the error result and
    re-raises the exception it caught; without one it fails with a
    [KeyError] before anything is uploaded. *)
Lemma on_handler_error_spec {A} svc now job e s :
  on_handler_error (A:=A) svc now job e s =
  match job_id job with
  | Some jid =>
      (Raise e, set_blobs (<[blob_name jid := error_result svc now jid e]> (blobs s)) s)
  | None => (Raise (KeyError "job_id"), s)
  end.
Proof.
  unfold on_handler_error, upload_result. unfold_monad.
  by destruct (job_id job).
Qed.

Lemma handler_unfold svc now job :
  handler env svc now job
  = try_except (handler_try env svc now job) (on_handler_error svc now job).
Proof. by destruct svc. Qed.

(** The [try] block of a handler either raises with the container
    untouched, or returns the completed result after uploading it under the
    job's blob name. *)
Lemma handler_try_spec svc now job s :
  match handler_try env svc now job s with
  | (Ret r, s') =>
      exists jid, job_id job = Some jid
                  /\ blobs s' = <[blob_name jid := r]> (blobs s)
                  /\ r_job_id r = jid
                  /\ r_service_type r = service_name svc
                  /\ r_status r = "completed"
  | (Raise e, s') => blobs s' = blobs s
  end.
Proof.
  destruct svc; cbn;
    [unfold process_style_transfer_try | unfold process_rag_chat_try
    | unfold process_recommendation_try]; unfold bind at 1.
  - pose proof (load_blobs style_transfer s) as Hb. unfold load in Hb.
    destruct (load_style_transfer_model env s) as [[[]|e] s1]; cbn in Hb |- *; [|done].
    run_monad.
  - pose proof (load_blobs rag_chat s) as Hb. unfold load in Hb.
    destruct (load_rag_system env s) as [[[]|e] s1]; cbn in Hb |- *; [|done].
    unfold upload_result.
    destruct (job_id job) as [jid|]; [|done].
    run_monad; exists jid; by rewrite Hb.
  - pose proof (load_blobs recommendation s) as Hb. unfold load in Hb.
    destruct (load_recommendation_data env s) as [[[]|e] s1]; cbn in Hb |- *; [|done].
    unfold upload_result.
    destruct (job_id job) as [jid|]; [|done].
    run_monad; exists jid; by rewrite Hb.
Qed.

(** A handler run on a job that carries an id writes exactly one result,
    under the job's blob name: the completed result it returns, or the
    error result of the exception it re-raises. *)
Lemma handler_writes_once svc now job s jid :
  job_id job = Some jid ->
  exists x,
    blobs (handler env svc now job s).2 = <[blob_name jid := x]> (blobs s)
    /\ r_job_id x = jid
    /\ r_service_type x = service_name svc
    /\ match (handler env svc now job s).1 with
       | Ret r => x = r /\ r_status r = "completed"
       | Raise e => x = error_result svc now jid e
       end.
Proof.
  intros Hjid. rewrite handler_unfold. unfold try_except.
  pose proof (handler_try_spec svc now job s) as Htry.
  destruct (handler_try env svc now job s) as [[r|e] s1].
  - destruct Htry as (jid' & Hj & Hb & Hid & Hsvc & Hst).
    exists r. cbn. rewrite Hb. split_and!; congruence.
  - rewrite on_handler_error_spec, Hjid. cbn. rewrite Htry.
    by exists (error_result svc now jid e).
Qed.

(** Without a job id the handler fails in its [except] block and writes
    nothing. *)
Lemma handler_without_job_id svc now job s :
  job_id job = None ->
  (handler env svc now job s).1 = Raise (KeyError "job_id")
  /\ blobs (handler env svc now job s).2 = blobs s.
Proof.
  intros Hjid. rewrite handler_unfold. unfold try_except.
  pose proof (handler_try_spec svc now job s) as Htry.
  destruct (handler_try env svc now job s) as [[r|e] s1].
  - destruct Htry as (jid' & Hj & _). congruence.
  - by rewrite on_handler_error_spec, Hjid.
Qed.

End HandlerFacts.

(** ** Queues *)

Lemma receive_messages_none now t q :
  (receive_messages now t q).1 = None ->
  receive_messages now t q = (None, q)
  /\ forall m, In m q -> (now < visible_from m)%nat.
Proof.
  induction q as [|x q IH]; cbn; [by split|].
  destruct (visible_from x <=? now)%nat eqn:Hv; [discriminate|].
  destruct (receive_messages now t q) as [r q'] eqn:E. cbn. intros ->.
  destruct (IH eq_refl) as [Hq Hall]. injection Hq as ->.
  split; [done|]. intros m [<-|Hm]; [|by apply Hall].
  apply Nat.leb_gt in Hv. lia.
Qed.

Lemma receive_messages_quiet now t q :
  (forall m, In m q -> (now < visible_from m)%nat) ->
  receive_messages now t q = (None, q).
Proof.
  induction q as [|x q IH]; cbn; [done|]. intros Hall.
  destruct (visible_from x <=? now)%nat eqn:Hv.
  - apply Nat.leb_le in Hv. specialize (Hall x (or_introl eq_refl)). lia.
  - rewrite IH; [done|]. intros m Hm. apply Hall. by right.
Qed.

Lemma receive_messages_some now t q m q' :
  receive_messages now t q = (Some m, q') ->
  In m q /\ (visible_from m <= now)%nat
  /\ In (hide (now + t) m) q'
  /\ message_ids q' = message_ids q.
Proof.
  revert q'. induction q as [|x q IH]; cbn; intros q' H; [discriminate|].
  destruct (visible_from x <=? now)%nat eqn:Hv.
  - injection H as <- <-. apply Nat.leb_le in Hv. cbn. auto.
  - destruct (receive_messages now t q) as [r q1] eqn:E.
    injection H as -> <-.
    destruct (IH q1 eq_refl) as (Hin & Hvis & Hh & Hids).
    unfold message_ids in *. cbn. rewrite Hids. auto.
Qed.

Lemma delete_message_gone m q :
  ~ In (message_id m) (message_ids (delete_message m q)).
Proof.
  unfold message_ids, delete_message. rewrite in_map_iff.
  intros (x & Hid & Hx). apply filter_In in Hx as [_ Hx].
  apply negb_true_iff, Nat.eqb_neq in Hx. congruence.
Qed.

(** ** The dispatcher *)

(** Splits the hypotheses that an event belongs to an explicit list. *)
Ltac in_cases :=
  repeat match goal with
         | H : In _ (_ :: _) |- _ => destruct H as [H|H]; [try discriminate H|]
         | H : In _ [] |- _ => destruct H
         | H : _ \/ _ |- _ => destruct H as [H|H]; [try discriminate H|]
         | H : False |- _ => destruct H
         end.

(** Goals about membership of events in an explicit list. *)
Ltac solve_events :=
  intros; try split; intros; in_cases; simplify_eq; cbn; auto 6.

Lemma existsb_agree {A} (f g : A -> bool) (l : list A) :
  (forall x, In x l -> f x = g x) -> existsb f l = existsb g l.
Proof.
  induction l as [|a l IH]; cbn; intros H; [done|].
  rewrite (H a) by auto. f_equal. apply IH. auto.
Qed.

Section DispatchFacts.
Context (env : Env).

Lemma queue_set_queue svc svc' q d :
  queue svc' (set_queue svc q d) = if decide (svc' = svc) then q else queue svc' d.
Proof. by destruct svc, svc'. Qed.

(** Polling one queue leaves the clock, the cycle count and the other
    queues alone. *)
Lemma poll_queue_frame svc d :
  now (poll_queue env svc d).2 = now d
  /\ cycles (poll_queue env svc d).2 = cycles d
  /\ forall svc', svc' <> svc ->
       queue svc' (poll_queue env svc d).2 = queue svc' d.
Proof.
  unfold poll_queue, process_message.
  destruct (receive_messages _ _ _) as [[m|] q]; cbn; [|by destruct svc].
  destruct (content m) as [| |j]; cbn.
  1,2: split_and!; [done..|]; intros svc' Hne; by destruct svc, svc'.
  destruct (handler env svc _ _ _) as [[r|e] p]; cbn;
    (split_and!; [done..|]; intros svc' Hne; by destruct svc, svc').
Qed.

(** The flag and the idle counter after polling one queue. *)
Lemma poll_queue_found svc d :
  (poll_queue env svc d).1
  = bool_decide (is_Some (receive_messages (now d) visibility_timeout (queue svc d)).1)
  /\ idle_count (poll_queue env svc d).2
     = (if (poll_queue env svc d).1 then 0%nat else idle_count d).
Proof.
  unfold poll_queue, process_message.
  destruct (receive_messages _ _ _) as [[m|] q]; cbn; [|done].
  rewrite ?bool_decide_eq_true_2 by done.
  destruct (content m) as [| |j]; cbn; [done..|].
  by destruct (handler env svc _ _ _) as [[r|e] p].
Qed.

(** The events of polling one queue. *)
Lemma poll_queue_events svc d :
  exists evs,
    trace (poll_queue env svc d).2 = (trace d ++ evs)%list
    /\ polled_services evs = [svc]
    /\ Forall (fun e => event_service e = svc) evs
    /\ service_facts env svc d (poll_queue env svc d).2 evs.
Proof.
  unfold poll_queue, process_message.
  destruct (receive_messages _ _ _) as [[m|] q] eqn:Hrecv; cbn.
  2:{ exists [Polled svc None]. split_and!; [by rewrite <- ?app_assoc | done | by repeat constructor |].
      unfold service_facts; cbn. split_and!; [lia | ..]; solve_events. }
  apply receive_messages_some in Hrecv as (Hin & Hvis & Hhid & Hids).
  destruct (content m) as [| |j] eqn:Hcontent; cbn.
  1,2: exists [Polled svc (Some (message_id m))];
       (split_and!; [by rewrite <- ?app_assoc | done | by repeat constructor |]);
       unfold service_facts; cbn; (split_and!; [lia | ..]); solve_events.
  destruct (handler env svc _ _ _) as [[r|e] p] eqn:Hh; cbn.
  - exists [Polled svc (Some (message_id m)); Handled svc (message_id m) true;
            Deleted svc (message_id m)].
    split_and!; [by rewrite <- ?app_assoc | done | by repeat constructor |].
    unfold service_facts; cbn. rewrite decide_True by done. cbn.
    split_and!; [lia | | | |].
    + solve_events.
    + intros m' H. in_cases. injection H as <-.
      replace (queue svc _) with (delete_message m q) by by destruct svc.
      apply delete_message_gone.
    + solve_events.
    + intros m' b H. in_cases. injection H as <- <-.
      exists m, j, (processor d). rewrite Hh. by split_and!.
  - exists [Polled svc (Some (message_id m)); Handled svc (message_id m) false].
    split_and!; [by rewrite <- ?app_assoc | done | by repeat constructor |].
    unfold service_facts; cbn. rewrite decide_True by done. cbn.
    split_and!; [lia | | | |].
    + solve_events.
    + solve_events.
    + intros m' H. in_cases. injection H as <-.
      exists (hide (now d + visibility_timeout) m).
      replace (queue svc _) with q by by destruct svc.
      by split_and!.
    + intros m' b H. in_cases. injection H as <- <-.
      exists m, j, (processor d). rewrite Hh. by split_and!.
Qed.

Lemma handled_of_unmentioned svc evs :
  Forall (fun e => event_service e <> svc) evs -> handled_of svc evs = [].
Proof.
  induction 1 as [|e evs He _ IH]; [done|].
  unfold handled_of in *. cbn. rewrite IH.
  destruct e; cbn in *; try done. by rewrite decide_False.
Qed.

Lemma handled_of_app svc evs1 evs2 :
  handled_of svc (evs1 ++ evs2) = (handled_of svc evs1 ++ handled_of svc evs2)%list.
Proof. apply omap_app. Qed.

Lemma unmentioned_not_in svc evs e :
  Forall (fun e => event_service e <> svc) evs -> event_service e = svc -> ~ In e evs.
Proof. rewrite List.Forall_forall. intros H He Hin. exact (H e Hin He). Qed.

(** Events that do not mention a service say nothing about its queue. *)
Lemma service_facts_unmentioned svc d d' evs :
  Forall (fun e => event_service e <> svc) evs -> service_facts env svc d d' evs.
Proof.
  intros H. unfold service_facts. rewrite (handled_of_unmentioned _ _ H).
  split_and!; [cbn; lia | ..].
  - intros m. split; intros Hin; by apply (unmentioned_not_in _ _ _ H) in Hin.
  - intros m Hin. by apply (unmentioned_not_in _ _ _ H) in Hin.
  - intros m Hin. by apply (unmentioned_not_in _ _ _ H) in Hin.
  - intros m b Hin. by apply (unmentioned_not_in _ _ _ H) in Hin.
Qed.

(** The facts of a service survive later polling of other queues. *)
Lemma service_facts_app_l svc d d1 d2 evs1 evs2 :
  service_facts env svc d d1 evs1 ->
  Forall (fun e => event_service e <> svc) evs2 ->
  queue svc d2 = queue svc d1 ->
  service_facts env svc d d2 (evs1 ++ evs2).
Proof.
  intros (F1 & F2 & F3 & F4 & F5) H Hq. unfold service_facts.
  rewrite handled_of_app, (handled_of_unmentioned _ _ H), app_nil_r, Hq.
  assert (Hin : forall e, event_service e = svc -> In e (evs1 ++ evs2) <-> In e evs1).
  { intros e He. rewrite in_app_iff. split; [|tauto].
    intros [?|Hin]; [done|]. by apply (unmentioned_not_in _ _ _ H) in Hin. }
  split_and!; [done | ..].
  - intros m. rewrite !Hin by done. apply F2.
  - intros m. rewrite Hin by done. apply F3.
  - intros m. rewrite Hin by done. apply F4.
  - intros m b. rewrite Hin by done. apply F5.
Qed.

(** The facts of a service are not disturbed by earlier polling of other
    queues. *)
Lemma service_facts_app_r svc d d1 d2 evs1 evs2 :
  Forall (fun e => event_service e <> svc) evs1 ->
  queue svc d1 = queue svc d ->
  now d1 = now d ->
  service_facts env svc d1 d2 evs2 ->
  service_facts env svc d d2 (evs1 ++ evs2).
Proof.
  intros H Hq Hnow (F1 & F2 & F3 & F4 & F5). unfold service_facts.
  rewrite handled_of_app, (handled_of_unmentioned _ _ H), app_nil_l.
  rewrite Hq, Hnow in *.
  assert (Hin : forall e, event_service e = svc -> In e (evs1 ++ evs2) <-> In e evs2).
  { intros e He. rewrite in_app_iff. split; [|tauto].
    intros [Hin|?]; [|done]. by apply (unmentioned_not_in _ _ _ H) in Hin. }
  split_and!; [done | ..].
  - intros m. rewrite !Hin by done. apply F2.
  - intros m. rewrite Hin by done. apply F3.
  - intros m. rewrite Hin by done. apply F4.
  - intros m b. rewrite Hin by done. apply F5.
Qed.

(** Polling a list of distinct queues in order. *)
Lemma poll_queues_spec order found d :
  NoDup order ->
  exists evs,
    trace (poll_queues env order found d).2 = (trace d ++ evs)%list
    /\ polled_services evs = order
    /\ Forall (fun e => In (event_service e) order) evs
    /\ now (poll_queues env order found d).2 = now d
    /\ cycles (poll_queues env order found d).2 = cycles d
    /\ (forall svc, ~ In svc order ->
          queue svc (poll_queues env order found d).2 = queue svc d)
    /\ (forall svc, service_facts env svc d (poll_queues env order found d).2 evs).
Proof.
  intros Hnd. revert found d.
  induction Hnd as [|svc0 rest Hnotin Hnd IH]; intros found d; cbn.
  { exists []. split_and!; [by rewrite app_nil_r | done..|].
    intros svc. by apply service_facts_unmentioned. }
  rewrite list_elem_of_In in Hnotin.
  destruct (poll_queue_frame svc0 d) as (Hnow1 & Hcyc1 & Hother1).
  destruct (poll_queue_events svc0 d) as (evs1 & Htr1 & Hp1 & Hall1 & Hfacts1).
  destruct (poll_queue env svc0 d) as [found1 d1]; cbn in *.
  destruct (IH (found || found1) d1)
    as (evs2 & Htr2 & Hp2 & Hall2 & Hnow2 & Hcyc2 & Hother2 & Hfacts2).
  exists (evs1 ++ evs2)%list.
  assert (Hrest : Forall (fun e => event_service e <> svc0) evs2).
  { eapply Forall_impl; [exact Hall2|]. cbn. intros e He Heq. by rewrite Heq in He. }
  split_and!.
  - by rewrite Htr2, Htr1, app_assoc.
  - unfold polled_services in *. by rewrite omap_app, Hp1, Hp2.
  - apply Forall_app. split.
    + eapply Forall_impl; [exact Hall1|]. cbn. auto.
    + eapply Forall_impl; [exact Hall2|]. cbn. auto.
  - congruence.
  - congruence.
  - intros svc Hsvc. rewrite Hother2 by tauto. apply Hother1. intros ->. tauto.
  - intros svc. destruct (decide (svc = svc0)) as [->|Hne].
    + apply service_facts_app_l with d1; [done | done | by apply Hother2].
    + apply service_facts_app_r with d1; [ | by apply Hother1 | done | done].
      eapply Forall_impl; [exact Hall1|]. cbn. congruence.
Qed.

(** The flag and the idle counter after polling a list of distinct queues:
    the counter is reset when some queue yielded a message and untouched
    otherwise. *)
Lemma poll_queues_found order found d :
  NoDup order ->
  (poll_queues env order found d).1 = found || existsb (fun svc => yields svc d) order
  /\ idle_count (poll_queues env order found d).2
     = (if existsb (fun svc => yields svc d) order then 0%nat else idle_count d).
Proof.
  intros Hnd. revert found d.
  induction Hnd as [|svc0 rest Hnotin Hnd IH]; intros found d; cbn.
  { by rewrite orb_false_r. }
  rewrite list_elem_of_In in Hnotin.
  destruct (poll_queue_frame svc0 d) as (Hnow1 & _ & Hother1).
  destruct (poll_queue_found svc0 d) as (Hf1 & Hi1).
  destruct (poll_queue env svc0 d) as [found1 d1]; cbn in *.
  destruct (IH (found || found1) d1) as (Hf2 & Hi2).
  assert (Hsame : existsb (fun svc => yields svc d1) rest
                  = existsb (fun svc => yields svc d) rest).
  { apply existsb_agree. intros svc Hsvc. unfold yields.
    rewrite Hnow1, Hother1; [done|]. intros ->. tauto. }
  rewrite Hsame in *. fold (yields svc0 d) in Hf1. rewrite <- Hf1.
  split; [by rewrite Hf2, orb_assoc|].
  rewrite Hi2, Hi1. by destruct found1, (existsb _ rest).
Qed.

End DispatchFacts.

(** ** Polling cycles *)

Section CycleFacts.
Context (env : Env).

Lemma queue_order_NoDup : NoDup queue_order.
Proof.
  unfold queue_order.
  repeat constructor; rewrite ?list_elem_of_In; cbn; intuition discriminate.
Qed.

Lemma yields_begin_cycle svc d : yields svc (begin_cycle d) = yields svc d.
Proof. by destruct svc. Qed.

(** The loop goes on unless no queue yielded a message and the counter,
    once incremented, has reached the threshold; the counter is reset by a
    message and incremented otherwise. *)
Lemma poll_cycle_counter d :
  (poll_cycle env d).1
  = any_yields d || negb (max_idle_time <=? idle_count d + 1)%nat
  /\ idle_count (poll_cycle env d).2
     = (if any_yields d then 0%nat else (idle_count d + 1)%nat).
Proof.
  unfold poll_cycle.
  destruct (poll_queues_found env queue_order false (begin_cycle d) queue_order_NoDup)
    as [Hf Hi].
  rewrite (existsb_agree _ (fun svc => yields svc d)) in Hf, Hi
    by (intros; apply yields_begin_cycle).
  fold (any_yields d) in Hf, Hi.
  rewrite orb_false_l in Hf. change (idle_count (begin_cycle d)) with (idle_count d) in Hi.
  destruct (poll_queues env queue_order false (begin_cycle d)) as [found d3].
  cbn [fst snd] in *. subst found.
  destruct (any_yields d); cbn [negb orb fst snd]; [done|].
  cbn [idle_count set_idle_count]. rewrite Hi.
  by destruct (max_idle_time <=? idle_count d + 1)%nat.
Qed.


Lemma yields_false_quiet svc d :
  yields svc d = false ->
  poll_queue env svc d = (false, emit (Polled svc None) d).
Proof.
  unfold yields, poll_queue. intros H.
  destruct (receive_messages _ _ _) as [[m|] q]; [|done].
  cbn in H. by rewrite ?bool_decide_eq_true_2 in H.
Qed.

Lemma yields_emit svc e d : yields svc (emit e d) = yields svc d.
Proof. by destruct svc. Qed.

(** A cycle in which no queue yields a message leaves the queues and the
    processor alone; the clock advances by the one-second sleep unless the
    loop stops. *)
Lemma poll_cycle_idle d :
  any_yields d = false ->
  (forall svc, queue svc (poll_cycle env d).2 = queue svc d)
  /\ processor (poll_cycle env d).2 = processor d
  /\ cycles (poll_cycle env d).2 = S (cycles d)
  /\ now (poll_cycle env d).2 = (now d + (if (poll_cycle env d).1 then 1 else 0))%nat.
Proof.
  unfold any_yields, queue_order. cbn.
  rewrite !orb_false_iff. intros (H1 & H2 & H3 & _).
  unfold poll_cycle, queue_order, poll_queues.
  rewrite yields_false_quiet by by rewrite yields_begin_cycle.
  rewrite yields_false_quiet by by rewrite yields_emit, yields_begin_cycle.
  rewrite yields_false_quiet by by rewrite !yields_emit, yields_begin_cycle.
  cbn -[Nat.leb max_idle_time].
  destruct (max_idle_time <=? _)%nat; cbn; (split_and!; [by intros [] | done | done | lia]).
Qed.

Lemma quiet_until_no_yield t d :
  quiet_until t d -> (now d < t)%nat -> any_yields d = false.
Proof.
  intros Hq Hlt. unfold any_yields, queue_order. cbn.
  rewrite !orb_false_iff. split_and!; [| | |done];
    unfold yields; (rewrite receive_messages_quiet; [done|]);
    intros m Hm; specialize (Hq _ _ Hm); lia.
Qed.

Lemma quiet_until_poll_cycle t d :
  quiet_until t d -> any_yields d = false -> quiet_until t (poll_cycle env d).2.
Proof.
  intros Hq Hno svc m. destruct (poll_cycle_idle d Hno) as (Hqueue & _).
  rewrite Hqueue. apply Hq.
Qed.

(** While the queues stay silent and the counter is below the threshold,
    the loop keeps running and counts every cycle. *)
Lemma after_cycles_quiet n d :
  quiet_until (now d + n) d ->
  (idle_count d + n < max_idle_time)%nat ->
  exists dn, after_cycles env n d = Some dn
             /\ idle_count dn = (idle_count d + n)%nat
             /\ cycles dn = (cycles d + n)%nat
             /\ now dn = (now d + n)%nat
             /\ (forall svc, queue svc dn = queue svc d).
Proof.
  revert d. induction n as [|n IH]; intros d Hq Hlt; cbn.
  { exists d. split_and!; [done | lia | lia | lia | done]. }
  assert (Hno : any_yields d = false) by (apply (quiet_until_no_yield _ _ Hq); lia).
  destruct (poll_cycle_counter d) as [Hgo Hidle].
  destruct (poll_cycle_idle d Hno) as (Hqueue & _ & Hcyc & Hnow).
  pose proof (quiet_until_poll_cycle _ _ Hq Hno) as Hq'.
  rewrite Hno in Hgo, Hidle. rewrite orb_false_l in Hgo.
  destruct (poll_cycle env d) as [go d1]. cbn [fst snd] in *. subst go.
  destruct (max_idle_time <=? idle_count d + 1)%nat eqn:Hle.
  { apply Nat.leb_le in Hle. lia. }
  cbn [negb] in *.
  destruct (IH d1) as (dn & Hn & Hi & Hc & Hnw & Hqs).
  - replace (now d1 + n)%nat with (now d + S n)%nat by lia. exact Hq'.
  - lia.
  - exists dn. split_and!; [done | lia | lia | lia |].
    intros svc. by rewrite Hqs, Hqueue.
Qed.

Lemma main_loop_after_cycles n d dn fuel :
  after_cycles env n d = Some dn ->
  main_loop env (n + fuel) d = main_loop env fuel dn.
Proof.
  revert d. induction n as [|n IH]; intros d; cbn; [congruence|].
  destruct (poll_cycle env d) as [[] d1]; [apply IH | discriminate].
Qed.

Lemma main_loop_too_short n d dn fuel :
  after_cycles env n d = Some dn -> (fuel <= n)%nat -> main_loop env fuel d = None.
Proof.
  revert d fuel. induction n as [|n IH]; intros d fuel; cbn.
  { intros _ Hf. by replace fuel with 0%nat by lia. }
  destruct fuel as [|fuel]; [done|]. cbn.
  destruct (poll_cycle env d) as [[] d1]; [|discriminate].
  intros H Hf. apply (IH _ _ H). lia.
Qed.

End CycleFacts.

(** ** Loaded services over the life of the process *)

Section LifetimeFacts.
Context (env : Env).

Lemma set_blobs_same s : set_blobs (blobs s) s = s.
Proof. by destruct s. Qed.

(** Beyond what its loader does, a handler changes the blob container only. *)
Lemma handler_try_state svc now job s :
  exists b, (handler_try env svc now job s).2 = set_blobs b (load env svc s).2.
Proof.
  destruct svc; cbn [handler_try load];
    [unfold process_style_transfer_try | unfold process_rag_chat_try
    | unfold process_recommendation_try]; unfold bind at 1.
  - destruct (load_style_transfer_model env s) as [[[]|e] s1]; cbn [snd];
      [|by exists (blobs s1); rewrite set_blobs_same].
    exists (blobs s1). rewrite set_blobs_same. run_monad.
  - destruct (load_rag_system env s) as [[[]|e] s1]; cbn [snd];
      [|by exists (blobs s1); rewrite set_blobs_same].
    unfold upload_result.
    run_monad; first [by eexists | by exists (blobs s1); rewrite set_blobs_same].
  - destruct (load_recommendation_data env s) as [[[]|e] s1]; cbn [snd];
      [|by exists (blobs s1); rewrite set_blobs_same].
    unfold upload_result.
    run_monad; first [by eexists | by exists (blobs s1); rewrite set_blobs_same].
Qed.

Lemma handler_state svc now job s :
  exists b, (handler env svc now job s).2 = set_blobs b (load env svc s).2.
Proof.
  rewrite handler_unfold. unfold try_except.
  destruct (handler_try_state svc now job s) as [b Hb].
  destruct (handler_try env svc now job s) as [[r|e] s1]; cbn [snd] in *; [by exists b|].
  rewrite on_handler_error_spec.
  destruct (job_id job); cbn [snd]; [|by exists b].
  rewrite Hb. by eexists.
Qed.







End LifetimeFacts.

(** C3. A loader whose construction raises caches nothing: the exception
    reaches the caller, the loaded flag stays unset (and the module global
    stays empty), and the next call enters the construction again, raising
    again if it fails again and returning with the flag set if it works. *)
Theorem loader_failure_is_not_cached (env : Env) (svc : Service) (s : PState) (e : exn) :
  unloaded svc s ->
  construction_error env svc (constructions svc s) = Some e ->
  exists s1,
    load env svc s = (Raise e, s1)
    /\ loaded svc s1 = false
    /\ unloaded svc s1
    /\ constructions svc s1 = S (constructions svc s)
    /\ (forall e2, construction_error env svc (S (constructions svc s)) = Some e2 ->
        exists s2, load env svc s1 = (Raise e2, s2)
                   /\ constructions svc s2 = S (S (constructions svc s)))
    /\ (construction_error env svc (S (constructions svc s)) = None ->
        exists s2, load env svc s1 = (Ret tt, s2)
                   /\ loaded svc s2 = true
                   /\ constructions svc s2 = S (S (constructions svc s))).
Proof.
  intros Hun Herr.
  destruct (load_construction_fails env svc s e Hun Herr) as (s1 & Hload & Hun1 & Hc & _).
  exists s1. split_and!; [done | apply Hun1 | done | done | |].
  - intros e2 Herr2. rewrite <- Hc in Herr2.
    destruct (load_construction_fails env svc s1 e2 Hun1 Herr2) as (s2 & H2 & _ & Hc2 & _).
    exists s2. split; [done|]. by rewrite Hc2, Hc.
  - intros Hok. rewrite <- Hc in Hok.
    destruct (load_construction_succeeds env svc s1 Hun1 Hok) as (s2 & H2 & Hl2 & Hc2 & _).
    exists s2. split_and!; [done..|]. by rewrite Hc2, Hc.
Qed.

Lemma loader_failure_is_not_cached_witness :
  exists s1,
    load flaky_env recommendation (PState_init ∅) = (Raise transient, s1)
    /\ loaded recommendation s1 = false
    /\ unloaded recommendation s1
    /\ constructions recommendation s1 = 1%nat
    /\ (forall e2, construction_error flaky_env recommendation 1 = Some e2 ->
        exists s2, load flaky_env recommendation s1 = (Raise e2, s2)
                   /\ constructions recommendation s2 = 2%nat)
    /\ (construction_error flaky_env recommendation 1 = None ->
        exists s2, load flaky_env recommendation s1 = (Ret tt, s2)
                   /\ loaded recommendation s2 = true
                   /\ constructions recommendation s2 = 2%nat).
Proof.
  apply (loader_failure_is_not_cached flaky_env recommendation (PState_init ∅) transient).
  - split; [reflexivity | discriminate].
  - reflexivity.
Defined.




Section TurnFacts.
Context (env : Env).



End TurnFacts.


(** A cycle with a style-transfer and a recommendation message waiting: the
    first fails and stays, the second completes and is deleted. *)
Example cycle_with_a_failure_and_a_success :
  let d := ready (sample_deployment [message_of 1 style_job] [] [message_of 2 budaya_job]) in
  let d' := (poll_cycle working_env d).2 in
  trace d' = [Polled style_transfer (Some 1%nat); Handled style_transfer 1 false;
              Polled rag_chat None;
              Polled recommendation (Some 2%nat); Handled recommendation 2 true;
              Deleted recommendation 2]
  /\ message_ids (queue style_transfer d') = [1%nat]
  /\ message_ids (queue recommendation d') = []
  /\ idle_count d' = 0%nat.
Proof. cbv zeta. split_and!; vm_compute; reflexivity. Qed.

(** C5. The idle counter counts the cycles in which no queue yielded a
    message and is reset to zero by a cycle in which one did; the loop stops
    in a cycle exactly when no queue yielded and the incremented counter has
    reached [max_idle_time], which is 120.  Hence, with [k] cycles missing to
    the threshold and queues that stay silent that long, the loop is still
    running after every smaller number of cycles, returns in the [k]-th with
    the counter at the threshold, and does so for any number of allowed
    iterations from [k] on. *)
Theorem idle_shutdown (env : Env) (d : Dispatcher) (k : nat) :
  (idle_count d + k = max_idle_time)%nat ->
  (0 < k)%nat ->
  quiet_until (now d + k) d ->
  max_idle_time = 120%nat
  /\ (forall d0,
        (poll_cycle env d0).1
        = any_yields d0 || negb (max_idle_time <=? idle_count d0 + 1)%nat
        /\ idle_count (poll_cycle env d0).2
           = (if any_yields d0 then 0%nat else (idle_count d0 + 1)%nat))
  /\ (forall n, (n < k)%nat ->
        exists dn, after_cycles env n d = Some dn
                   /\ idle_count dn = (idle_count d + n)%nat
                   /\ cycles dn = (cycles d + n)%nat)
  /\ (forall fuel, (fuel < k)%nat -> main_loop env fuel d = None)
  /\ (forall fuel, (k <= fuel)%nat ->
        exists d', main_loop env fuel d = Some d'
                   /\ cycles d' = (cycles d + k)%nat
                   /\ idle_count d' = max_idle_time).
Proof.
  intros Hk Hpos Hquiet.
  assert (Hrun : forall n, (n < k)%nat ->
            exists dn, after_cycles env n d = Some dn
                       /\ idle_count dn = (idle_count d + n)%nat
                       /\ cycles dn = (cycles d + n)%nat
                       /\ now dn = (now d + n)%nat
                       /\ (forall svc, queue svc dn = queue svc d)).
  { intros n Hn. apply after_cycles_quiet; [|lia].
    intros svc m Hm. specialize (Hquiet svc m Hm). lia. }
  split_and!.
  - reflexivity.
  - intros d0. apply poll_cycle_counter.
  - intros n Hn. destruct (Hrun n Hn) as (dn & H1 & H2 & H3 & _). eauto.
  - intros fuel Hf. destruct (Hrun (k - 1)%nat) as (dn & H1 & _); [lia|].
    apply (main_loop_too_short env _ _ _ _ H1). lia.
  - intros fuel Hf. destruct (Hrun (k - 1)%nat) as (dn & H1 & Hi & Hc & Hn & Hq); [lia|].
    replace fuel with ((k - 1) + S (fuel - k))%nat by lia.
    rewrite (main_loop_after_cycles env _ _ _ _ H1). cbn [main_loop].
    assert (Hno : any_yields dn = false).
    { apply quiet_until_no_yield with (now d + k)%nat; [|lia].
      intros svc m. rewrite Hq. apply Hquiet. }
    destruct (poll_cycle_counter env dn) as [Hgo Hidle].
    destruct (poll_cycle_idle env dn Hno) as (_ & _ & Hcyc & _).
    rewrite Hno in Hgo, Hidle. rewrite orb_false_l in Hgo.
    destruct (poll_cycle env dn) as [go d']. cbn [fst snd] in *. subst go.
    replace (max_idle_time <=? idle_count dn + 1)%nat with true
      by (symmetry; apply Nat.leb_le; lia).
    cbn [negb]. exists d'. split_and!; [done | lia | lia].
Qed.

Lemma idle_shutdown_witness :
  max_idle_time = 120%nat
  /\ (forall d0,
        (poll_cycle working_env d0).1
        = any_yields d0 || negb (max_idle_time <=? idle_count d0 + 1)%nat
        /\ idle_count (poll_cycle working_env d0).2
           = (if any_yields d0 then 0%nat else (idle_count d0 + 1)%nat))
  /\ (forall n, (n < 120)%nat ->
        exists dn, after_cycles working_env n (ready (sample_deployment [] [] [])) = Some dn
                   /\ idle_count dn = (0 + n)%nat
                   /\ cycles dn = (0 + n)%nat)
  /\ (forall fuel, (fuel < 120)%nat ->
        main_loop working_env fuel (ready (sample_deployment [] [] [])) = None)
  /\ (forall fuel, (120 <= fuel)%nat ->
        exists d', main_loop working_env fuel (ready (sample_deployment [] [] [])) = Some d'
                   /\ cycles d' = (0 + 120)%nat
                   /\ idle_count d' = max_idle_time).
Proof.
  apply (idle_shutdown working_env (ready (sample_deployment [] [] [])) 120).
  - reflexivity.
  - lia.
  - intros svc m H. destruct svc; destruct H.
Defined.

(** ** Failure handling *)

Section FailureFacts.
Context (env : Env).

(** A handler raises exactly when its [try] block does, and then with the
    exception the [except] block ends in. *)
Lemma handler_raises svc now job s e s' :
  handler env svc now job s = (Raise e, s') ->
  exists e0 s0, handler_try env svc now job s = (Raise e0, s0)
                /\ on_handler_error (A:=Result) svc now job e0 s0 = (Raise e, s').
Proof.
  rewrite handler_unfold. unfold try_except.
  destruct (handler_try env svc now job s) as [[r|e0] s0]; [discriminate|].
  intros H. by exists e0, s0.
Qed.

(** The [try] block of the style-transfer handler never returns. *)
Lemma process_style_transfer_try_raises now job s :
  is_ret (process_style_transfer_try env now job s).1 = false.
Proof.
  unfold process_style_transfer_try. unfold bind at 1.
  destruct (load_style_transfer_model env s) as [[[]|e] s1]; [|done].
  run_monad.
Qed.

(** When the model loads and both pictures decode, the exception is the
    [TypeError] of the call to [style_trans]. *)
Lemma process_style_transfer_try_strength now job s s1 jid c cd st sd ci si :
  load_style_transfer_model env s = (Ret tt, s1) ->
  job_id job = Some jid ->
  content_image job = Some c -> b64decode env c = Ret cd ->
  style_image job = Some st -> b64decode env st = Ret sd ->
  image_open env cd = Ret ci -> image_open env sd = Ret si ->
  process_style_transfer_try env now job s
  = (Raise (TypeError "style_trans() got an unexpected keyword argument 'strength'"), s1).
Proof.
  intros Hload Hjid Hc Hcd Hst Hsd Hci Hsi.
  unfold process_style_transfer_try. unfold bind at 1. rewrite Hload.
  unfold_monad. rewrite Hjid, Hc. cbn. rewrite Hcd, Hst. cbn.
  rewrite Hsd, Hci, Hsi. reflexivity.
Qed.

Lemma load_style_transfer_model_generate_calls s :
  generate_calls (load_style_transfer_model env s).2 = generate_calls s.
Proof.
  unfold load_style_transfer_model, model_load; unfold_monad;
    repeat (destruct_match; cbn; try done).
Qed.

(** The style-transfer handler never reaches the generator. *)
Lemma process_style_transfer_no_generation now job s :
  generate_calls (process_style_transfer env now job s).2 = generate_calls s.
Proof.
  unfold process_style_transfer, try_except, process_style_transfer_try.
  unfold bind at 1.
  pose proof (load_style_transfer_model_generate_calls s) as Hl.
  destruct (load_style_transfer_model env s) as [[[]|e] s1]; cbn in Hl;
    unfold on_handler_error, upload_result; run_monad.
Qed.

Lemma job_id_set_start_time t j : job_id (set_start_time t j) = job_id j.
Proof. reflexivity. Qed.

(** The dispatcher's inner [except]: a message whose handler raised is
    recorded as failed and is not deleted. *)
Lemma handler_failure_is_not_absorbed svc d message j jid e p :
  content message = JsonObject j ->
  job_id j = Some jid ->
  handler env svc (now d) (set_start_time (now d) j) (processor d) = (Raise e, p) ->
  process_message env svc message d
  = emit (Handled svc (message_id message) false) (set_processor p d)
  /\ queue svc (process_message env svc message d) = queue svc d.
Proof.
  intros Hcontent Hjid Hraise.
  assert (Hpm : process_message env svc message d
                = emit (Handled svc (message_id message) false) (set_processor p d)).
  { unfold process_message. by rewrite Hcontent, Hraise. }
  split; [exact Hpm|]. rewrite Hpm. by destruct svc.
Qed.

End FailureFacts.

(** C1, as the code has it.  When a handler invocation for a dequeued job
    that carries a job id fails, the handler uploads a result with status
    "error" and the message of the exception under the job's blob name and
    then re-raises that same exception, the one its [try] block ended in, to
    the dispatcher; the dispatcher records the failure and does not delete
    the message, which stays in its queue. *)
Theorem handler_failure_is_persisted_and_reraised
    (env : Env) (svc : Service) (d : Dispatcher) (message : Message)
    (j : Job) (jid : string) (e : exn) (p : PState) :
  content message = JsonObject j ->
  job_id j = Some jid ->
  handler env svc (now d) (set_start_time (now d) j) (processor d) = (Raise e, p) ->
  (exists s0, handler_try env svc (now d) (set_start_time (now d) j) (processor d)
              = (Raise e, s0))
  /\ blobs p !! blob_name jid = Some (error_result svc (now d) jid e)
  /\ r_status (error_result svc (now d) jid e) = "error"
  /\ r_output (error_result svc (now d) jid e) = ErrorOutput (str e)
  /\ process_message env svc message d
     = emit (Handled svc (message_id message) false) (set_processor p d)
  /\ queue svc (process_message env svc message d) = queue svc d.
Proof.
  intros Hcontent Hjid Hraise.
  destruct (handler_raises env _ _ _ _ _ _ Hraise) as (e0 & s0 & Htry & Hexcept).
  rewrite on_handler_error_spec, job_id_set_start_time, Hjid in Hexcept.
  injection Hexcept as <- <-.
  destruct (handler_failure_is_not_absorbed env svc d message j jid _ _
              Hcontent Hjid Hraise) as (Hpm & Hq).
  split_and!.
  - by exists s0.
  - cbn. apply lookup_insert_eq.
  - reflexivity.
  - reflexivity.
  - exact Hpm.
  - exact Hq.
Qed.

Lemma handler_failure_is_persisted_and_reraised_witness :
  let d := ready (sample_deployment [] [] [message_of 7 job_without_preferences]) in
  let e := KeyError "preferences" in
  let p := (handler working_env recommendation (now d)
              (set_start_time (now d) job_without_preferences) (processor d)).2 in
  (exists s0, handler_try working_env recommendation (now d)
                (set_start_time (now d) job_without_preferences) (processor d)
              = (Raise e, s0))
  /\ blobs p !! blob_name "r2" = Some (error_result recommendation (now d) "r2" e)
  /\ r_status (error_result recommendation (now d) "r2" e) = "error"
  /\ r_output (error_result recommendation (now d) "r2" e) = ErrorOutput (str e)
  /\ process_message working_env recommendation (message_of 7 job_without_preferences) d
     = emit (Handled recommendation 7 false) (set_processor p d)
  /\ queue recommendation
       (process_message working_env recommendation (message_of 7 job_without_preferences) d)
     = queue recommendation d.
Proof.
  apply (handler_failure_is_persisted_and_reraised working_env recommendation
           (ready (sample_deployment [] [] [message_of 7 job_without_preferences]))
           (message_of 7 job_without_preferences) job_without_preferences "r2"
           (KeyError "preferences")).
  - reflexivity.
  - reflexivity.
  - reflexivity.
Defined.

(** C1, as stated, fails.  A recommendation job without its [preferences]
    key is a business failure; the handler does not absorb it (the
    invocation ends by raising [KeyError]), and after the cycle the message
    is still in the recommendation queue, recorded as failed and never
    deleted, although the error result has been written. *)
Lemma handler_failure_propagates_and_message_stays :
  let d := ready (sample_deployment [] [] [message_of 7 job_without_preferences]) in
  let d' := (poll_cycle working_env d).2 in
  (handler working_env recommendation (now d)
     (set_start_time (now d) job_without_preferences) (processor d)).1
  = Raise (KeyError "preferences")
  /\ message_ids (queue recommendation d') = [7%nat]
  /\ trace d' = [Polled style_transfer None; Polled rag_chat None;
                 Polled recommendation (Some 7%nat); Handled recommendation 7 false]
  /\ r_status <$> (blobs (processor d') !! blob_name "r2") = Some "error".
Proof.
  cbv zeta. split_and!; vm_compute; reflexivity.
Qed.

(** C7. Handling the same job twice, as on redelivery, writes both times to
    the blob [results/<job_id>.json], replacing what is there; both results
    carry the job's id and the service's name; and the container ends up
    with one object under that name, the result of the second run, and with
    every other blob as it was. *)
Theorem redelivery_last_write_wins
    (env : Env) (svc : Service) (job : Job) (jid : string)
    (t1 t2 : nat) (s : PState) :
  job_id job = Some jid ->
  let run1 := handler env svc t1 (set_start_time t1 job) s in
  let run2 := handler env svc t2 (set_start_time t2 job) run1.2 in
  blob_name jid = "results/" +:+ jid +:+ ".json"
  /\ exists x1 x2,
       blobs run1.2 = <[blob_name jid := x1]> (blobs s)
       /\ blobs run2.2 = <[blob_name jid := x2]> (blobs run1.2)
       /\ r_job_id x1 = jid /\ r_job_id x2 = jid
       /\ r_service_type x1 = service_name svc
       /\ r_service_type x2 = service_name svc
       /\ (forall r, run1.1 = Ret r -> r = x1)
       /\ (forall r, run2.1 = Ret r -> r = x2)
       /\ blobs run2.2 !! blob_name jid = Some x2
       /\ (forall key, key <> blob_name jid -> blobs run2.2 !! key = blobs s !! key)
       /\ dom (blobs run2.2) = {[blob_name jid]} ∪ dom (blobs s).
Proof.
  intros Hjid run1 run2.
  destruct (handler_writes_once env svc t1 (set_start_time t1 job) s jid Hjid)
    as (x1 & Hb1 & Hid1 & Hsvc1 & Hr1).
  destruct (handler_writes_once env svc t2 (set_start_time t2 job) run1.2 jid Hjid)
    as (x2 & Hb2 & Hid2 & Hsvc2 & Hr2).
  fold run1 in Hb1, Hr1. fold run2 in Hb2, Hr2.
  split; [reflexivity|].
  exists x1, x2. split_and!; try done.
  - intros r Hr. rewrite Hr in Hr1. by destruct Hr1.
  - intros r Hr. rewrite Hr in Hr2. by destruct Hr2.
  - rewrite Hb2. apply lookup_insert_eq.
  - intros key Hkey. rewrite Hb2, Hb1. by rewrite !lookup_insert_ne.
  - by rewrite Hb2, Hb1, insert_insert_eq, dom_insert_L.
Qed.

Lemma redelivery_last_write_wins_witness :
  let run1 := handler working_env recommendation 1000 (set_start_time 1000 budaya_job)
                (PState_init ∅) in
  let run2 := handler working_env recommendation 1700 (set_start_time 1700 budaya_job)
                run1.2 in
  blob_name "r1" = "results/" +:+ "r1" +:+ ".json"
  /\ exists x1 x2,
       blobs run1.2 = <[blob_name "r1" := x1]> (blobs (PState_init ∅))
       /\ blobs run2.2 = <[blob_name "r1" := x2]> (blobs run1.2)
       /\ r_job_id x1 = "r1" /\ r_job_id x2 = "r1"
       /\ r_service_type x1 = service_name recommendation
       /\ r_service_type x2 = service_name recommendation
       /\ (forall r, run1.1 = Ret r -> r = x1)
       /\ (forall r, run2.1 = Ret r -> r = x2)
       /\ blobs run2.2 !! blob_name "r1" = Some x2
       /\ (forall key, key <> blob_name "r1" ->
           blobs run2.2 !! key = blobs (PState_init ∅) !! key)
       /\ dom (blobs run2.2) = {[blob_name "r1"]} ∪ dom (blobs (PState_init ∅)).
Proof.
  apply (redelivery_last_write_wins working_env recommendation budaya_job "r1" 1000 1700
           (PState_init ∅)).
  reflexivity.
Defined.

(** C10, as the code has it.  No style-transfer job that reaches
    [process_style_transfer] completes: the handler calls [style_trans] with
    two positional images and a keyword [strength], which names none of its
    five parameters, so binding the arguments raises [TypeError] whatever
    the images are (a call with five positional arguments binds).  The
    handler ends in an exception, the dispatcher records the failure and
    leaves the message in the queue, and the generation collaborator is
    never invoked.  When the job carries a job id, the handler uploads the
    error result of the exception under the job's blob name and re-raises
    it, and when the model loads and both pictures decode, the exception is
    that [TypeError].  When the job carries no job id, the [except] block
    fails on that key, and nothing is persisted. *)
Theorem style_transfer_jobs_always_fail
    (env : Env) (d : Dispatcher) (message : Message) (j : Job) :
  content message = JsonObject j ->
  let job_data := set_start_time (now d) j in
  (forall content style v s,
      style_trans env [PyImage content; PyImage style] [("strength", v)] s
      = (Raise (TypeError "style_trans() got an unexpected keyword argument 'strength'"), s))
  /\ List.length style_trans_params = 5%nat
  /\ existsb (String.eqb "strength") style_trans_params = false
  /\ (forall a b c g h,
        is_ret (bind_arguments "style_trans" style_trans_params [a; b; c; g; h] []) = true)
  /\ exists e p,
       process_style_transfer env (now d) job_data (processor d) = (Raise e, p)
       /\ process_message env style_transfer message d
          = emit (Handled style_transfer (message_id message) false) (set_processor p d)
       /\ queue style_transfer (process_message env style_transfer message d)
          = queue style_transfer d
       /\ generate_calls p = generate_calls (processor d)
       /\ (forall jid,
             job_id j = Some jid ->
             blobs p !! blob_name jid = Some (error_result style_transfer (now d) jid e)
             /\ r_status (error_result style_transfer (now d) jid e) = "error"
             /\ (forall s1 c cd st sd ci si,
                   load_style_transfer_model env (processor d) = (Ret tt, s1) ->
                   content_image j = Some c -> b64decode env c = Ret cd ->
                   style_image j = Some st -> b64decode env st = Ret sd ->
                   image_open env cd = Ret ci -> image_open env sd = Ret si ->
                   e = TypeError "style_trans() got an unexpected keyword argument 'strength'"))
       /\ (job_id j = None ->
           e = KeyError "job_id" /\ blobs p = blobs (processor d)).
Proof.
  intros Hcontent job_data.
  split_and!; [intros; apply style_trans_strength_call | done | done | done |].
  pose proof (process_style_transfer_try_raises env (now d) job_data (processor d)) as Hraise.
  pose proof (handler_try_spec env style_transfer (now d) job_data (processor d)) as Hspec.
  cbn [handler_try] in Hspec.
  destruct (process_style_transfer_try env (now d) job_data (processor d))
    as [[r|e] s0] eqn:Htry; [discriminate|].
  assert (Hh : handler env style_transfer (now d) job_data (processor d)
               = match job_id j with
                 | Some jid =>
                     (Raise e,
                      set_blobs (<[blob_name jid := error_result style_transfer (now d) jid e]>
                                   (blobs s0)) s0)
                 | None => (Raise (KeyError "job_id"), s0)
                 end).
  { rewrite handler_unfold. unfold try_except. cbn [handler_try]. rewrite Htry.
    rewrite on_handler_error_spec. subst job_data.
    by rewrite job_id_set_start_time. }
  assert (Hgen : generate_calls
                   (handler env style_transfer (now d) job_data (processor d)).2
                 = generate_calls (processor d))
    by apply (process_style_transfer_no_generation env (now d) job_data (processor d)).
  assert (Hleft : forall e' p',
             handler env style_transfer (now d) job_data (processor d) = (Raise e', p') ->
             process_message env style_transfer message d
             = emit (Handled style_transfer (message_id message) false) (set_processor p' d)
             /\ queue style_transfer (process_message env style_transfer message d)
                = queue style_transfer d).
  { intros e' p' He'.
    assert (Hpm : process_message env style_transfer message d
                  = emit (Handled style_transfer (message_id message) false)
                      (set_processor p' d)).
    { unfold process_message. rewrite Hcontent. fold job_data. by rewrite He'. }
    split; [exact Hpm|]. by rewrite Hpm. }
  change (process_style_transfer env) with (handler env style_transfer).
  destruct (job_id j) as [jid|] eqn:Hjid.
  - destruct (Hleft _ _ Hh) as [Hpm Hq]. rewrite Hh in Hgen. cbn [snd] in Hgen.
    eexists _, _. split_and!; [exact Hh | exact Hpm | exact Hq | exact Hgen | | done].
    intros jid' [= <-]. split_and!.
    + cbn. apply lookup_insert_eq.
    + reflexivity.
    + intros s1 c cd st sd ci si Hload Hc Hcd Hst Hsd Hci Hsi.
      rewrite (process_style_transfer_try_strength env (now d) job_data (processor d) s1 jid
                 c cd st sd ci si) in Htry by done.
      congruence.
  - destruct (Hleft _ _ Hh) as [Hpm Hq]. rewrite Hh in Hgen. cbn [snd] in Hgen.
    eexists _, _. split_and!; [exact Hh | exact Hpm | exact Hq | exact Hgen | done |].
    intros _. by split.
Qed.

Lemma style_transfer_jobs_always_fail_witness :
  let d := ready (sample_deployment [message_of 1 style_job] [] []) in
  let message := message_of 1 style_job in
  let job_data := set_start_time (now d) style_job in
  (forall content style v s,
      style_trans working_env [PyImage content; PyImage style] [("strength", v)] s
      = (Raise (TypeError "style_trans() got an unexpected keyword argument 'strength'"), s))
  /\ List.length style_trans_params = 5%nat
  /\ existsb (String.eqb "strength") style_trans_params = false
  /\ (forall a b c g h,
        is_ret (bind_arguments "style_trans" style_trans_params [a; b; c; g; h] []) = true)
  /\ exists e p,
       process_style_transfer working_env (now d) job_data (processor d) = (Raise e, p)
       /\ process_message working_env style_transfer message d
          = emit (Handled style_transfer (message_id message) false) (set_processor p d)
       /\ queue style_transfer (process_message working_env style_transfer message d)
          = queue style_transfer d
       /\ generate_calls p = generate_calls (processor d)
       /\ (forall jid,
             job_id style_job = Some jid ->
             blobs p !! blob_name jid = Some (error_result style_transfer (now d) jid e)
             /\ r_status (error_result style_transfer (now d) jid e) = "error"
             /\ (forall s1 c cd st sd ci si,
                   load_style_transfer_model working_env (processor d) = (Ret tt, s1) ->
                   content_image style_job = Some c -> b64decode working_env c = Ret cd ->
                   style_image style_job = Some st -> b64decode working_env st = Ret sd ->
                   image_open working_env cd = Ret ci -> image_open working_env sd = Ret si ->
                   e = TypeError "style_trans() got an unexpected keyword argument 'strength'"))
       /\ (job_id style_job = None ->
           e = KeyError "job_id" /\ blobs p = blobs (processor d)).
Proof.
  apply (style_transfer_jobs_always_fail working_env
           (ready (sample_deployment [message_of 1 style_job] [] []))
           (message_of 1 style_job) style_job).
  reflexivity.
Defined.

(** C10, as stated for every job, fails.  A style-transfer job without a
    [job_id] raises too, and its message stays in the queue, but no result
    is persisted for it: the [except] block of the handler fails on the key
    it needs for the error result, with [KeyError], before anything is
    uploaded, and the container is as empty after the cycle as before. *)
Lemma style_transfer_job_without_id_is_not_reported :
  let d := ready (sample_deployment [message_of 3 style_job_without_id] [] []) in
  let d' := (poll_cycle working_env d).2 in
  (process_style_transfer working_env (now d)
     (set_start_time (now d) style_job_without_id) (processor d)).1
  = Raise (KeyError "job_id")
  /\ blobs (processor d) = ∅
  /\ blobs (processor d') = ∅
  /\ message_ids (queue style_transfer d') = [3%nat]
  /\ trace d' = [Polled style_transfer (Some 3%nat); Handled style_transfer 3 false;
                 Polled rag_chat None; Polled recommendation None].
Proof.
  cbv zeta. split_and!; vm_compute; reflexivity.
Qed.

(** ** Start-up and exit *)

(** C9, as the code has it.  Once the GPU check is past: when the
    connection string is unset or empty, [main] returns at once, whatever
    the number of iterations allowed, so that no storage client is built and
    the loop is never entered; when the clients are built and the loop stops,
    which it does only by the idle shutdown, [main] returns and the process
    exits with status 0. *)
Theorem main_startup_and_clean_exit (env : Env) (w : Deployment) (fuel : nat) :
  gpu_check_error env = None ->
  (AZURE_STORAGE_CONNECTION_STRING w = None
   \/ AZURE_STORAGE_CONNECTION_STRING w = Some "" ->
   main env w fuel = Some (Returned None))
  /\ (forall connection_string d,
        AZURE_STORAGE_CONNECTION_STRING w = Some connection_string ->
        connection_string <> "" ->
        from_connection_string env connection_string = Ret tt ->
        main_loop env fuel (ready w) = Some d ->
        main env w fuel = Some (Returned (Some d))
        /\ exit_status (Returned (Some d)) = 0%Z
        /\ (max_idle_time <= idle_count d)%nat).
Proof.
  intros Hgpu. split.
  - unfold main. rewrite Hgpu. by intros [-> | ->].
  - intros cs d Hcs Hne Hconn Hloop. unfold main. rewrite Hgpu, Hcs.
    destruct cs as [|c cs]; [done|]. rewrite Hconn, Hloop.
    split_and!; [done | done |].
    clear Hcs Hne Hconn. generalize (ready w) as d0, Hloop. clear Hloop.
    induction fuel as [|fuel IH]; intros d0; cbn; [discriminate|].
    pose proof (poll_cycle_counter env d0) as [Hgo Hidle].
    destruct (poll_cycle env d0) as [[] d1]; [apply IH|].
    intros [= <-]. cbn [fst snd] in *.
    destruct (any_yields d0); [discriminate|].
    rewrite orb_false_l in Hgo. symmetry in Hgo.
    apply negb_false_iff, Nat.leb_le in Hgo. lia.
Qed.

Lemma main_startup_and_clean_exit_witness :
  main working_env unconfigured_deployment 200 = Some (Returned None)
  /\ exists d,
       main working_env (sample_deployment [] [] []) 200 = Some (Returned (Some d))
       /\ exit_status (Returned (Some d)) = 0%Z
       /\ (max_idle_time <= idle_count d)%nat.
Proof.
  split.
  - apply (main_startup_and_clean_exit working_env unconfigured_deployment 200).
    + reflexivity.
    + left. reflexivity.
  - eexists.
    apply (main_startup_and_clean_exit working_env (sample_deployment [] [] []) 200)
      with (connection_string := "UseDevelopmentStorage=true").
    + reflexivity.
    + reflexivity.
    + discriminate.
    + reflexivity.
    + vm_compute. reflexivity.
Defined.

(** C9, as stated, fails.  With the connection string unset, [main] returns
    and the process exits with status 0, the status of a clean idle shutdown,
    not with a nonzero one. *)
Lemma missing_configuration_exits_zero :
  main working_env unconfigured_deployment 200 = Some (Returned None)
  /\ exit_status (Returned None) = 0%Z
  /\ exit_status <$> main working_env (sample_deployment [] [] []) 200 = Some 0%Z.
Proof.
  split_and!; vm_compute; reflexivity.
Qed.

(** ** The recommendation filter *)

Section RecommendationFacts.

Lemma filter_filter_and {A} (f g : A -> bool) (l : list A) :
  List.filter g (List.filter f l) = List.filter (fun x => f x && g x) l.
Proof.
  induction l as [|a l IH]; cbn; [done|].
  destruct (f a); cbn; [|done]. destruct (g a); by rewrite IH.
Qed.

Lemma filter_all {A} (l : list A) : List.filter (fun _ => true) l = l.
Proof. induction l as [|a l IH]; cbn; by rewrite ?IH. Qed.

Lemma filter_equal_spec col v df :
  filter_equal col v df
  = List.filter
      (fun r => match v with Some x => String.eqb (col r) x | None => true end) df.
Proof. destruct v; cbn; [done|]. by rewrite filter_all. Qed.

(** The chain of optional filters keeps exactly the rows that meet every
    supplied constraint. *)
Lemma apply_preferences_conjunctive p df :
  apply_preferences p df = List.filter (meets_preferences p) df.
Proof.
  unfold apply_preferences, filter_min_rating, filter_max_price.
  rewrite !filter_equal_spec, filter_filter_and.
  transitivity
    (List.filter
       (fun r => match min_rating p with Some x => Qle_bool x (Rating r) | None => true end)
       (List.filter
          (fun r => match max_price p with Some x => Qle_bool (Price r) x | None => true end)
          (List.filter
             (fun r =>
                match category p with Some c => String.eqb (Category r) c | None => true end
                && match city p with Some c => String.eqb (City r) c | None => true end)
             df))).
  { destruct (min_rating p), (max_price p); by rewrite ?filter_all. }
  rewrite !filter_filter_and. apply filter_ext. intros r.
  unfold meets_preferences. by rewrite andb_assoc.
Qed.

Lemma Qle_bool_false x y : Qle_bool x y = false -> (y <= x)%Q.
Proof.
  intros H. apply Qlt_le_weak, Qnot_le_lt. intros Hle.
  apply Qle_bool_iff in Hle. congruence.
Qed.

Lemma insert_by_rating_perm r l : insert_by_rating r l ≡ₚ r :: l.
Proof.
  induction l as [|x l IH]; cbn; [done|].
  destruct (Qle_bool (Rating x) (Rating r)); [done|].
  rewrite IH. apply Permutation_swap.
Qed.

Lemma sort_by_rating_perm df : sort_by_rating df ≡ₚ df.
Proof.
  induction df as [|r df IH]; cbn; [done|].
  by rewrite insert_by_rating_perm, IH.
Qed.

Lemma insert_by_rating_sorted r l :
  StronglySorted rated_no_higher l -> StronglySorted rated_no_higher (insert_by_rating r l).
Proof.
  induction 1 as [|x l Hl IH Hx]; cbn; [by repeat constructor|].
  destruct (Qle_bool (Rating x) (Rating r)) eqn:Hle.
  - apply Qle_bool_iff in Hle. constructor; [by constructor|].
    constructor; [exact Hle|].
    eapply Forall_impl; [exact Hx|]. unfold rated_no_higher. cbn.
    intros y Hy. by apply Qle_trans with (Rating x).
  - apply Qle_bool_false in Hle. constructor; [exact IH|].
    rewrite insert_by_rating_perm. by constructor.
Qed.

Lemma sort_by_rating_sorted df : StronglySorted rated_no_higher (sort_by_rating df).
Proof.
  induction df as [|r df IH]; cbn; [constructor|]. by apply insert_by_rating_sorted.
Qed.

(** [nlargest]: at most [n] rows, all taken from the frame, in descending
    order of rating, and none of the rows left out is rated above one that
    was taken. *)
Lemma nlargest_spec n df :
  List.length (nlargest n df) = Nat.min n (List.length df)
  /\ (forall r, In r (nlargest n df) -> In r df)
  /\ StronglySorted rated_no_higher (nlargest n df)
  /\ (forall r x, In r df -> ~ In r (nlargest n df) -> In x (nlargest n df) ->
        (Rating r <= Rating x)%Q).
Proof.
  unfold nlargest.
  pose proof (sort_by_rating_perm df) as Hperm.
  pose proof (sort_by_rating_sorted df) as Hsorted.
  rewrite <- (take_drop n (sort_by_rating df)) in Hsorted.
  split_and!.
  - by rewrite length_take, Hperm.
  - intros r Hr. apply list_elem_of_In. rewrite <- Hperm.
    apply list_elem_of_In in Hr.
    rewrite <- (take_drop n (sort_by_rating df)). apply elem_of_app. by left.
  - by apply StronglySorted_app_1_l in Hsorted.
  - intros r x Hr Hnot Hx.
    apply list_elem_of_In in Hr, Hx. rewrite <- Hperm in Hr.
    rewrite <- (take_drop n (sort_by_rating df)) in Hr.
    apply elem_of_app in Hr as [Hr|Hr].
    + by apply list_elem_of_In in Hr.
    + exact (StronglySorted_app_1_elem_of _ _ _ _ _ Hsorted Hx Hr).
Qed.

Lemma meets_record_meets p r :
  meets_preferences p r = true -> record_meets p (to_recommendation r).
Proof.
  unfold meets_preferences, record_meets. rewrite !andb_true_iff.
  intros [[[Hc Hy] Hp] Hr]. cbn. split_and!.
  - intros c Heq. rewrite Heq in Hc. by apply String.eqb_eq.
  - intros c Heq. rewrite Heq in Hy. by apply String.eqb_eq.
  - intros x Heq. rewrite Heq in Hp. by apply Qle_bool_iff.
  - intros x Heq. rewrite Heq in Hr. by apply Qle_bool_iff.
Qed.

End RecommendationFacts.

Section RecommendationHandler.
Context (env : Env).

(** The handler returns exactly when the data is loaded and the job has its
    three mandatory keys, and then with the result built from the frame. *)
Lemma process_recommendation_returns now job s r s' :
  process_recommendation env now job s = (Ret r, s') <->
  exists jid uid prefs df s1,
    load_recommendation_data env s = (Ret tt, s1)
    /\ job_id job = Some jid /\ user_id job = Some uid
    /\ preferences job = Some prefs
    /\ tourism_df (self s1) = Some df
    /\ r = {| r_job_id := jid;
              r_service_type := "recommendation";
              r_status := "completed";
              r_output :=
                let recommendation_list :=
                  map to_recommendation
                    (nlargest (default 10%nat (limit job)) (apply_preferences prefs df)) in
                RecommendationOutput uid prefs recommendation_list
                  (List.length recommendation_list);
              r_timestamp := now |}
    /\ s' = set_blobs (<[blob_name jid := r]> (blobs s1)) s1.
Proof.
  unfold process_recommendation, try_except.
  destruct (process_recommendation_try env now job s) as [[r0|e] s0] eqn:Htry;
    cbv beta iota.
  - unfold process_recommendation_try in Htry. unfold bind at 1 in Htry.
    destruct (load_recommendation_data env s) as [[[]|e] s1]; [|discriminate].
    unfold upload_result in Htry. unfold_monad.
    destruct (job_id job) as [jid|]; [|discriminate].
    destruct (user_id job) as [uid|]; [|discriminate].
    destruct (preferences job) as [prefs|]; [|discriminate].
    unfold_monad. cbv beta iota zeta in Htry.
    destruct (tourism_df (self s1)) as [df|] eqn:Hdf; [|discriminate].
    injection Htry as <- <-. split.
    + intros [= <- <-]. by exists jid, uid, prefs, df, s1.
    + intros (jid' & uid' & prefs' & df' & s1' & Hl & Hj & Hu & Hp & Hd & -> & ->).
      by simplify_eq.
  - rewrite on_handler_error_spec. split.
    + by destruct (job_id job).
    + intros (jid & uid & prefs & df & s1 & Hl & Hj & Hu & Hp & Hd & _).
      exfalso. unfold process_recommendation_try in Htry. unfold bind at 1 in Htry.
      rewrite Hl in Htry. unfold upload_result in Htry. unfold_monad.
      rewrite Hj, Hu, Hp in Htry. unfold_monad. cbv beta iota zeta in Htry.
      by rewrite Hd in Htry.
Qed.

Lemma load_recommendation_data_keeps_frame s s1 :
  load_recommendation_data env s = (Ret tt, s1) ->
  forall jid r, tourism_df (self (set_blobs (<[blob_name jid := r]> (blobs s1)) s1))
                = tourism_df (self s1).
Proof. reflexivity. Qed.

End RecommendationHandler.

(** Every record built by [to_recommendation] carries its row, field by
    field. *)
Lemma to_recommendation_projects rows :
  Forall2 projection_of rows (map to_recommendation rows).
Proof.
  induction rows as [|row rows IH]; cbn; constructor; [|done].
  unfold projection_of. by split_and!.
Qed.

(** C6. Whenever the recommendation handler returns a result, it names the
    job's user and preferences, and its records are the projections, in
    order and field by field (place id, name, description, category, city,
    price, rating, duration, latitude, longitude), of the first rows, at
    most [limit] (10 when the job names none), of the loaded frame filtered
    by the conjunction of the supplied preference keys and put in descending
    order of rating: every record meets every supplied constraint, a key
    that is absent constrains nothing, every row left out although it meets
    the constraints is rated no higher than any row returned, and the count
    reported is the number of records.  The handler does return such a
    result whenever the data loads and the job has its job id, user id and
    preferences. *)
Theorem recommendation_is_conjunctive_top_n (env : Env) (now : nat) (job : Job) (s : PState) :
  (forall r s',
      process_recommendation env now job s = (Ret r, s') ->
      exists uid prefs df rows recs,
        user_id job = Some uid
        /\ preferences job = Some prefs
        /\ tourism_df (self s') = Some df
        /\ r_output r = RecommendationOutput uid prefs recs (List.length recs)
        /\ rows = nlargest (default 10%nat (limit job))
                    (List.filter (meets_preferences prefs) df)
        /\ Forall2 projection_of rows recs
        /\ Forall (record_meets prefs) recs
        /\ (forall row, In row rows -> In row df /\ meets_preferences prefs row = true)
        /\ (List.length recs <= default 10%nat (limit job))%nat
        /\ List.length recs
           = Nat.min (default 10%nat (limit job))
               (List.length (List.filter (meets_preferences prefs) df))
        /\ StronglySorted record_rated_no_higher recs
        /\ (forall row x,
              In row df -> meets_preferences prefs row = true -> ~ In row rows ->
              In x rows -> (Rating row <= Rating x)%Q))
  /\ (forall jid uid prefs df s1,
        load_recommendation_data env s = (Ret tt, s1) ->
        tourism_df (self s1) = Some df ->
        job_id job = Some jid -> user_id job = Some uid -> preferences job = Some prefs ->
        exists r s', process_recommendation env now job s = (Ret r, s')
                     /\ r_job_id r = jid /\ r_status r = "completed"
                     /\ blobs s' !! blob_name jid = Some r).
Proof.
  split.
  - intros r s' Hret.
    apply process_recommendation_returns in Hret
      as (jid & uid & prefs & df & s1 & Hload & Hjid & Huid & Hprefs & Hdf & -> & ->).
    set (lim := default 10%nat (limit job)).
    rewrite apply_preferences_conjunctive.
    set (matching := List.filter (meets_preferences prefs) df).
    destruct (nlargest_spec lim matching) as (Hlen & Hsub & Hsorted & Htop).
    assert (Hrows : forall row, In row (nlargest lim matching) ->
                                In row df /\ meets_preferences prefs row = true).
    { intros row Hrow. apply Hsub in Hrow. by apply filter_In in Hrow. }
    exists uid, prefs, df, (nlargest lim matching),
      (map to_recommendation (nlargest lim matching)).
    split_and!; try done.
    + apply to_recommendation_projects.
    + apply Forall_fmap, List.Forall_forall. intros row Hrow. cbn.
      apply meets_record_meets. by apply Hrows.
    + rewrite length_map, Hlen. lia.
    + by rewrite length_map.
    + eapply (StronglySorted_fmap _ rated_no_higher); [|exact Hsorted]. done.
    + intros row x Hrow Hmeets Hnot Hx. apply Htop; [|done..].
      by apply filter_In.
  - intros jid uid prefs df s1 Hload Hdf Hjid Huid Hprefs.
    eexists _, _. split_and!.
    * apply process_recommendation_returns.
      exists jid, uid, prefs, df, s1. split_and!; done.
    * done.
    * done.
    * cbn. apply lookup_insert_eq.
Qed.

(** The job [budaya_job] on the sample frame: the two records returned, with
    all their fields. *)
Lemma recommendation_is_conjunctive_top_n_witness :
  exists uid prefs df rows recs,
    user_id budaya_job = Some uid
    /\ preferences budaya_job = Some prefs
    /\ tourism_df (self (process_recommendation working_env 1000 budaya_job
                           (PState_init ∅)).2) = Some df
    /\ RecommendationOutput "u1"
         {| category := Some "Budaya"; city := None; max_price := None;
            min_rating := Some (45 # 10) |}
         [ {| place_id := 4; place_name := "Candi Prambanan"; description := "Candi Hindu";
              rec_category := "Budaya"; rec_city := "Yogyakarta"; price := 50000;
              rating := 47 # 10; time_minutes := 120; latitude := -7; longitude := 110 |};
           {| place_id := 1; place_name := "Monumen Nasional"; description := "Monas";
              rec_category := "Budaya"; rec_city := "Jakarta"; price := 20000;
              rating := 46 # 10; time_minutes := 15; latitude := -6; longitude := 106 |} ]
         2
       = RecommendationOutput uid prefs recs (List.length recs)
    /\ rows = nlargest (default 10%nat (limit budaya_job))
                (List.filter (meets_preferences prefs) df)
    /\ Forall2 projection_of rows recs
    /\ Forall (record_meets prefs) recs
    /\ (forall row, In row rows -> In row df /\ meets_preferences prefs row = true)
    /\ (List.length recs <= default 10%nat (limit budaya_job))%nat
    /\ List.length recs
       = Nat.min (default 10%nat (limit budaya_job))
           (List.length (List.filter (meets_preferences prefs) df))
    /\ StronglySorted record_rated_no_higher recs
    /\ (forall row x,
          In row df -> meets_preferences prefs row = true -> ~ In row rows ->
          In x rows -> (Rating row <= Rating x)%Q).
Proof.
  apply (proj1 (recommendation_is_conjunctive_top_n working_env 1000 budaya_job
                  (PState_init ∅))
           {| r_job_id := "r1"; r_service_type := "recommendation"; r_status := "completed";
              r_output :=
                RecommendationOutput "u1"
                  {| category := Some "Budaya"; city := None; max_price := None;
                     min_rating := Some (45 # 10) |}
                  [ {| place_id := 4; place_name := "Candi Prambanan";
                       description := "Candi Hindu"; rec_category := "Budaya";
                       rec_city := "Yogyakarta"; price := 50000; rating := 47 # 10;
                       time_minutes := 120; latitude := -7; longitude := 110 |};
                    {| place_id := 1; place_name := "Monumen Nasional";
                       description := "Monas"; rec_category := "Budaya";
                       rec_city := "Jakarta"; price := 20000; rating := 46 # 10;
                       time_minutes := 15; latitude := -6; longitude := 106 |} ]
                  2;
              r_timestamp := 1000 |}
           (process_recommendation working_env 1000 budaya_job (PState_init ∅)).2).
  reflexivity.
Defined.

(** ** Thumbnails *)

Section ThumbnailFacts.

Lemma Qfloor_scale (Y W : Z) (h : positive) :
  Qfloor (inject_Z Y * (W # h)) = (Y * W / Z.pos h)%Z.
Proof. unfold Qfloor, Qmult, inject_Z. cbn. by rewrite Pos.mul_1_l. Qed.

Lemma Qceiling_scale (Y W : Z) (h : positive) :
  Qceiling (inject_Z Y * (W # h)) = (- (- (Y * W) / Z.pos h))%Z.
Proof. unfold Qceiling, Qfloor, Qopp, Qmult, inject_Z. cbn. by rewrite Pos.mul_1_l. Qed.

Lemma Qfloor_ratio (X : Z) (w h : positive) :
  Qfloor (inject_Z X / (Z.pos w # h)) = (X * Z.pos h / Z.pos w)%Z.
Proof. unfold Qfloor, Qdiv, Qmult, Qinv, inject_Z. cbn. by rewrite Pos.mul_1_l. Qed.

Lemma Qceiling_ratio (X : Z) (w h : positive) :
  Qceiling (inject_Z X / (Z.pos w # h)) = (- (- (X * Z.pos h) / Z.pos w))%Z.
Proof.
  unfold Qceiling, Qfloor, Qopp, Qdiv, Qmult, Qinv, inject_Z. cbn.
  by rewrite Pos.mul_1_l.
Qed.

(** Rounding a positive ratio [n / d] that does not exceed [bound] down or
    up, but to at least 1: the outcome is between 1 and [bound] and less
    than one away from the ratio. *)
Lemma rounded_ratio (n d bound z : Z) :
  (0 < n)%Z -> (0 < d)%Z -> (1 <= bound)%Z -> (n <= bound * d)%Z ->
  z = Z.max (n / d) 1 \/ z = Z.max (- (- n / d)) 1 ->
  (1 <= z <= bound)%Z /\ (Z.abs (z * d - n) < d)%Z.
Proof.
  intros Hn Hd Hb Hle Hz.
  pose proof (Z.div_mod n d ltac:(lia)) as Hfloor.
  pose proof (Z.mod_pos_bound n d Hd) as Hfmod.
  pose proof (Z.div_mod (- n) d ltac:(lia)) as Hceil.
  pose proof (Z.mod_pos_bound (- n) d Hd) as Hcmod.
  assert (0 <= n / d)%Z by (apply Z.div_pos; lia).
  assert (n / d <= bound)%Z by (apply Z.div_le_upper_bound; lia).
  assert (1 <= - (- n / d))%Z by nia.
  assert (- (- n / d) <= bound)%Z by nia.
  destruct Hz as [-> | ->]; split; lia.
Qed.

(** The size computed for a thumbnail fits the box; when the image does not
    fit already, one side is exactly the side of the box that constrains it
    and the other is proportional up to rounding. *)
Lemma thumbnail_size_spec ceiling w h x y :
  match thumbnail_size ceiling w h x y with
  | None => (w <= x)%positive /\ (h <= y)%positive
  | Some (a, b) =>
      ((x < w)%positive \/ (y < h)%positive)
      /\ (a <= x)%positive /\ (b <= y)%positive
      /\ proportional_within_a_pixel w h a b x y
  end.
Proof.
  unfold thumbnail_size.
  destruct ((w <=? x)%positive && (h <=? y)%positive) eqn:Hfit.
  { apply andb_true_iff in Hfit as [Hw Hh].
    by apply Pos.leb_le in Hw, Hh. }
  assert (Hbig : (x < w)%positive \/ (y < h)%positive).
  { apply andb_false_iff in Hfit as [H|H]; apply Pos.leb_gt in H; auto. }
  destruct (Qle_bool (Z.pos w # h) (Z.pos x # y)) eqn:Haspect.
  - apply Qle_bool_iff in Haspect. unfold Qle in Haspect. cbn in Haspect.
    unfold round_aspect. rewrite Qfloor_scale, Qceiling_scale.
    set (z := Z.max _ 1).
    destruct (rounded_ratio (Z.pos y * Z.pos w) (Z.pos h) (Z.pos x) z)
      as [Hrange Hclose]; [lia | lia | lia | lia | |].
    { subst z.
      match goal with |- context [Z.max (if ?c then _ else _) 1] => destruct c end; auto. }
    split_and!; [done | | done |].
    + lia.
    + left. split; [done|]. rewrite Z2Pos.id by lia. lia.
  - assert (Hlt : (Z.pos x * Z.pos h < Z.pos w * Z.pos y)%Z).
    { apply Z.lt_nge. intros Hge.
      assert (Hq : (Z.pos w # h <= Z.pos x # y)%Q) by (unfold Qle; cbn; lia).
      apply Qle_bool_iff in Hq. congruence. }
    unfold round_aspect. rewrite Qfloor_ratio, Qceiling_ratio.
    set (z := Z.max _ 1).
    destruct (rounded_ratio (Z.pos x * Z.pos h) (Z.pos w) (Z.pos y) z)
      as [Hrange Hclose]; [lia | lia | lia | lia | |].
    { subst z.
      match goal with |- context [Z.max (if ?c then _ else _) 1] => destruct c end; auto. }
    split_and!; [done | done | |].
    + lia.
    + right. split; [done|]. rewrite Z2Pos.id by lia. lia.
Qed.

End ThumbnailFacts.

Section StyleTransFacts.
Context (env : Env).

(** [thumbnail((512, 512))] on any image, whichever way the library
    rounds. *)
Lemma thumbnail_downscaled im : downscaled 512 im (thumbnail env im (512, 512)%positive).
Proof.
  unfold downscaled, thumbnail, longest_side. cbn [fst snd].
  pose proof (thumbnail_size_spec (round_up env (im_width im) (im_height im) 512 512)
                (im_width im) (im_height im) 512 512) as Hsize.
  destruct (thumbnail_size _ _ _ _ _) as [[a b]|].
  - destruct Hsize as (Hbig & Ha & Hb & Hprop).
    destruct (decide _) as [Heq|_]; [injection Heq as Hw Hh; rewrite Hw, Hh in Hbig; lia|].
    cbn.
    split_and!; [lia | lia |].
    intros _. split; [|done].
    destruct Hprop as [[-> _] | [-> _]]; lia.
  - split_and!; [lia | done | lia].
Qed.

Lemma model_load_generate_calls s :
  generate_calls (model_load env s).2 = generate_calls s.
Proof.
  unfold model_load; unfold_monad; repeat (destruct_match; cbn; try done).
Qed.

(** A model that [model_load] returns is the cached one from then on. *)
Lemma model_load_caches s m s1 :
  model_load env s = (Ret m, s1) -> ip_model s1 = Some m.
Proof.
  unfold model_load. unfold_monad.
  destruct (ip_model s) eqn:Hm; [intros H; by simplify_eq|].
  repeat (destruct_match; cbn; try done); intros H; by simplify_eq.
Qed.

Lemma set_ip_model_cached s m : ip_model s = m -> set_ip_model m s = s.
Proof. destruct s. cbn. by intros ->. Qed.

(** What decoding returns does not depend on the state. *)
Lemma decode_base64_image_pure v s s' :
  (decode_base64_image env v s').1 = (decode_base64_image env v s).1.
Proof.
  unfold decode_base64_image; unfold_monad; repeat (destruct_match; cbn; try done).
Qed.

Lemma decode_base64_image_returns v s content :
  (decode_base64_image env v s).1 = Ret content ->
  forall s0, decode_base64_image env v s0 = (Ret content, s0).
Proof.
  intros H s0.
  pose proof (decode_base64_image_state env v s0) as Hs.
  pose proof (decode_base64_image_pure v s s0) as Hr. rewrite H in Hr.
  destruct (decode_base64_image env v s0) as [r s2]. cbn in Hs, Hr. by subst.
Qed.

(** The body of [style_trans], step by step: the model is loaded unless it
    is cached; both pictures are decoded and scaled down; with a model that
    can generate, the creativity is capped and the one request is logged and
    sent; every exception on the way leaves wrapped. *)
Lemma style_trans_body_spec c st i g p s :
  style_trans_body env c st i g p s
  = match model_load env s with
    | (Raise e, s1) => (Raise (RuntimeError ("Style transfer failed: " +:+ str e)), s1)
    | (Ret model, s1) =>
        match (decode_base64_image env c s1).1 with
        | Raise e => (Raise (RuntimeError ("Style transfer failed: " +:+ str e)), s1)
        | Ret content =>
            match (decode_base64_image env st s1).1 with
            | Raise e => (Raise (RuntimeError ("Style transfer failed: " +:+ str e)), s1)
            | Ret style =>
                if has_generate model then
                  match min_15 env g with
                  | Raise e =>
                      (Raise (RuntimeError ("Style transfer failed: " +:+ str e)), s1)
                  | Ret guidance =>
                      let call :=
                        {| pil_image := thumbnail env style (512, 512)%positive;
                           prompt := base_prompt_head +:+ newline +:+ format_value env p
                                     +:+ "." +:+ newline +:+ base_prompt_tail;
                           negative_prompt := NEGATIVE_PROMPT;
                           scale := i;
                           guidance_scale := guidance;
                           num_samples := 1;
                           num_inference_steps := INFERENCE_STEPS env;
                           image := canny env (thumbnail env content (512, 512)%positive);
                           controlnet_conditioning_scale := (6 # 10)%Q;
                           height := 512;
                           width := 512 |} in
                      (match ip_generate env call with
                       | Ret out => Ret out
                       | Raise e =>
                           Raise (RuntimeError ("Style transfer failed: " +:+ str e))
                       end, record_generate call s1)
                  end
                else (Ret (thumbnail env content (512, 512)%positive), s1)
            end
        end
    end.
Proof.
  assert (Hload :
    (match ip_model s with
     | None => let* m := model_load env in modify (set_ip_model (Some m)) >> ret m
     | Some m => ret m
     end) s = match model_load env s with
              | (Raise e, s1) => (Raise e, s1)
              | (Ret model, s1) => (Ret model, s1)
              end).
  { destruct (ip_model s) as [m|] eqn:Hm.
    - unfold model_load. unfold_monad. by rewrite Hm.
    - unfold bind at 1.
      destruct (model_load env s) as [[m|e] s0] eqn:Hl; [|done].
      unfold_monad. by rewrite (set_ip_model_cached s0 _ (model_load_caches _ _ _ Hl)). }
  unfold style_trans_body, try_except. unfold bind at 1. unfold get at 1.
  cbv beta iota. unfold bind at 1. rewrite Hload.
  destruct (model_load env s) as [[model|e] s1]; [|done].
  unfold bind at 1.
  pose proof (decode_base64_image_state env c s1) as Hc.
  destruct (decode_base64_image env c s1) as [[content|e] s2];
    cbn in Hc; subst s2; [|done].
  unfold bind at 1.
  pose proof (decode_base64_image_state env st s1) as Hst.
  destruct (decode_base64_image env st s1) as [[style|e] s2];
    cbn in Hst; subst s2; [|done].
  cbn [fst]. cbv zeta. destruct (has_generate model); [|done].
  unfold_monad. destruct (min_15 env g) as [guidance|e]; [|done].
  by destruct (ip_generate env _).
Qed.

(** The call of [style_trans] with its five arguments in place, and the
    call that names them, enter the body with these arguments. *)
Lemma style_trans_positional_run c st i g p s :
  style_trans env [c; st; i; g; p] [] s = style_trans_body env c st i g p s.
Proof. reflexivity. Qed.

Lemma style_trans_keywords_run c st i g p s :
  style_trans env []
    [("content_image_b64", c); ("style_image_b64", st); ("influence", i);
     ("creativity", g); ("additional_prompt", p)] s
  = style_trans_body env c st i g p s.
Proof. reflexivity. Qed.

End StyleTransFacts.

(** C8. A call of [style_trans] with a content picture [c], a style picture
    [st], an influence [i], a creativity [g] and a prompt [p], by position
    or by name.  (1) Whatever the five values are, the call asks the
    generator at most once, and a request it makes carries the thumbnail
    of the decoding of [st] and the edge map, of equal size, of the
    thumbnail of the decoding of [c]: the pictures were scaled down before
    the request was made.  A thumbnail for the 512 box has its longest side
    at most 512; a picture that fits is passed as it is; a larger one is
    scaled so that its longest side is exactly 512 and its other side is
    within one pixel of the proportional length.  (2) A valid job does get
    there: when the model loads and can generate, both pictures decode and
    the creativity is a number, exactly one request is made, with these two
    pictures, and what the generator answers is what the call returns. *)
Theorem style_trans_downscales_before_generation
    (env : Env) (c st i g p : pyval) (s : PState) :
  let run := style_trans env [c; st; i; g; p] [] s in
  style_trans env []
    [("content_image_b64", c); ("style_image_b64", st); ("influence", i);
     ("creativity", g); ("additional_prompt", p)] s = run
  /\ (exists calls,
        generate_calls run.2 = (generate_calls s ++ calls)%list
        /\ (List.length calls <= 1)%nat
        /\ forall call, In call calls ->
             exists content style,
               (forall s0, decode_base64_image env c s0 = (Ret content, s0))
               /\ (forall s0, decode_base64_image env st s0 = (Ret style, s0))
               /\ pil_image call = thumbnail env style (512, 512)%positive
               /\ image call = canny env (thumbnail env content (512, 512)%positive)
               /\ downscaled 512 style (pil_image call)
               /\ downscaled 512 content (thumbnail env content (512, 512)%positive)
               /\ im_width (image call)
                  = im_width (thumbnail env content (512, 512)%positive)
               /\ im_height (image call)
                  = im_height (thumbnail env content (512, 512)%positive)
               /\ (longest_side (pil_image call) <= 512)%positive
               /\ (longest_side (image call) <= 512)%positive)
  /\ (forall model s1 content style guidance,
        model_load env s = (Ret model, s1) ->
        has_generate model = true ->
        decode_base64_image env c s1 = (Ret content, s1) ->
        decode_base64_image env st s1 = (Ret style, s1) ->
        min_15 env g = Ret guidance ->
        exists call,
          generate_calls run.2 = (generate_calls s ++ [call])%list
          /\ pil_image call = thumbnail env style (512, 512)%positive
          /\ image call = canny env (thumbnail env content (512, 512)%positive)
          /\ (longest_side (pil_image call) <= 512)%positive
          /\ (longest_side (image call) <= 512)%positive
          /\ run.1 = match ip_generate env call with
                     | Ret out => Ret out
                     | Raise e => Raise (RuntimeError ("Style transfer failed: " +:+ str e))
                     end).
Proof.
  intros run. subst run.
  rewrite style_trans_keywords_run, style_trans_positional_run.
  split; [done|].
  rewrite style_trans_body_spec.
  pose proof (model_load_generate_calls env s) as Hlog.
  split.
  - assert (Hnone : forall s', generate_calls s' = generate_calls s ->
              exists calls,
                generate_calls s' = (generate_calls s ++ calls)%list
                /\ (List.length calls <= 1)%nat
                /\ forall call, In call calls ->
                     exists content style,
                       (forall s0, decode_base64_image env c s0 = (Ret content, s0))
                       /\ (forall s0, decode_base64_image env st s0 = (Ret style, s0))
                       /\ pil_image call = thumbnail env style (512, 512)%positive
                       /\ image call
                          = canny env (thumbnail env content (512, 512)%positive)
                       /\ downscaled 512 style (pil_image call)
                       /\ downscaled 512 content
                            (thumbnail env content (512, 512)%positive)
                       /\ im_width (image call)
                          = im_width (thumbnail env content (512, 512)%positive)
                       /\ im_height (image call)
                          = im_height (thumbnail env content (512, 512)%positive)
                       /\ (longest_side (pil_image call) <= 512)%positive
                       /\ (longest_side (image call) <= 512)%positive).
    { intros s' Hs'. exists []. rewrite app_nil_r.
      split_and!; [done | cbn; lia | intros call []]. }
    destruct (model_load env s) as [[model|e] s1]; cbn in Hlog; [|by apply Hnone].
    destruct (decode_base64_image env c s1).1 as [content|e] eqn:Hc; [|by apply Hnone].
    destruct (decode_base64_image env st s1).1 as [style|e] eqn:Hst; [|by apply Hnone].
    destruct (has_generate model); [|by apply Hnone].
    destruct (min_15 env g) as [guidance|e]; [|by apply Hnone].
    cbv zeta. cbn [snd generate_calls record_generate]. rewrite Hlog.
    eexists [_]. split_and!; [done | cbn; lia |].
    intros call [<- | []]. exists content, style.
    pose proof (thumbnail_downscaled env style) as Hstyle.
    pose proof (thumbnail_downscaled env content) as Hcontent.
    cbn [pil_image image].
    split_and!; try done.
    + by apply (decode_base64_image_returns env c s1).
    + by apply (decode_base64_image_returns env st s1).
    + apply Hstyle.
    + apply Hcontent.
  - intros model s1 content style guidance Hl Hgen Hc Hst Hmin.
    rewrite Hl in Hlog |- *. cbn in Hlog. rewrite Hc, Hst, Hgen, Hmin. cbn [fst]. cbv zeta.
    eexists. cbn [snd fst generate_calls record_generate pil_image image]. rewrite Hlog.
    split_and!; try done.
    + apply (thumbnail_downscaled env style).
    + apply (thumbnail_downscaled env content).
Qed.

(** The call of the sample job: the model loads, the two 1024 by 768
    pictures decode, the creativity 20 is capped, and the one request
    carries two pictures of 512 by 384. *)
Lemma style_trans_downscales_before_generation_witness :
  exists call,
    generate_calls
      (style_trans working_env
         [PyStr "Y29udGVudA=="; PyStr "data:image/png;base64,c3R5bGU=";
          PyNum (8 # 10); PyNum 20; PyStr "batik"] [] (PState_init ∅)).2
    = [call]
    /\ (im_width (pil_image call), im_height (pil_image call)) = (512, 384)%positive
    /\ (im_width (image call), im_height (image call)) = (512, 384)%positive
    /\ guidance_scale call = PyNum 15.
Proof.
  destruct (style_trans_downscales_before_generation working_env
              (PyStr "Y29udGVudA==") (PyStr "data:image/png;base64,c3R5bGU=")
              (PyNum (8 # 10)) (PyNum 20) (PyStr "batik") (PState_init ∅))
    as (_ & _ & Hvalid).
  destruct (Hvalid (IPAdapter 0)
              (model_load working_env (PState_init ∅)).2
              (sample_image 1024 768) (sample_image 1024 768) (PyNum 15))
    as (call & Hcalls & Hpil & Himage & _); [reflexivity .. |].
  exists call. rewrite Hcalls, Hpil, Himage.
  split_and!; [reflexivity | reflexivity | reflexivity |].
  vm_compute in Hcalls. by injection Hcalls as <-.
Defined.

(** A call as the single-job processor makes it does reach the generator:
    the two 1024 by 768 pictures arrive as 512 by 384, and the guidance
    scale 20 is capped at 15. *)
Example style_trans_reaches_generation :
  map (fun c => (im_width (pil_image c), im_height (pil_image c),
                 im_width (image c), im_height (image c), guidance_scale c))
    (generate_calls (style_trans working_env [] sample_style_call (PState_init ∅)).2)
  = [(512, 384, 512, 384, PyNum 15)]%positive
  /\ is_ret (style_trans working_env [] sample_style_call (PState_init ∅)).1 = true.
Proof. split; vm_compute; reflexivity. Qed.

(** * Further properties of the processor *)

(** ** Blob names *)

Lemma string_length_app (s t : string) :
  String.length (s +:+ t) = (String.length s + String.length t)%nat.
Proof. induction s as [|c s IH]; simpl; [done|]. by f_equal. Qed.

Lemma string_app_inj_r (s1 s2 t : string) : s1 +:+ t = s2 +:+ t -> s1 = s2.
Proof.
  revert s2. induction s1 as [|c s1 IH]; intros [|c2 s2] H; simpl in H.
  - done.
  - apply (f_equal String.length) in H. simpl in H.
    rewrite ?string_length_app in H. simpl in H. lia.
  - apply (f_equal String.length) in H. simpl in H.
    rewrite ?string_length_app in H. simpl in H. lia.
  - injection H as -> H. f_equal. by apply IH.
Qed.

(** Two jobs share a blob name only when they share their id. *)
Lemma blob_name_inj (a b : string) : blob_name a = blob_name b -> a = b.
Proof.
  unfold blob_name. intros H.
  apply (String.app_inj "results/") in H. by apply string_app_inj_r in H.
Qed.

(** X1. The result of a job is stored under a name no other job id maps to:
    blob names of different job ids differ, and a handler run on a job leaves
    the stored result of every other job id as it is. *)
Theorem results_of_other_jobs_untouched
    (env : Env) (svc : Service) (now : nat) (job : Job) (jid other : string) (s : PState) :
  job_id job = Some jid ->
  other <> jid ->
  blob_name other <> blob_name jid
  /\ blobs (handler env svc now job s).2 !! blob_name other = blobs s !! blob_name other.
Proof.
  intros Hjid Hne.
  assert (Hname : blob_name other <> blob_name jid).
  { intros H. by apply blob_name_inj in H. }
  split; [done|].
  destruct (handler_writes_once env svc now job s jid Hjid) as (x & Hb & _).
  rewrite Hb. by apply lookup_insert_ne.
Qed.

Lemma results_of_other_jobs_untouched_witness :
  blob_name "r2" <> blob_name "r1"
  /\ blobs (handler working_env recommendation 1000 budaya_job
              (set_blobs {[blob_name "r2" := error_result recommendation 7 "r2" transient]}
                 (PState_init ∅))).2 !! blob_name "r2"
     = blobs (set_blobs {[blob_name "r2" := error_result recommendation 7 "r2" transient]}
                (PState_init ∅)) !! blob_name "r2".
Proof.
  apply (results_of_other_jobs_untouched working_env recommendation 1000 budaya_job "r1" "r2").
  - reflexivity.
  - discriminate.
Defined.

(** ** Jobs without an id *)

(** X2. A message whose job has no [job_id] cannot be reported on: whatever
    the service, the handler ends with [KeyError] for that key, raised in
    its [except] block before anything is uploaded, so the container is left
    as it was, and the dispatcher records the failure and keeps the
    message. *)
Theorem job_without_id_leaves_no_result
    (env : Env) (svc : Service) (d : Dispatcher) (message : Message) (j : Job) :
  content message = JsonObject j ->
  job_id j = None ->
  (handler env svc (now d) (set_start_time (now d) j) (processor d)).1
  = Raise (KeyError "job_id")
  /\ blobs (processor (process_message env svc message d)) = blobs (processor d)
  /\ queue svc (process_message env svc message d) = queue svc d
  /\ trace (process_message env svc message d)
     = (trace d ++ [Handled svc (message_id message) false])%list.
Proof.
  intros Hcontent Hjid.
  destruct (handler_without_job_id env svc (now d) (set_start_time (now d) j) (processor d))
    as [Hraise Hblobs]; [done|].
  unfold process_message. rewrite Hcontent.
  destruct (handler env svc _ _ _) as [[r|e] p]; cbn [fst snd] in *; [discriminate|].
  split_and!; [done | done | by destruct svc | done].
Qed.

Lemma job_without_id_leaves_no_result_witness :
  let d := ready (sample_deployment [] [message_of 3 no_job] []) in
  (handler working_env rag_chat (now d) (set_start_time (now d) no_job) (processor d)).1
  = Raise (KeyError "job_id")
  /\ blobs (processor (process_message working_env rag_chat (message_of 3 no_job) d))
     = blobs (processor d)
  /\ queue rag_chat (process_message working_env rag_chat (message_of 3 no_job) d)
     = queue rag_chat d
  /\ trace (process_message working_env rag_chat (message_of 3 no_job) d)
     = (trace d ++ [Handled rag_chat 3 false])%list.
Proof.
  apply (job_without_id_leaves_no_result working_env rag_chat
           (ready (sample_deployment [] [message_of 3 no_job] []))
           (message_of 3 no_job) no_job).
  - reflexivity.
  - reflexivity.
Defined.

(** ** Whole runs of the worker *)

Section WorkerRuns.
Context (env : Env).

(** No loader runs the generator. *)
Lemma load_generate_calls svc s : generate_calls (load env svc s).2 = generate_calls s.
Proof.
  destruct svc; cbn;
    [unfold load_style_transfer_model, model_load | unfold load_rag_system
    | unfold load_recommendation_data]; unfold_monad;
    repeat (destruct_match; cbn; try done).
Qed.

(** Neither does a handler of the worker. *)
Lemma handler_generate_calls svc now job s :
  generate_calls (handler env svc now job s).2 = generate_calls s.
Proof.
  destruct (handler_state env svc now job s) as [b ->]. cbn. apply load_generate_calls.
Qed.

(** The handler of a style-transfer job raises whatever the job holds. *)
Lemma handler_style_transfer_raises now job s :
  is_ret (handler env style_transfer now job s).1 = false.
Proof.
  rewrite handler_unfold. unfold try_except.
  pose proof (process_style_transfer_try_raises env now job s) as H.
  change (handler_try env style_transfer now job s)
    with (process_style_transfer_try env now job s).
  destruct (process_style_transfer_try env now job s) as [[r|e] s1]; [discriminate|].
  rewrite on_handler_error_spec. by destruct (job_id job).
Qed.

Lemma style_work_untouched_trans d1 d2 d3 :
  style_work_untouched d1 d2 -> style_work_untouched d2 d3 -> style_work_untouched d1 d3.
Proof. intros [H1 H2] [H3 H4]. split; congruence. Qed.

Lemma process_message_style_work svc message d :
  style_work_untouched d (process_message env svc message d).
Proof.
  unfold process_message. destruct (content message) as [| |j]; [done..|].
  pose proof (handler_generate_calls svc (now d) (set_start_time (now d) j) (processor d))
    as Hg.
  pose proof (handler_style_transfer_raises (now d) (set_start_time (now d) j) (processor d))
    as Hr.
  destruct svc;
    destruct (handler env _ (now d) (set_start_time (now d) j) (processor d)) as [[r|e] p];
    cbn [fst snd] in *; try discriminate; by split.
Qed.

Lemma poll_queue_style_work svc d : style_work_untouched d (poll_queue env svc d).2.
Proof.
  unfold poll_queue.
  destruct (receive_messages (now d) visibility_timeout (queue svc d)) as [[m|] q] eqn:Hrecv;
    [|done].
  cbn [snd]. eapply style_work_untouched_trans; [|apply process_message_style_work].
  apply receive_messages_some in Hrecv as (_ & _ & _ & Hids).
  split; [|done]. by destruct svc.
Qed.

Lemma poll_queues_style_work order found d :
  style_work_untouched d (poll_queues env order found d).2.
Proof.
  revert found d. induction order as [|svc order IH]; intros found d; cbn; [done|].
  pose proof (poll_queue_style_work svc d) as H.
  destruct (poll_queue env svc d) as [f d1]. cbn [snd] in H.
  eapply style_work_untouched_trans; [exact H | apply IH].
Qed.

Lemma poll_cycle_style_work d : style_work_untouched d (poll_cycle env d).2.
Proof.
  unfold poll_cycle.
  pose proof (poll_queues_style_work queue_order false (begin_cycle d)) as H.
  destruct (poll_queues env queue_order false (begin_cycle d)) as [f d1]. cbn [snd] in H.
  destruct f; cbn [negb]; [exact H|].
  by destruct (max_idle_time <=? _)%nat.
Qed.

Lemma after_cycles_style_work n d dn :
  after_cycles env n d = Some dn -> style_work_untouched d dn.
Proof.
  revert d. induction n as [|n IH]; intros d H; cbn in H.
  - by injection H as <-.
  - pose proof (poll_cycle_style_work d) as Hc.
    destruct (poll_cycle env d) as [[] d1]; [|discriminate]. cbn [snd] in Hc.
    eapply style_work_untouched_trans; [exact Hc | by apply IH].
Qed.

Lemma main_loop_style_work fuel d d' :
  main_loop env fuel d = Some d' -> style_work_untouched d d'.
Proof.
  revert d. induction fuel as [|fuel IH]; intros d H; cbn in H; [discriminate|].
  pose proof (poll_cycle_style_work d) as Hc.
  destruct (poll_cycle env d) as [[] d1]; cbn [snd] in Hc.
  - eapply style_work_untouched_trans; [exact Hc | by apply IH].
  - by injection H as <-.
Qed.

(** A handler of one service leaves the resources of the others alone, and
    constructs its own at most once. *)
Lemma handler_constructions svc now job s :
  (constructions svc (handler env svc now job s).2 <= S (constructions svc s))%nat.
Proof.
  destruct (handler_state env svc now job s) as [b ->].
  destruct svc; cbn;
    [unfold load_style_transfer_model, model_load | unfold load_rag_system
    | unfold load_recommendation_data]; unfold_monad;
    repeat (destruct_match; cbn; try lia).
Qed.

(** A silent stretch that uses up the idle allowance ends the loop. *)
Lemma main_loop_quiet d k :
  (idle_count d + k = max_idle_time)%nat ->
  (0 < k)%nat ->
  quiet_until (now d + k) d ->
  (forall fuel, (fuel < k)%nat -> main_loop env fuel d = None)
  /\ exists d', main_loop env k d = Some d'
                /\ cycles d' = (cycles d + k)%nat
                /\ forall svc, queue svc d' = queue svc d.
Proof.
  intros Hk Hpos Hquiet.
  destruct (after_cycles_quiet env (k - 1) d) as (dn & H1 & Hi & Hc & Hn & Hq); [|lia|].
  { intros svc m Hm. specialize (Hquiet svc m Hm). lia. }
  split.
  - intros fuel Hf. apply (main_loop_too_short env _ _ _ _ H1). lia.
  - assert (Hm : main_loop env k d = main_loop env 1 dn).
    { rewrite <- (main_loop_after_cycles env _ _ _ 1 H1). f_equal. lia. }
    rewrite Hm. cbn [main_loop].
    assert (Hno : any_yields dn = false).
    { apply quiet_until_no_yield with (now d + k)%nat; [|lia].
      intros svc m. rewrite Hq. apply Hquiet. }
    destruct (poll_cycle_counter env dn) as [Hgo Hidle].
    destruct (poll_cycle_idle env dn Hno) as (Hqs & _ & Hcyc & _).
    rewrite Hno in Hgo, Hidle. rewrite orb_false_l in Hgo.
    destruct (poll_cycle env dn) as [go d']. cbn [fst snd] in *. subst go.
    replace (max_idle_time <=? idle_count dn + 1)%nat with true
      by (symmetry; apply Nat.leb_le; lia).
    cbn [negb]. exists d'. split_and!; [done | lia |].
    intros svc. by rewrite Hqs, Hq.
Qed.

End WorkerRuns.

Section SingleMessage.
Context (env : Env).

(** Handling a message changes neither the clock nor the counters, and only
    the queue it came from, from which it is deleted when it was handled. *)
Lemma process_message_fields svc m d :
  now (process_message env svc m d) = now d
  /\ idle_count (process_message env svc m d) = idle_count d
  /\ cycles (process_message env svc m d) = cycles d
  /\ queue svc (process_message env svc m d)
     = (if handled env svc m d then delete_message m (queue svc d) else queue svc d)
  /\ forall svc', svc' <> svc -> queue svc' (process_message env svc m d) = queue svc' d.
Proof.
  unfold process_message, handled. destruct (content m) as [| |j]; [done..|].
  destruct (handler env svc (now d) (set_start_time (now d) j) (processor d)) as [[r|e] p];
    cbn [fst snd is_ret]; split_and!; try done.
  - by destruct svc.
  - intros svc' Hne. by destruct svc, svc'.
Qed.

(** Polling queues that have nothing to hand out only writes to the trace. *)
Lemma poll_queues_quiet order found d :
  (forall svc, In svc order -> yields svc d = false) ->
  (poll_queues env order found d).1 = found
  /\ now (poll_queues env order found d).2 = now d
  /\ idle_count (poll_queues env order found d).2 = idle_count d
  /\ cycles (poll_queues env order found d).2 = cycles d
  /\ forall svc, queue svc (poll_queues env order found d).2 = queue svc d.
Proof.
  revert found d. induction order as [|a order IH]; intros found d Hq; [done|].
  cbn [poll_queues]. rewrite (yields_false_quiet env a d) by (apply Hq; by left).
  rewrite orb_false_r.
  destruct (IH found (emit (Polled a None) d)) as (H1 & H2 & H3 & H4 & H5).
  { intros svc Hin. rewrite yields_emit. apply Hq. by right. }
  split_and!; done.
Qed.

(** A stretch of polling in which one queue hands out a message and the
    others have none. *)
Lemma poll_queues_single order found d svc m q' :
  NoDup order ->
  In svc order ->
  (forall svc', svc' <> svc -> yields svc' d = false) ->
  receive_messages (now d) visibility_timeout (queue svc d) = (Some m, q') ->
  (poll_queues env order found d).1 = true
  /\ now (poll_queues env order found d).2 = now d
  /\ idle_count (poll_queues env order found d).2 = 0%nat
  /\ cycles (poll_queues env order found d).2 = cycles d
  /\ queue svc (poll_queues env order found d).2
     = (if handled env svc m d then delete_message m q' else q')
  /\ forall svc', svc' <> svc -> queue svc' (poll_queues env order found d).2 = queue svc' d.
Proof.
  revert found d. induction order as [|a order IH]; intros found d Hnd Hin Hq Hrecv;
    [destruct Hin|].
  apply NoDup_cons in Hnd as [Ha Hnd]. rewrite list_elem_of_In in Ha.
  cbn [poll_queues]. destruct (decide (a = svc)) as [->|Hne].
  - set (d0 := set_idle_count 0 (emit (Polled svc (Some (message_id m))) (set_queue svc q' d))).
    assert (Hpq : poll_queue env svc d = (true, process_message env svc m d0)).
    { unfold poll_queue. by rewrite Hrecv. }
    rewrite Hpq.
    destruct (process_message_fields svc m d0) as (F1 & F2 & F3 & F4 & F5).
    destruct (poll_queues_quiet order (found || true) (process_message env svc m d0))
      as (H1 & H2 & H3 & H4 & H5).
    { intros svc' Hin'. assert (svc' <> svc) as Hne by (intros ->; done).
      unfold yields. rewrite F1, (F5 _ Hne).
      replace (queue svc' d0) with (queue svc' d) by (by destruct svc, svc').
      apply (Hq _ Hne). }
    rewrite H1, H2, H3, H4, F1, F2, F3. split_and!; try done.
    + by rewrite orb_true_r.
    + rewrite H5, F4.
      replace (queue svc d0) with q' by (by destruct svc). done.
    + intros svc' Hne. rewrite H5, (F5 _ Hne). by destruct svc, svc'.
  - rewrite (yields_false_quiet env a d) by (by apply Hq).
    destruct Hin as [->|Hin]; [done|].
    destruct (IH (found || false) (emit (Polled a None) d) Hnd Hin) as (H1 & H2 & H3 & H4 & H5 & H6).
    { intros svc' Hne'. rewrite yields_emit. by apply Hq. }
    { by destruct svc. }
    split_and!; done.
Qed.

(** The cycle in which a worker finds a single visible message. *)
Lemma poll_cycle_single_message d svc m :
  queue svc d = [m] ->
  (forall svc', svc' <> svc -> queue svc' d = []) ->
  (visible_from m <= now d)%nat ->
  (poll_cycle env d).1 = true
  /\ now (poll_cycle env d).2 = (now d + 1)%nat
  /\ idle_count (poll_cycle env d).2 = 0%nat
  /\ cycles (poll_cycle env d).2 = S (cycles d)
  /\ queue svc (poll_cycle env d).2
     = (if handled env svc m d then [] else [hide (now d + visibility_timeout) m])
  /\ forall svc', svc' <> svc -> queue svc' (poll_cycle env d).2 = [].
Proof.
  intros Hq Hothers Hvis. apply Nat.leb_le in Hvis.
  destruct (poll_queues_single queue_order false (begin_cycle d) svc m
              [hide (now d + visibility_timeout) m])
    as (H1 & H2 & H3 & H4 & H5 & H6).
  - apply queue_order_NoDup.
  - destruct svc; cbn; auto.
  - intros svc' Hne. unfold yields.
    replace (queue svc' (begin_cycle d)) with (queue svc' d) by (by destruct svc').
    by rewrite (Hothers _ Hne).
  - replace (queue svc (begin_cycle d)) with (queue svc d) by (by destruct svc).
    rewrite Hq. cbn -[visibility_timeout]. by rewrite Hvis.
  - unfold poll_cycle.
    destruct (poll_queues env queue_order false (begin_cycle d)) as [f d1].
    cbn [fst snd] in *. subst f. cbn [negb fst snd].
    split_and!; try done.
    + cbn. by rewrite H2.
    + change (handled env svc m (begin_cycle d)) with (handled env svc m d) in H5.
      replace (queue svc (sleep 1 d1)) with (queue svc d1) by (by destruct svc).
      rewrite H5. destruct (handled env svc m d); [|done].
      cbn. by rewrite Nat.eqb_refl.
    + intros svc' Hne. specialize (H6 _ Hne). specialize (Hothers _ Hne).
      destruct svc'; cbn in *; congruence.
Qed.

End SingleMessage.

(** X3. However long the worker runs, it takes nothing off the
    style-transfer queue and never runs the generator: after any number of
    cycles, and when the loop has ended, the queue holds the messages it held
    at the start, and the log of generator calls is as it was. *)
Theorem style_transfer_queue_is_never_drained (env : Env) (d : Dispatcher) :
  (forall n dn,
      after_cycles env n d = Some dn ->
      message_ids (queue style_transfer dn) = message_ids (queue style_transfer d)
      /\ generate_calls (processor dn) = generate_calls (processor d))
  /\ (forall fuel d',
        main_loop env fuel d = Some d' ->
        message_ids (queue style_transfer d') = message_ids (queue style_transfer d)
        /\ generate_calls (processor d') = generate_calls (processor d)).
Proof.
  split.
  - intros n dn H. apply (after_cycles_style_work env n d dn H).
  - intros fuel d' H. apply (main_loop_style_work env fuel d d' H).
Qed.

(** X5. Resources are loaded per service: handling a job of one service
    neither loads nor constructs the resources of another, and constructs
    those of its own service at most once. *)
Theorem handler_loads_only_its_own_service
    (env : Env) (svc svc' : Service) (now : nat) (job : Job) (s : PState) :
  svc <> svc' ->
  loaded svc (handler env svc' now job s).2 = loaded svc s
  /\ constructions svc (handler env svc' now job s).2 = constructions svc s
  /\ (constructions svc' (handler env svc' now job s).2 <= S (constructions svc' s))%nat.
Proof.
  intros Hne. split_and!.
  - destruct (handler_state env svc' now job s) as [b ->].
    destruct (load_other_service env svc svc' s Hne) as [H1 _].
    rewrite <- H1. by destruct svc.
  - destruct (handler_state env svc' now job s) as [b ->].
    destruct (load_other_service env svc svc' s Hne) as [_ H2].
    rewrite <- H2. by destruct svc.
  - apply handler_constructions.
Qed.

Lemma handler_loads_only_its_own_service_witness :
  loaded style_transfer (handler working_env recommendation 1000 budaya_job (PState_init ∅)).2
  = loaded style_transfer (PState_init ∅)
  /\ constructions style_transfer
       (handler working_env recommendation 1000 budaya_job (PState_init ∅)).2
     = constructions style_transfer (PState_init ∅)
  /\ (constructions recommendation
        (handler working_env recommendation 1000 budaya_job (PState_init ∅)).2
      <= S (constructions recommendation (PState_init ∅)))%nat.
Proof.
  apply (handler_loads_only_its_own_service working_env style_transfer recommendation
           1000 budaya_job (PState_init ∅)).
  discriminate.
Defined.

(** ** Chat *)

Section ChatFacts.
Context (env : Env).

(** The fallback answer is one of three fixed strings. *)
Lemma generate_fallback_response_canned question context :
  In (generate_fallback_response question context) fallback_answers.
Proof.
  unfold generate_fallback_response, fallback_answers.
  destruct (contains "borobudur" _); [by left|].
  destruct (contains "monas" _); [right; by left | right; right; by left].
Qed.

(** What the [try] block of the chat handler does once the chat resources
    are there. *)
Lemma process_rag_chat_try_loaded now job s jid q docs oc :
  rag_system_loaded (self s) = true ->
  ollama_client (self s) = Some oc ->
  job_id job = Some jid ->
  question job = Some q ->
  collection_query env q = Ret docs ->
  let answer :=
    match oc, ollama_generate env (chat_prompt (context_of docs) q) with
    | Some _, Ret a => a
    | _, _ => generate_fallback_response q (context_of docs)
    end in
  let r := {| r_job_id := jid; r_service_type := "rag_chat"; r_status := "completed";
              r_output := ChatOutput q answer (negb (String.eqb (context_of docs) ""));
              r_timestamp := now |} in
  process_rag_chat_try env now job s
  = (Ret r, set_blobs (<[blob_name jid := r]> (blobs s)) s).
Proof.
  intros Hl Hoc Hjid Hq Hdocs. cbv zeta.
  unfold process_rag_chat_try, load_rag_system, upload_result, chat_prompt, context_of.
  unfold_monad. rewrite Hl. cbn [negb]. cbv beta iota zeta.
  rewrite Hjid. unfold_monad. cbv beta iota zeta.
  rewrite Hq. unfold_monad. cbv beta iota zeta.
  rewrite Hdocs, Hoc.
  destruct oc as [c|]; [|done].
  by destruct (ollama_generate env _).
Qed.

End ChatFacts.

(** X6. A failing language model never fails a chat job.  With the chat
    resources loaded, a job that has its id and question and whose document
    query succeeds is completed and its result stored, whatever the Ollama
    call does: the answer is the model's when the call returns, and one of
    the three canned answers when the call raises or no client exists. *)
Theorem chat_job_survives_generation_failure
    (env : Env) (now : nat) (job : Job) (s : PState) (jid q : string)
    (docs : list (list string)) (oc : option OllamaClient) :
  rag_system_loaded (self s) = true ->
  ollama_client (self s) = Some oc ->
  job_id job = Some jid ->
  question job = Some q ->
  collection_query env q = Ret docs ->
  exists r answer,
    process_rag_chat env now job s
    = (Ret r, set_blobs (<[blob_name jid := r]> (blobs s)) s)
    /\ r_job_id r = jid
    /\ r_status r = "completed"
    /\ r_output r = ChatOutput q answer (negb (String.eqb (context_of docs) ""))
    /\ (forall c a, oc = Some c ->
                    ollama_generate env (chat_prompt (context_of docs) q) = Ret a ->
                    answer = a)
    /\ (oc = None \/ is_ret (ollama_generate env (chat_prompt (context_of docs) q)) = false ->
        answer = generate_fallback_response q ""
        /\ In answer fallback_answers).
Proof.
  intros Hl Hoc Hjid Hq Hdocs.
  pose proof (process_rag_chat_try_loaded env now job s jid q docs oc Hl Hoc Hjid Hq Hdocs)
    as Htry. cbv zeta in Htry.
  eexists _, _. split_and!.
  - unfold process_rag_chat, try_except. rewrite Htry. reflexivity.
  - done.
  - done.
  - done.
  - intros c a -> Ha. by rewrite Ha.
  - intros [->|Hfail].
    + split; [done | apply generate_fallback_response_canned].
    + destruct oc; destruct (ollama_generate env _); try discriminate;
        (split; [done | apply generate_fallback_response_canned]).
Qed.

Lemma chat_job_survives_generation_failure_witness :
  let s := (load_rag_system ollama_down_env (PState_init ∅)).2 in
  exists r answer,
    process_rag_chat ollama_down_env 1000 borobudur_job s
    = (Ret r, set_blobs (<[blob_name "c1" := r]> (blobs s)) s)
    /\ r_job_id r = "c1"
    /\ r_status r = "completed"
    /\ r_output r
       = ChatOutput "Ceritakan tentang BOROBUDUR dan Monas" answer
           (negb (String.eqb (context_of [["Candi Borobudur"; "Magelang"]]) ""))
    /\ (forall c a, Some (Client 0) = Some c ->
                    ollama_generate ollama_down_env
                      (chat_prompt (context_of [["Candi Borobudur"; "Magelang"]])
                         "Ceritakan tentang BOROBUDUR dan Monas") = Ret a ->
                    answer = a)
    /\ (Some (Client 0) = None
        \/ is_ret (ollama_generate ollama_down_env
                     (chat_prompt (context_of [["Candi Borobudur"; "Magelang"]])
                        "Ceritakan tentang BOROBUDUR dan Monas")) = false ->
        answer = generate_fallback_response "Ceritakan tentang BOROBUDUR dan Monas" ""
        /\ In answer fallback_answers).
Proof.
  apply (chat_job_survives_generation_failure ollama_down_env 1000 borobudur_job
           (load_rag_system ollama_down_env (PState_init ∅)).2
           "c1" "Ceritakan tentang BOROBUDUR dan Monas"
           [["Candi Borobudur"; "Magelang"]] (Some (Client 0)));
    reflexivity.
Defined.

(** X7. The chat service does not need the Ollama package.  When the
    package cannot be imported while the chat resources are first loaded,
    loading still succeeds with no client, and the job is completed with the
    canned answer chosen by the question alone: the retrieved documents only
    set the [context_used] flag.  Any other exception from setting up the
    client fails the job instead, with that exception stored as its result
    and the resources left unloaded. *)
Theorem chat_works_without_ollama_package
    (env : Env) (now : nat) (job : Job) (s : PState) (jid q : string)
    (docs : list (list string)) (e : exn) :
  rag_system_loaded (self s) = false ->
  open_chroma env (rag_constructions s) = Ret tt ->
  get_collection env (rag_constructions s) = Ret tt ->
  import_ollama env (rag_constructions s) = Raise e ->
  job_id job = Some jid ->
  question job = Some q ->
  collection_query env q = Ret docs ->
  (is_ImportError e = true ->
   exists r s',
     process_rag_chat env now job s = (Ret r, s')
     /\ r_status r = "completed"
     /\ r_output r = ChatOutput q (generate_fallback_response q "")
                       (negb (String.eqb (context_of docs) ""))
     /\ In (generate_fallback_response q "") fallback_answers
     /\ rag_system_loaded (self s') = true
     /\ ollama_client (self s') = Some None
     /\ blobs s' !! blob_name jid = Some r)
  /\ (is_ImportError e = false ->
      exists s',
        process_rag_chat env now job s = (Raise e, s')
        /\ rag_system_loaded (self s') = false
        /\ blobs s' !! blob_name jid = Some (error_result rag_chat now jid e)).
Proof.
  intros Hl Hc Hg Hi Hjid Hq Hdocs. split; intros He.
  - eexists _, _.
    unfold process_rag_chat, process_rag_chat_try, load_rag_system, upload_result.
    unfold_monad. rewrite Hl. cbn [negb]. cbv beta iota zeta.
    rewrite Hc. cbv beta iota zeta. rewrite Hg. cbv beta iota zeta.
    rewrite Hi. cbv beta iota zeta. rewrite He. unfold_monad. cbv beta iota zeta.
    rewrite Hjid. unfold_monad. cbv beta iota zeta.
    rewrite Hq. unfold_monad. cbv beta iota zeta.
    rewrite Hdocs. cbn [ollama_client self with_self set_ollama_client set_rag_system_loaded].
    split_and!; try reflexivity.
    + apply generate_fallback_response_canned.
    + apply lookup_insert_eq.
  - eexists.
    unfold process_rag_chat, process_rag_chat_try, load_rag_system, upload_result,
      on_handler_error.
    unfold_monad. rewrite Hl. cbn [negb]. cbv beta iota zeta.
    rewrite Hc. cbv beta iota zeta. rewrite Hg. cbv beta iota zeta.
    rewrite Hi. cbv beta iota zeta. rewrite He. unfold_monad. cbv beta iota zeta.
    rewrite Hjid. unfold_monad. cbv beta iota zeta.
    split_and!; try reflexivity.
    + done.
    + apply lookup_insert_eq.
Qed.

Lemma chat_works_without_ollama_package_witness :
  (is_ImportError (PyExc "ImportError" "No module named 'ollama'") = true ->
   exists r s',
     process_rag_chat working_env 1000 borobudur_job (PState_init ∅) = (Ret r, s')
     /\ r_status r = "completed"
     /\ r_output r
        = ChatOutput "Ceritakan tentang BOROBUDUR dan Monas"
            (generate_fallback_response "Ceritakan tentang BOROBUDUR dan Monas" "")
            (negb (String.eqb (context_of [["Candi Borobudur"; "Magelang"]]) ""))
     /\ In (generate_fallback_response "Ceritakan tentang BOROBUDUR dan Monas" "")
          fallback_answers
     /\ rag_system_loaded (self s') = true
     /\ ollama_client (self s') = Some None
     /\ blobs s' !! blob_name "c1" = Some r)
  /\ (is_ImportError (PyExc "ImportError" "No module named 'ollama'") = false ->
      exists s',
        process_rag_chat working_env 1000 borobudur_job (PState_init ∅)
        = (Raise (PyExc "ImportError" "No module named 'ollama'"), s')
        /\ rag_system_loaded (self s') = false
        /\ blobs s' !! blob_name "c1"
           = Some (error_result rag_chat 1000 "c1"
                     (PyExc "ImportError" "No module named 'ollama'"))).
Proof.
  apply (chat_works_without_ollama_package working_env 1000 borobudur_job (PState_init ∅)
           "c1" "Ceritakan tentang BOROBUDUR dan Monas" [["Candi Borobudur"; "Magelang"]]
           (PyExc "ImportError" "No module named 'ollama'"));
    reflexivity.
Defined.

(** ** Style transfer: decoding and failure reports *)

Lemma prefix_app (p s : string) : String.prefix p (p +:+ s) = true.
Proof.
  induction p as [|a p IH]; simpl; [by destruct s|].
  by destruct (ascii_dec a a).
Qed.

Section DecodeFacts.
Context (env : Env).



(** White space outside ASCII is removed like a blank: a no-break space
    (U+00A0), an ideographic space (U+3000) and a line separator (U+2028)
    between two letters, in UTF-8. *)
Example remove_whitespace_unicode :
  let byte := fun n => String (ascii_of_nat n) in
  remove_whitespace
    ("a" +:+ byte 194 (byte 160 (byte 227 (byte 128 (byte 128
       (" " +:+ byte 226 (byte 128 (byte 168 "b"))))))))
  = "ab"
  /\ remove_whitespace (byte 194 (byte 161 "b")) = byte 194 (byte 161 "b").
Proof. split; reflexivity. Qed.




End DecodeFacts.



(** ** Style transfer: the model and its request *)

Section ModelFacts.
Context (env : Env).

(** A thumbnail is no larger than the image, on either side. *)
Lemma thumbnail_never_enlarges im x y :
  (im_width (thumbnail env im (x, y)) <= im_width im)%positive
  /\ (im_height (thumbnail env im (x, y)) <= im_height im)%positive.
Proof.
  unfold thumbnail. cbn [fst snd].
  pose proof (thumbnail_size_spec (round_up env (im_width im) (im_height im) x y)
                (im_width im) (im_height im) x y) as Hsize.
  destruct (thumbnail_size _ _ _ _ _) as [[a b]|]; [|lia].
  destruct Hsize as (Hbig & Ha & Hb & Hprop).
  destruct (decide _) as [_|_]; [lia|]. cbn.
  unfold proportional_within_a_pixel in Hprop.
  destruct Hprop as [[-> Hp] | [-> Hp]]; split; nia.
Qed.

(** The body of [style_trans] when the cached model is the bare pipeline:
    both pictures are decoded, and the content picture is handed back. *)
Lemma style_trans_body_without_adapter c st i g p s k :
  ip_model s = Some (Pipeline k) ->
  style_trans_body env c st i g p s
  = match decode_base64_image env c s with
    | (Raise e, _) => (Raise (RuntimeError ("Style transfer failed: " +:+ str e)), s)
    | (Ret content, _) =>
        match decode_base64_image env st s with
        | (Raise e, _) => (Raise (RuntimeError ("Style transfer failed: " +:+ str e)), s)
        | (Ret _, _) => (Ret (thumbnail env content (512, 512)%positive), s)
        end
    end.
Proof.
  intros Hm.
  pose proof (decode_base64_image_state env c s) as Hc.
  pose proof (decode_base64_image_state env st s) as Hst.
  unfold style_trans_body, try_except. unfold bind at 1. unfold get at 1.
  cbv beta iota. rewrite Hm. unfold bind at 1. unfold ret at 1. cbv beta iota.
  unfold bind at 1.
  destruct (decode_base64_image env c s) as [[content|e] s2];
    cbn in Hc; subst s2; [|done].
  unfold bind at 1.
  destruct (decode_base64_image env st s) as [[style|e] s2];
    cbn in Hst; subst s2; done.
Qed.

(** Loading the model when the IP-Adapter cannot be built. *)
Lemma model_load_without_adapter s e :
  ip_model s = None ->
  fetch_pipeline env (model_constructions s) = Ret tt ->
  build_ip_adapter env (model_constructions s) = Raise e ->
  model_load env s
  = (Ret (Pipeline (model_constructions s)),
     set_ip_model (Some (Pipeline (model_constructions s)))
       (enter_construction style_transfer s)).
Proof.
  intros Hm Hf Hb. unfold model_load. unfold_monad. rewrite Hm. cbn. by rewrite Hf, Hb.
Qed.

(** What [min_15] returns is the creativity capped. *)
Lemma min_15_capped g guidance :
  min_15 env g = Ret guidance -> capped_at_15 g guidance.
Proof.
  destruct g as [text|q| |[]|im]; cbn; intros H; simplify_eq; try done.
  exists (if Qle_bool q 15 then q else 15%Q).
  destruct (Qle_bool q 15) eqn:Hle.
  - apply Qle_bool_iff in Hle.
    split_and!; [done | done | apply Qle_refl | done |].
    intros Hlt. by destruct (Qlt_not_le _ _ Hlt).
  - assert (~ (q <= 15)%Q) as Hnle.
    { intros H. apply Qle_bool_iff in H. congruence. }
    split_and!; [done | apply Qle_refl | by apply Qlt_le_weak, Qnot_le_lt | done | done].
Qed.

(** The request built by [style_trans] is within the bounds. *)
Lemma request_is_within_bounds content style i g guidance p :
  min_15 env g = Ret guidance ->
  request_within_bounds env i g p
    {| pil_image := thumbnail env style (512, 512)%positive;
       prompt := base_prompt_head +:+ newline +:+ format_value env p +:+ "."
                 +:+ newline +:+ base_prompt_tail;
       negative_prompt := NEGATIVE_PROMPT;
       scale := i;
       guidance_scale := guidance;
       num_samples := 1;
       num_inference_steps := INFERENCE_STEPS env;
       image := canny env (thumbnail env content (512, 512)%positive);
       controlnet_conditioning_scale := (6 # 10)%Q;
       height := 512;
       width := 512 |}.
Proof.
  intros Hmin. unfold request_within_bounds.
  cbn [scale guidance_scale num_samples num_inference_steps height width negative_prompt
       prompt pil_image image].
  split_and!; try done.
  - by apply min_15_capped.
  - apply (thumbnail_downscaled env style).
  - apply (thumbnail_downscaled env content).
Qed.

(** What the body of [style_trans] adds to the log of generator calls: at
    most one request, the bounds of which are those of
    [request_within_bounds]. *)
Lemma style_trans_body_request c st i g p s :
  exists calls,
    generate_calls (style_trans_body env c st i g p s).2
    = (generate_calls s ++ calls)%list
    /\ (List.length calls <= 1)%nat
    /\ Forall (request_within_bounds env i g p) calls
    /\ Forall (fun call => min_15 env g = Ret (guidance_scale call)) calls.
Proof.
  assert (Hnone : forall s', generate_calls s' = generate_calls s ->
            exists calls,
              generate_calls s' = (generate_calls s ++ calls)%list
              /\ (List.length calls <= 1)%nat
              /\ Forall (request_within_bounds env i g p) calls
              /\ Forall (fun call => min_15 env g = Ret (guidance_scale call)) calls).
  { intros s' Hs'. exists []. rewrite app_nil_r.
    split_and!; [done | cbn; lia | constructor | constructor]. }
  rewrite style_trans_body_spec.
  pose proof (model_load_generate_calls env s) as Hlog.
  destruct (model_load env s) as [[model|e] s1]; cbn in Hlog; [|by apply Hnone].
  destruct (decode_base64_image env c s1).1 as [content|e]; [|by apply Hnone].
  destruct (decode_base64_image env st s1).1 as [style|e]; [|by apply Hnone].
  destruct (has_generate model); [|by apply Hnone].
  destruct (min_15 env g) as [guidance|e] eqn:Hmin; [|by apply Hnone].
  cbv zeta. cbn [snd generate_calls record_generate]. rewrite Hlog.
  eexists [_]. split_and!; [done | cbn; lia | |].
  - apply List.Forall_cons; [by apply request_is_within_bounds | apply List.Forall_nil].
  - by apply List.Forall_cons; [|apply List.Forall_nil].
Qed.

End ModelFacts.

(** X10. An IP-Adapter that cannot be built is never tried again.  When
    the pipeline loads and the adapter fails, [model_load] returns the bare
    pipeline and caches it as the model: the next call returns it without
    building anything.  From then on [style_trans] generates nothing: its
    body leaves the state as it is, hence calls no generator, and whenever
    both pictures decode it returns the content picture, scaled down to fit
    512 by 512 and never enlarged, whatever the style picture, the influence,
    the creativity and the prompt are. *)
Theorem adapter_failure_falls_back_for_good (env : Env) (s : PState) (e : exn) :
  ip_model s = None ->
  fetch_pipeline env (model_constructions s) = Ret tt ->
  build_ip_adapter env (model_constructions s) = Raise e ->
  exists s1,
    model_load env s = (Ret (Pipeline (model_constructions s)), s1)
    /\ model_constructions s1 = S (model_constructions s)
    /\ model_load env s1 = (Ret (Pipeline (model_constructions s)), s1)
    /\ forall c st i g p,
         (style_trans_body env c st i g p s1).2 = s1
         /\ forall content style,
              decode_base64_image env c s1 = (Ret content, s1) ->
              decode_base64_image env st s1 = (Ret style, s1) ->
              style_trans_body env c st i g p s1
              = (Ret (thumbnail env content (512, 512)%positive), s1)
              /\ (longest_side (thumbnail env content (512, 512)%positive) <= 512)%positive
              /\ (im_width (thumbnail env content (512, 512)%positive)
                  <= im_width content)%positive
              /\ (im_height (thumbnail env content (512, 512)%positive)
                  <= im_height content)%positive.
Proof.
  intros Hm Hf Hb. eexists. split; [by apply (model_load_without_adapter env s e)|].
  set (s1 := set_ip_model _ _).
  assert (Hs1 : ip_model s1 = Some (Pipeline (model_constructions s))) by done.
  split_and!.
  - done.
  - unfold model_load. unfold_monad. by rewrite Hs1.
  - intros c st i g p.
    rewrite (style_trans_body_without_adapter env c st i g p s1 _ Hs1).
    split.
    + destruct (decode_base64_image env c s1) as [[content|e1] s2]; [|done].
      by destruct (decode_base64_image env st s1) as [[style|e2] s3].
    + intros content style -> ->.
      destruct (thumbnail_never_enlarges env content 512 512) as [Hw Hh].
      split_and!; [done | apply (thumbnail_downscaled env content) | done | done].
Qed.

Lemma adapter_failure_falls_back_for_good_witness :
  exists s1,
    model_load no_adapter_env (PState_init ∅) = (Ret (Pipeline 0), s1)
    /\ model_constructions s1 = 1%nat
    /\ model_load no_adapter_env s1 = (Ret (Pipeline 0), s1)
    /\ forall c st i g p,
         (style_trans_body no_adapter_env c st i g p s1).2 = s1
         /\ forall content style,
              decode_base64_image no_adapter_env c s1 = (Ret content, s1) ->
              decode_base64_image no_adapter_env st s1 = (Ret style, s1) ->
              style_trans_body no_adapter_env c st i g p s1
              = (Ret (thumbnail no_adapter_env content (512, 512)%positive), s1)
              /\ (longest_side (thumbnail no_adapter_env content (512, 512)%positive)
                  <= 512)%positive
              /\ (im_width (thumbnail no_adapter_env content (512, 512)%positive)
                  <= im_width content)%positive
              /\ (im_height (thumbnail no_adapter_env content (512, 512)%positive)
                  <= im_height content)%positive.
Proof.
  apply (adapter_failure_falls_back_for_good no_adapter_env (PState_init ∅)
           (PyExc "ModuleNotFoundError" "No module named 'ip_adapter'"));
    reflexivity.
Defined.

(** X11. What [style_trans] asks of the generator.  A run of its body adds
    at most one request to the log of generator calls, and none when the
    creativity is not a number ([min] cannot compare it with 15).  In that
    request the style strength is the influence as it was given, whatever
    value that is: the body does not look at it.  The guidance scale is
    [min(creativity, 15)]: a number capped at 15, and 15 for positive
    infinity, but negative infinity and NaN pass as they are, so that
    without further assumptions the guidance scale is not bounded by 15.
    One square sample of side 512 is asked for in the configured number of
    steps, the prompt wraps Python's rendering of the given prompt, and
    both pictures sent along fit in 512 by 512. *)
Theorem generator_request_is_bounded
    (env : Env) (c st i g p : pyval) (s : PState) :
  exists calls,
    generate_calls (style_trans_body env c st i g p s).2 = (generate_calls s ++ calls)%list
    /\ (List.length calls <= 1)%nat
    /\ Forall (request_within_bounds env i g p) calls
    /\ (forall call, In call calls ->
          scale call = i
          /\ (forall q, g = PyNum q ->
                guidance_scale call = PyNum (if Qle_bool q 15 then q else 15%Q))
          /\ (g = PyNaN -> guidance_scale call = PyNaN)
          /\ (g = PyInf true -> guidance_scale call = PyInf true)
          /\ (g = PyInf false -> guidance_scale call = PyNum 15))
    /\ ((exists text, g = PyStr text) \/ (exists im, g = PyImage im) -> calls = []).
Proof.
  destruct (style_trans_body_request env c st i g p s)
    as (calls & Hcalls & Hlen & Hbounds & Hmin).
  exists calls. split_and!; [done | done | done | |].
  - intros call Hin. rewrite List.Forall_forall in Hbounds, Hmin.
    destruct (Hbounds call Hin) as (Hscale & _).
    specialize (Hmin call Hin).
    split; [done|].
    split_and!; [intros q -> | intros -> ..]; cbn in Hmin; simplify_eq;
      first [done | by destruct (Qle_bool q 15)].
  - intros Hnot. destruct calls as [|call rest]; [done|].
    apply List.Forall_inv in Hbounds. destruct Hbounds as (_ & Hcap & _).
    unfold capped_at_15 in Hcap. by destruct Hnot as [[text ->] | [im ->]].
Qed.

(** * The single-job container *)

Section JobFacts.
Context (env : Env) (storage : ProcessorPy.Storage).
Context (job_id : string) (start_time finish_time : nat).

(** The keyword call of [process_job] binds all five parameters, whatever
    the values are, and enters the body of [style_trans]. *)
Lemma style_trans_keywords c st i g p :
  style_trans env []
    [("content_image_b64", c); ("style_image_b64", st); ("influence", i);
     ("creativity", g); ("additional_prompt", p)]
  = style_trans_body env c st i g p.
Proof. reflexivity. Qed.

(** The input blob and the result blob of a job have different names. *)
Lemma input_blob_not_result_blob :
  ProcessorPy.input_blob job_id <> ProcessorPy.result_blob job_id.
Proof.
  unfold ProcessorPy.input_blob, ProcessorPy.result_blob. intros H.
  by apply (String.app_inj job_id) in H.
Qed.

(** An upload either fails and leaves the container, or writes the blob. *)
Lemma upload_blob_spec name data s :
  ProcessorPy.upload_blob storage name data s
  = match ProcessorPy.upload_blob_error storage (ProcessorPy.uploads s) with
    | Some e => (Raise e, ProcessorPy.count_upload s)
    | None =>
        (Ret tt,
         ProcessorPy.set_blobs (<[name := ProcessorPy.JobResult data]> (ProcessorPy.blobs s))
           (ProcessorPy.count_upload s))
    end.
Proof.
  unfold ProcessorPy.upload_blob. unfold_monad.
  by destruct (ProcessorPy.upload_blob_error storage _).
Qed.

(** The [try] block of [process_job]: it returns only after writing the
    completed result of a job whose input is a job description with both
    pictures, and on an exception it leaves the container as it was. *)
Lemma process_job_try_spec s :
  match ProcessorPy.process_job_try env storage job_id start_time finish_time s with
  | (Ret ok, s') =>
      ok = true
      /\ ProcessorPy.upload_blob_error storage (ProcessorPy.uploads s) = None
      /\ ProcessorPy.uploads s' = S (ProcessorPy.uploads s)
      /\ exists d c st image p,
           ProcessorPy.blobs s !! ProcessorPy.input_blob job_id = Some (ProcessorPy.JobInput d)
           /\ ProcessorPy.content_image d = Some c
           /\ ProcessorPy.style_image d = Some st
           /\ style_trans_body env c st
                (default (PyNum (7 # 10)) (ProcessorPy.influence d))
                (default (PyNum (8 # 10)) (ProcessorPy.creativity d))
                (default (PyStr EmptyString) (ProcessorPy.additional_prompt d)) p
              = (Ret image, ProcessorPy.module_state s')
           /\ ProcessorPy.blobs s'
              = <[ProcessorPy.result_blob job_id :=
                    ProcessorPy.JobResult
                      (ProcessorPy.result_data job_id (save_b64 env "PNG" image)
                         (finish_time - start_time) finish_time
                         (default (PyNum (7 # 10)) (ProcessorPy.influence d))
                         (default (PyNum (8 # 10)) (ProcessorPy.creativity d))
                         (default (PyStr EmptyString) (ProcessorPy.additional_prompt d)))]>
                  (ProcessorPy.blobs s)
  | (Raise e, s') =>
      ProcessorPy.blobs s' = ProcessorPy.blobs s
      /\ (ProcessorPy.uploads s' <= S (ProcessorPy.uploads s))%nat
      /\ (ProcessorPy.uploads s' = S (ProcessorPy.uploads s) ->
          ProcessorPy.upload_blob_error storage (ProcessorPy.uploads s) = Some e)
  end.
Proof.
  unfold ProcessorPy.process_job_try, ProcessorPy.get_job_data, ProcessorPy.as_dict,
    ProcessorPy.load_model_if_needed, ProcessorPy.style_trans_arguments,
    ProcessorPy.in_module.
  unfold_monad. unfold_monad.
  repeat (first [ rewrite upload_blob_spec | rewrite style_trans_keywords
                | destruct_match ]; cbv beta iota zeta; try done).
  all: simplify_eq.
  all: cbn [ProcessorPy.blobs ProcessorPy.uploads ProcessorPy.module_state
            ProcessorPy.set_blobs ProcessorPy.count_upload ProcessorPy.set_model_loaded
            ProcessorPy.set_module_state] in *.
  all: try (split_and!; [done | lia | intros; lia]).
  all: try (split_and!; [done | lia | by intros _]).
  all: try (destruct b; try discriminate; cbn in *; simplify_eq;
            split_and!; [done | done | done | by eexists _, _, _, _, _]).
Qed.

(** The [except] block of [process_job]: it tries to write the error result
    and returns [False] whether or not that worked. *)
Lemma process_job_except_spec e s :
  (try_except
     (ProcessorPy.upload_blob storage (ProcessorPy.result_blob job_id)
        (ProcessorPy.error_result job_id (str e) finish_time))
     (fun save_error => ret tt) >> ret false) s
  = (Ret false,
     match ProcessorPy.upload_blob_error storage (ProcessorPy.uploads s) with
     | Some _ => ProcessorPy.count_upload s
     | None =>
         ProcessorPy.set_blobs
           (<[ProcessorPy.result_blob job_id :=
                ProcessorPy.JobResult (ProcessorPy.error_result job_id (str e) finish_time)]>
              (ProcessorPy.blobs s))
           (ProcessorPy.count_upload s)
     end).
Proof.
  unfold bind, try_except. rewrite upload_blob_spec.
  by destruct (ProcessorPy.upload_blob_error storage _).
Qed.

(** What a run of the [try] block adds to the log of generator calls. *)
Lemma process_job_try_requests s :
  exists calls,
    generate_calls (ProcessorPy.module_state
                      (ProcessorPy.process_job_try env storage job_id start_time finish_time s).2)
    = (generate_calls (ProcessorPy.module_state s) ++ calls)%list
    /\ (List.length calls <= 1)%nat
    /\ (calls = []
        \/ exists d,
             ProcessorPy.blobs s !! ProcessorPy.input_blob job_id = Some (ProcessorPy.JobInput d)
             /\ Forall (request_within_bounds env
                          (default (PyNum (7 # 10)) (ProcessorPy.influence d))
                          (default (PyNum (8 # 10)) (ProcessorPy.creativity d))
                          (default (PyStr EmptyString) (ProcessorPy.additional_prompt d)))
                  calls
             /\ Forall (fun call =>
                          min_15 env (default (PyNum (8 # 10)) (ProcessorPy.creativity d))
                          = Ret (guidance_scale call))
                  calls).
Proof.
  unfold ProcessorPy.process_job_try, ProcessorPy.get_job_data, ProcessorPy.as_dict,
    ProcessorPy.load_model_if_needed, ProcessorPy.style_trans_arguments,
    ProcessorPy.in_module.
  unfold_monad. unfold_monad.
  repeat (first [ rewrite upload_blob_spec | rewrite style_trans_keywords
                | destruct_match ]; cbv beta iota zeta).
  all: simplify_eq.
  all: repeat match goal with
         | H : model_load env ?m = (_, _) |- _ =>
             let G := fresh "Hload" in
             pose proof (model_load_generate_calls env m) as G;
             rewrite H in G; cbn [snd] in G; clear H
         | H : style_trans_body env ?c ?st ?i ?g ?p ?m = (_, _) |- _ =>
             let calls := fresh "calls" in
             let H1 := fresh "Hcalls" in
             let H2 := fresh "Hlen" in
             let H3 := fresh "Hbounds" in
             let H4 := fresh "Hmin" in
             destruct (style_trans_body_request env c st i g p m)
               as (calls & H1 & H2 & H3 & H4);
             rewrite H in H1; cbn [snd] in H1; clear H
         end.
  all: cbn [ProcessorPy.blobs ProcessorPy.uploads ProcessorPy.module_state
            ProcessorPy.set_blobs ProcessorPy.count_upload ProcessorPy.set_model_loaded
            ProcessorPy.set_module_state snd] in *.
  all: try (exists []; rewrite app_nil_r; split_and!; [congruence | cbn; lia | by left]).
  all: try (destruct b; try discriminate; cbn in *; simplify_eq).
  all: exists calls; split_and!; [congruence | done | right; by eexists].
Qed.

(** [process_job] as a whole: it returns, [True] after writing a completed
    result, [False] after writing the failed result or after failing to. *)
Lemma process_job_spec s :
  exists ok s1 s',
    ProcessorPy.process_job env storage job_id start_time finish_time s = (Ret ok, s')
    /\ (ProcessorPy.process_job_try env storage job_id start_time finish_time s).2 = s1
    /\ ProcessorPy.module_state s' = ProcessorPy.module_state s1
    /\ ProcessorPy.model_loaded s' = ProcessorPy.model_loaded s1
    /\ (ProcessorPy.uploads s' <= ProcessorPy.uploads s + 2)%nat
    /\ if ok then
         exists r, ProcessorPy.status r = "completed"
                   /\ ProcessorPy.blobs s'
                      = <[ProcessorPy.result_blob job_id := ProcessorPy.JobResult r]>
                          (ProcessorPy.blobs s)
       else
         exists e,
           (ProcessorPy.process_job_try env storage job_id start_time finish_time s).1
           = Raise e
           /\ ((ProcessorPy.blobs s' = ProcessorPy.blobs s
                /\ exists n, is_Some (ProcessorPy.upload_blob_error storage n))
               \/ ProcessorPy.blobs s'
                  = <[ProcessorPy.result_blob job_id :=
                        ProcessorPy.JobResult
                          (ProcessorPy.error_result job_id (str e) finish_time)]>
                      (ProcessorPy.blobs s)).
Proof.
  unfold ProcessorPy.process_job. unfold try_except at 1.
  pose proof (process_job_try_spec s) as Htry.
  destruct (ProcessorPy.process_job_try env storage job_id start_time finish_time s)
    as [[ok|e] s1].
  - destruct Htry as (-> & Hup & Hn & d & c & st & image & p & Hin & Hc & Hst & Hbody & Hb).
    exists true, s1, s1. split_and!; try done; try lia.
    eexists. split; [|exact Hb]. done.
  - destruct Htry as (Hb & Hn & Hup).
    rewrite process_job_except_spec. eexists false, s1, _. split_and!; try done.
    + by destruct (ProcessorPy.upload_blob_error storage (ProcessorPy.uploads s1)).
    + by destruct (ProcessorPy.upload_blob_error storage (ProcessorPy.uploads s1)).
    + destruct (ProcessorPy.upload_blob_error storage (ProcessorPy.uploads s1)); cbn; lia.
    + exists e. split; [done|].
      destruct (ProcessorPy.upload_blob_error storage (ProcessorPy.uploads s1)) as [e2|] eqn:He2;
        cbn [ProcessorPy.blobs ProcessorPy.uploads ProcessorPy.set_blobs
             ProcessorPy.count_upload]; rewrite Hb.
      * left. split; [done|]. exists (ProcessorPy.uploads s1). by rewrite He2.
      * by right.
Qed.

End JobFacts.

(** X12. [process_job] never raises, and its return value tells what it
    left in the container.  It touches no blob but the result blob of its
    job, so not the input either, and attempts at most two uploads.  When it
    returns [True] the result blob holds a completed result.  When it
    returns [False] the container is either as it was or differs by the
    failed result under the result blob; if no upload fails, the failed
    result is there. *)
Theorem process_job_always_reports
    (env : Env) (storage : ProcessorPy.Storage) (job_id : string)
    (start_time finish_time : nat) (s : ProcessorPy.State) :
  exists ok s',
    ProcessorPy.process_job env storage job_id start_time finish_time s = (Ret ok, s')
    /\ (forall key, key <> ProcessorPy.result_blob job_id ->
                    ProcessorPy.blobs s' !! key = ProcessorPy.blobs s !! key)
    /\ ProcessorPy.blobs s' !! ProcessorPy.input_blob job_id
       = ProcessorPy.blobs s !! ProcessorPy.input_blob job_id
    /\ (ProcessorPy.uploads s' <= ProcessorPy.uploads s + 2)%nat
    /\ (ok = true ->
        exists r, ProcessorPy.blobs s' !! ProcessorPy.result_blob job_id
                  = Some (ProcessorPy.JobResult r)
                  /\ ProcessorPy.status r = "completed")
    /\ (ok = false ->
        ProcessorPy.blobs s' = ProcessorPy.blobs s
        \/ exists error,
             ProcessorPy.blobs s'
             = <[ProcessorPy.result_blob job_id :=
                   ProcessorPy.JobResult (ProcessorPy.error_result job_id error finish_time)]>
                 (ProcessorPy.blobs s))
    /\ ((forall n, ProcessorPy.upload_blob_error storage n = None) ->
        ok = false ->
        exists error,
          ProcessorPy.blobs s' !! ProcessorPy.result_blob job_id
          = Some (ProcessorPy.JobResult (ProcessorPy.error_result job_id error finish_time))).
Proof.
  destruct (process_job_spec env storage job_id start_time finish_time s)
    as (ok & s1 & s' & Hrun & _ & _ & _ & Hn & Hok).
  exists ok, s'.
  assert (Hshape : ProcessorPy.blobs s' = ProcessorPy.blobs s
                   \/ exists x, ProcessorPy.blobs s'
                                = <[ProcessorPy.result_blob job_id := x]> (ProcessorPy.blobs s)).
  { destruct ok.
    - destruct Hok as (r & _ & ->). right. by eexists.
    - destruct Hok as (e & _ & [[-> _]| ->]); [by left | right; by eexists]. }
  assert (Hframe : forall key, key <> ProcessorPy.result_blob job_id ->
                     ProcessorPy.blobs s' !! key = ProcessorPy.blobs s !! key).
  { intros key Hne. destruct Hshape as [->|[x ->]]; [done|]. by apply lookup_insert_ne. }
  split_and!; [done | done | | done | | |].
  - apply Hframe, input_blob_not_result_blob.
  - intros ->. destruct Hok as (r & Hst & ->). exists r. by rewrite lookup_insert_eq.
  - intros ->. destruct Hok as (e & _ & [[-> _]| ->]); [by left | right; by eexists].
  - intros Hall ->. destruct Hok as (e & _ & [[_ [n Hsome]]| ->]).
    + rewrite Hall in Hsome. by destruct Hsome.
    + eexists. apply lookup_insert_eq.
Qed.

(** X13. The exit status of [python processor.py].  It is 0 or 1, and 0
    only after a completed result was written for the job named on the
    command line.  A command line without exactly one argument, and a
    storage client that cannot be built, end the run with status 1 and the
    container untouched.  A run that ends with status 1 while the client
    works and no upload fails has left the failed result of the job; and
    the input of the job is never changed. *)
Theorem processor_exit_status
    (env : Env) (storage : ProcessorPy.Storage) (start_time finish_time : nat)
    (argv : list string) (STORAGE_CONNECTION_STRING : option string)
    (container : gmap string ProcessorPy.Blob) :
  let out := ProcessorPy.main env storage start_time finish_time argv
               STORAGE_CONNECTION_STRING container in
  (out.1 = 0 \/ out.1 = 1)%Z
  /\ (out.1 = 0%Z ->
      exists script job_id r,
        argv = [script; job_id]
        /\ out.2 !! ProcessorPy.result_blob job_id = Some (ProcessorPy.JobResult r)
        /\ ProcessorPy.status r = "completed")
  /\ (List.length argv <> 2%nat -> out = (1%Z, container))
  /\ (is_ret (ProcessorPy.from_connection_string storage STORAGE_CONNECTION_STRING) = false ->
      out = (1%Z, container))
  /\ (forall script job_id,
        argv = [script; job_id] ->
        is_ret (ProcessorPy.from_connection_string storage STORAGE_CONNECTION_STRING) = true ->
        (forall n, ProcessorPy.upload_blob_error storage n = None) ->
        out.1 = 1%Z ->
        exists error,
          out.2 !! ProcessorPy.result_blob job_id
          = Some (ProcessorPy.JobResult (ProcessorPy.error_result job_id error finish_time)))
  /\ (forall script job_id,
        argv = [script; job_id] ->
        out.2 !! ProcessorPy.input_blob job_id = container !! ProcessorPy.input_blob job_id).
Proof.
  cbv zeta. unfold ProcessorPy.main.
  destruct argv as [|script [|job_id [|extra rest]]]; cbn [fst snd List.length].
  1, 2, 4: split_and!; [by right | done | done | by destruct (ProcessorPy.from_connection_string _ _)
                        | done | done].
  destruct (ProcessorPy.from_connection_string storage STORAGE_CONNECTION_STRING) as [[]|e].
  2: { cbn. split_and!; try done; by right. }
  destruct (process_job_spec env storage job_id start_time finish_time
              (ProcessorPy.StyleTransferProcessor container))
    as (ok & s1 & s' & Hrun & _ & _ & _ & _ & Hok).
  rewrite Hrun. cbn [ProcessorPy.blobs ProcessorPy.StyleTransferProcessor] in Hok.
  destruct ok; cbn [fst snd is_ret].
  - destruct Hok as (r & Hst & Hb). split_and!; try done.
    + by left.
    + intros _. exists script, job_id, r. rewrite Hb. by rewrite lookup_insert_eq.
    + intros ?? [= <- <-]. rewrite Hb. apply lookup_insert_ne.
      intros H. by apply (input_blob_not_result_blob job_id).
  - destruct Hok as (e & _ & Hb). split_and!; try done.
    + by right.
    + intros ?? [= <- <-] _ Hall _. destruct Hb as [[_ [n Hsome]]| ->].
      * rewrite Hall in Hsome. by destruct Hsome.
      * eexists. apply lookup_insert_eq.
    + intros ?? [= <- <-]. destruct Hb as [[-> _]| ->]; [done|].
      apply lookup_insert_ne. intros H. by apply (input_blob_not_result_blob job_id).
Qed.

(** X14. What a job asks of the generator.  A run of [process_job] sends
    at most one request, built from the job description in the input blob.
    Both pictures fit in 512 by 512.  The style strength is the influence of
    the description as it stands, or 0.7 without one.  The guidance scale is
    [min(creativity, 15)]: a number is capped at 15, and 0.8 is used without
    one; but a NaN, which the JSON parser accepts, passes as it is, so the
    guidance scale is not always at most 15.  Without a prompt the prompt
    has an empty line. *)
Theorem process_job_generator_request
    (env : Env) (storage : ProcessorPy.Storage) (job_id : string)
    (start_time finish_time : nat) (s : ProcessorPy.State) :
  exists calls,
    generate_calls
      (ProcessorPy.module_state
         (ProcessorPy.process_job env storage job_id start_time finish_time s).2)
    = (generate_calls (ProcessorPy.module_state s) ++ calls)%list
    /\ (List.length calls <= 1)%nat
    /\ forall call,
         In call calls ->
         exists d,
           ProcessorPy.blobs s !! ProcessorPy.input_blob job_id = Some (ProcessorPy.JobInput d)
           /\ (longest_side (pil_image call) <= 512)%positive
           /\ (longest_side (image call) <= 512)%positive
           /\ scale call = default (PyNum (7 # 10)) (ProcessorPy.influence d)
           /\ capped_at_15 (default (PyNum (8 # 10)) (ProcessorPy.creativity d))
                (guidance_scale call)
           /\ (forall q, ProcessorPy.creativity d = Some (PyNum q) ->
                 guidance_scale call = PyNum (if Qle_bool q 15 then q else 15%Q))
           /\ (ProcessorPy.creativity d = Some PyNaN -> guidance_scale call = PyNaN)
           /\ (ProcessorPy.creativity d = None -> guidance_scale call = PyNum (8 # 10))
           /\ (ProcessorPy.additional_prompt d = None ->
               prompt call
               = base_prompt_head +:+ newline +:+ "." +:+ newline +:+ base_prompt_tail).
Proof.
  destruct (process_job_spec env storage job_id start_time finish_time s)
    as (ok & s1 & s' & Hrun & Htry & Hmod & _).
  destruct (process_job_try_requests env storage job_id start_time finish_time s)
    as (calls & Hcalls & Hlen & Hshape).
  exists calls. rewrite Hrun. cbn [snd]. rewrite Hmod, <- Htry.
  split_and!; [done | done |].
  intros call Hin. destruct Hshape as [->|(d & Hd & Hbounds & Hmin)]; [destruct Hin|].
  rewrite List.Forall_forall in Hbounds, Hmin.
  destruct (Hbounds call Hin)
    as (Hscale & Hcap & _ & _ & _ & _ & _ & Hprompt & Hp & Him).
  specialize (Hmin call Hin).
  exists d. split_and!; try done.
  - intros q Hq. rewrite Hq in Hmin. cbn in Hmin. simplify_eq.
    by destruct (Qle_bool q 15).
  - intros Hq. rewrite Hq in Hmin. cbn in Hmin. by simplify_eq.
  - intros Hnone. rewrite Hnone in Hmin. cbn in Hmin. by simplify_eq.
  - intros Hnone. by rewrite Hnone in Hprompt.
Qed.

(** X15. A job description is checked only after the model is loaded.  A
    missing input blob, and one that is not a JSON object, fail the job at
    once, with the module state and the [model_loaded] flag as they were.
    But a job description without its content picture fails, with
    [KeyError], only after [load_model_if_needed] has loaded the model. *)
Theorem job_is_checked_after_model_load
    (env : Env) (storage : ProcessorPy.Storage) (job_id : string)
    (start_time finish_time : nat) (s : ProcessorPy.State) :
  let out := ProcessorPy.process_job env storage job_id start_time finish_time s in
  (ProcessorPy.blobs s !! ProcessorPy.input_blob job_id = None
   \/ ProcessorPy.blobs s !! ProcessorPy.input_blob job_id = Some ProcessorPy.NotJson
   \/ ProcessorPy.blobs s !! ProcessorPy.input_blob job_id = Some ProcessorPy.JsonOther ->
   out.1 = Ret false
   /\ ProcessorPy.module_state out.2 = ProcessorPy.module_state s
   /\ ProcessorPy.model_loaded out.2 = ProcessorPy.model_loaded s)
  /\ (forall d m p,
        ProcessorPy.download_blob_error storage = None ->
        ProcessorPy.blobs s !! ProcessorPy.input_blob job_id = Some (ProcessorPy.JobInput d) ->
        ProcessorPy.content_image d = None ->
        ProcessorPy.model_loaded s = false ->
        model_load env (ProcessorPy.module_state s) = (Ret m, p) ->
        out.1 = Ret false
        /\ ProcessorPy.module_state out.2 = p
        /\ ProcessorPy.model_loaded out.2 = true
        /\ (ProcessorPy.upload_blob_error storage (ProcessorPy.uploads s) = None ->
            ProcessorPy.blobs out.2 !! ProcessorPy.result_blob job_id
            = Some (ProcessorPy.JobResult
                      (ProcessorPy.error_result job_id "'content_image'" finish_time)))).
Proof.
  intros out. split.
  - intros Hin.
    assert (Htry : exists e,
               ProcessorPy.process_job_try env storage job_id start_time finish_time s
               = (Raise e, s)).
    { unfold ProcessorPy.process_job_try, ProcessorPy.get_job_data, ProcessorPy.as_dict.
      unfold_monad. unfold_monad.
      destruct (ProcessorPy.download_blob_error storage); [by eexists|].
      destruct Hin as [->|[->| ->]]; by eexists. }
    destruct Htry as [e Htry].
    assert (Hout : exists s', out = (Ret false, s')
                              /\ ProcessorPy.module_state s' = ProcessorPy.module_state s
                              /\ ProcessorPy.model_loaded s' = ProcessorPy.model_loaded s).
    { subst out. unfold ProcessorPy.process_job. unfold try_except at 1.
      rewrite Htry, process_job_except_spec. eexists. split; [done|].
      by destruct (ProcessorPy.upload_blob_error storage (ProcessorPy.uploads s)). }
    by destruct Hout as (s' & -> & H1 & H2).
  - intros d m p Hdown Hin Hc Hl Hm.
    assert (Htry :
              ProcessorPy.process_job_try env storage job_id start_time finish_time s
              = (Raise (KeyError "content_image"),
                 ProcessorPy.set_model_loaded true (ProcessorPy.set_module_state p s))).
    { unfold ProcessorPy.process_job_try, ProcessorPy.get_job_data, ProcessorPy.as_dict,
        ProcessorPy.load_model_if_needed, ProcessorPy.style_trans_arguments,
        ProcessorPy.in_module.
      unfold_monad. unfold_monad.
      rewrite Hdown, Hin. cbn [ProcessorPy.json_loads]. cbv beta iota zeta.
      rewrite Hl. cbn [negb]. rewrite Hm. cbv beta iota zeta. by rewrite Hc. }
    assert (Hout : exists s', out = (Ret false, s')
                              /\ ProcessorPy.module_state s' = p
                              /\ ProcessorPy.model_loaded s' = true
                              /\ (ProcessorPy.upload_blob_error storage (ProcessorPy.uploads s)
                                  = None ->
                                  ProcessorPy.blobs s' !! ProcessorPy.result_blob job_id
                                  = Some (ProcessorPy.JobResult
                                            (ProcessorPy.error_result job_id "'content_image'"
                                               finish_time)))).
    { subst out. unfold ProcessorPy.process_job. unfold try_except at 1.
      rewrite Htry, process_job_except_spec. eexists. split; [done|].
      cbn [ProcessorPy.uploads ProcessorPy.set_model_loaded ProcessorPy.set_module_state].
      destruct (ProcessorPy.upload_blob_error storage (ProcessorPy.uploads s)); cbn.
      - split_and!; done.
      - split_and!; try done. intros _. apply lookup_insert_eq. }
    by destruct Hout as (s' & -> & H1 & H2 & H3).
Qed.

(** Two runs of the container on the same job: with working storage, and
    with storage that fails the first upload, which loses the picture that
    was generated. *)
Example processor_runs :
  let good := ProcessorPy.main working_env ProcessorPy.reliable 1000 1004
                ["processor.py"; "j1"] (Some "UseDevelopmentStorage=true") job_container in
  let bad := ProcessorPy.main working_env ProcessorPy.first_upload_fails 1000 1004
               ["processor.py"; "j1"] (Some "UseDevelopmentStorage=true") job_container in
  good.1 = 0%Z
  /\ good.2 !! "j1/result.json"
     = Some (ProcessorPy.JobResult
               (ProcessorPy.result_data "j1" "aW1hZ2U=" 4 1004
                  (PyNum (7 # 10)) (PyNum (8 # 10)) (PyStr EmptyString)))
  /\ bad.1 = 1%Z
  /\ bad.2 !! "j1/result.json"
     = Some (ProcessorPy.JobResult (ProcessorPy.error_result "j1" "connection reset" 1004))
  /\ map (fun c => (scale c, guidance_scale c))
       (generate_calls
          (ProcessorPy.module_state
             (ProcessorPy.process_job working_env ProcessorPy.first_upload_fails "j1" 1000 1004
                (ProcessorPy.StyleTransferProcessor job_container)).2))
     = [(PyNum (7 # 10), PyNum (8 # 10))].
Proof. vm_compute. by split_and!. Qed.

(** * The web service *)

Section WebFacts.
Context (env : Env) (web : MainPy.Web).

(** The positional call of [stytrans] binds all five parameters. *)
Lemma style_trans_positional c st i g p :
  style_trans env [c; st; i; g; p] [] = style_trans_body env c st i g p.
Proof. reflexivity. Qed.

(** Stripping the bearer prefix. *)
Lemma drop_bearer token : MainPy.drop 7 ("Bearer " +:+ token) = token.
Proof. reflexivity. Qed.

End WebFacts.

(** Runs [stytrans] symbolically, one goal for each path through it. *)
Ltac run_stytrans :=
  unfold MainPy.stytrans, MainPy.stytrans_try, MainPy.fetch_template, MainPy.in_module;
  unfold_monad; unfold_monad;
  repeat (first [ rewrite style_trans_positional | destruct_match ];
          cbv beta iota zeta);
  simplify_eq;
  cbn [fst snd MainPy.backend_calls MainPy.module_state MainPy.record_call
       MainPy.set_module_state] in *.

(** X16. [stytrans] always answers.  It never raises: the outcome is a
    response with status 200, 400, 401 or 500, which carries the record of
    the saved picture exactly when the status is 200, and an error message
    otherwise.  On the way it sends the backend nothing, or the request for
    the template, or that request and then the upload of the result, both
    with the same [Authorization] header; a 200 answer comes after both, a
    401 answer after none. *)
Theorem stytrans_always_answers
    (env : Env) (web : MainPy.Web) (request : MainPy.Request) (s : MainPy.State) :
  exists status payload s' calls,
    MainPy.stytrans env web request s = (Ret (status, payload), s')
    /\ In status [200; 400; 401; 500]%nat
    /\ (status = 200%nat <-> exists url, payload = MainPy.saved url)
    /\ MainPy.backend_calls s' = (MainPy.backend_calls s ++ calls)%list
    /\ (calls = []
        \/ (exists url a, calls = [MainPy.Get url a])
        \/ (exists url a url' picture description,
              calls = [MainPy.Get url a; MainPy.Post url' picture description a]))
    /\ (status = 200%nat -> List.length calls = 2%nat)
    /\ (status = 401%nat -> calls = [] /\ s' = s).
Proof.
  run_stytrans.
  all: eexists _, _, _, _; split; [reflexivity|].
  all: cbn [MainPy.backend_calls MainPy.record_call MainPy.set_module_state].
  all: split; [cbn; tauto|].
  all: split; [split; [first [ (intros _; by eexists) | intros [=] ]
                      | first [ done | intros [? [=]] ]]|].
  all: split; [first [ exact (eq_sym (app_nil_r _)) | (rewrite <- ?app_assoc; reflexivity) ]|].
  all: split; [first [ by left | right; left; by eexists _, _
                     | right; right; by eexists _, _, _, _, _ ]|].
  all: split; first [ done | intros [=] ].
Qed.

(** X17. [stytrans] works only on a checked request.  Without an
    [Authorization] header, or with an empty one, the answer is 401 and
    nothing else happens.  The state of the style-transfer module changes,
    that is, the model is loaded or the generator called, only when the
    request carried a header that is not empty and a JSON object with a true
    [content_image] and a true [template_file_id], and the backend answered
    the request for the template, sent with the header's token, with status
    200.  The token is the header with one leading [Bearer ] stripped: a
    header [Bearer t] and a header [t] are treated alike when [t] is not
    empty and does not begin with [Bearer ] itself.  The emptiness check is
    made on the header before the prefix is stripped: the header [Bearer ]
    alone passes it, and the request goes on with an empty token. *)
Theorem stytrans_checks_before_work
    (env : Env) (web : MainPy.Web) (request : MainPy.Request) (s : MainPy.State) :
  let out := MainPy.stytrans env web request s in
  (MainPy.Authorization request = None \/ MainPy.Authorization request = Some EmptyString ->
   out = (Ret (401%nat, MainPy.error "Authorization token required"), s))
  /\ (MainPy.module_state out.2 = MainPy.module_state s
      \/ exists header d content tid r,
           MainPy.Authorization request = Some header
           /\ header <> EmptyString
           /\ MainPy.get_json request = Ret (MainPy.Dict d)
           /\ MainPy.content_image d = Some content
           /\ MainPy.truthy content = true
           /\ MainPy.template_file_id d = Some tid
           /\ MainPy.truthy tid = true
           /\ MainPy.requests_get web
                (MainPy.VITE_API_URL web +:+ "/files/" +:+ format_value env tid)
                ("Bearer " +:+ (if String.prefix "Bearer " header
                                then MainPy.drop 7 header else header))
              = Ret r
           /\ MainPy.status_code r = 200%nat)
  /\ (forall t body,
        t <> EmptyString ->
        String.prefix "Bearer " t = false ->
        MainPy.stytrans env web
          {| MainPy.Authorization := Some ("Bearer " +:+ t); MainPy.get_json := body |} s
        = MainPy.stytrans env web
            {| MainPy.Authorization := Some t; MainPy.get_json := body |} s)
  /\ MainPy.stytrans env web
       {| MainPy.Authorization := Some "Bearer "; MainPy.get_json := Ret MainPy.Falsy |} s
     = (Ret (400%nat, MainPy.error "No data provided"), s)
  /\ (forall d content tid,
        MainPy.content_image d = Some content ->
        MainPy.truthy content = true ->
        MainPy.template_file_id d = Some tid ->
        MainPy.truthy tid = true ->
        exists rest,
          MainPy.backend_calls
            (MainPy.stytrans env web
               {| MainPy.Authorization := Some "Bearer ";
                  MainPy.get_json := Ret (MainPy.Dict d) |} s).2
          = (MainPy.backend_calls s
             ++ MainPy.Get (MainPy.VITE_API_URL web +:+ "/files/" +:+ format_value env tid)
                  "Bearer " :: rest)%list).
Proof.
  intros out. split_and!.
  - subst out. unfold MainPy.stytrans, MainPy.stytrans_try, try_except.
    by intros [-> | ->].
  - subst out. run_stytrans.
    all: try (by left).
    all: right.
    all: repeat match goal with
           | H : negb (MainPy.given _) || negb (MainPy.given _) = false |- _ =>
               apply orb_false_elim in H as [? ?]
           | H : negb _ = false |- _ => apply negb_false_iff in H
           | H : (_ =? 200)%nat = true |- _ => apply Nat.eqb_eq in H
           end.
    all: eexists _, _, _, _, _;
      (split_and!; [reflexivity | done | reflexivity | eassumption | eassumption
                    | eassumption | eassumption | | eassumption]).
    all: match goal with
         | H : String.prefix "Bearer " _ = _ |- _ => rewrite H
         end; eassumption.
  - intros t body Hne Hp.
    unfold MainPy.stytrans, MainPy.stytrans_try.
    cbn [MainPy.Authorization MainPy.get_json].
    rewrite (prefix_app "Bearer " t), Hp.
    destruct t as [|c t]; [done|]. reflexivity.
  - reflexivity.
  - intros d content tid Hc Hct Ht Htt.
    unfold MainPy.stytrans, MainPy.stytrans_try, MainPy.fetch_template, MainPy.in_module.
    cbn [MainPy.Authorization MainPy.get_json String.prefix MainPy.drop].
    unfold_monad. unfold_monad. cbv beta iota zeta.
    unfold MainPy.given. rewrite Hc, Ht, Hct, Htt. cbn [negb orb].
    cbv beta iota zeta.
    repeat (first [ rewrite style_trans_positional | destruct_match ];
            cbv beta iota zeta).
    all: cbn [fst snd MainPy.backend_calls MainPy.module_state MainPy.record_call
              MainPy.set_module_state] in *.
    all: first [ by exists [] | (rewrite <- app_assoc; by eexists) ].
Qed.

Section WebRequests.
Context (env : Env) (web : MainPy.Web).

(** The default applies when the key holds no string. *)
Lemma text_or_spec t v :
  (forall x, v <> Some (PyStr x)) -> MainPy.text_or t v = PyStr t.
Proof. intros H. destruct v as [[x | | | |]|]; try done. by destruct (H x). Qed.

(** What a request adds to the log of generator calls. *)
Lemma stytrans_requests request s :
  exists calls,
    generate_calls (MainPy.module_state (MainPy.stytrans env web request s).2)
    = (generate_calls (MainPy.module_state s) ++ calls)%list
    /\ (List.length calls <= 1)%nat
    /\ (calls = []
        \/ exists d,
             MainPy.get_json request = Ret (MainPy.Dict d)
             /\ Forall (request_within_bounds env
                          (MainPy.number_or (8 # 10) (MainPy.influence d))
                          (MainPy.number_or 7 (MainPy.creativity d))
                          (MainPy.text_or MainPy.DEFAULT_PROMPT (MainPy.prompt d)))
                  calls
             /\ Forall (fun call =>
                          min_15 env (MainPy.number_or 7 (MainPy.creativity d))
                          = Ret (guidance_scale call))
                  calls).
Proof.
  run_stytrans.
  all: repeat match goal with
         | H : style_trans_body env ?c ?st ?i ?g ?p ?m = (_, _) |- _ =>
             let calls := fresh "calls" in
             let H1 := fresh "Hcalls" in
             let H2 := fresh "Hlen" in
             let H3 := fresh "Hbounds" in
             let H4 := fresh "Hmin" in
             destruct (style_trans_body_request env c st i g p m)
               as (calls & H1 & H2 & H3 & H4);
             rewrite H in H1; cbn [snd] in H1; clear H
         end.
  all: try (exists []; rewrite app_nil_r; split_and!; [done | cbn; lia | by left]).
  all: exists calls; split_and!; [done | done | right; by eexists].
Qed.

End WebRequests.

(** X18. What a web request asks of the generator.  A request adds at most
    one call to the log of generator calls, and both pictures in it fit in
    512 by 512.  The style strength is the [influence] of the body when that
    is a number, whatever number, and the guidance scale is
    [min(creativity, 15)] of the [creativity] of the body when that is a
    number: capped at 15, except that a NaN, which the JSON parser accepts
    and which is a [float], passes as it is, so that the guidance scale is
    not always at most 15.  A key that is absent or holds a string takes its
    default: 0.8, 7, and, for a [prompt] that is absent or no string, the
    words of [DEFAULT_PROMPT]. *)
Theorem stytrans_generator_request
    (env : Env) (web : MainPy.Web) (request : MainPy.Request) (s : MainPy.State) :
  exists calls,
    generate_calls (MainPy.module_state (MainPy.stytrans env web request s).2)
    = (generate_calls (MainPy.module_state s) ++ calls)%list
    /\ (List.length calls <= 1)%nat
    /\ forall call,
         In call calls ->
         exists d,
           MainPy.get_json request = Ret (MainPy.Dict d)
           /\ (longest_side (pil_image call) <= 512)%positive
           /\ (longest_side (image call) <= 512)%positive
           /\ scale call = MainPy.number_or (8 # 10) (MainPy.influence d)
           /\ capped_at_15 (MainPy.number_or 7 (MainPy.creativity d)) (guidance_scale call)
           /\ (forall q, MainPy.creativity d = Some (PyNum q) ->
                 guidance_scale call = PyNum (if Qle_bool q 15 then q else 15%Q))
           /\ (MainPy.creativity d = Some PyNaN -> guidance_scale call = PyNaN)
           /\ (MainPy.creativity d = None \/ (exists t, MainPy.creativity d = Some (PyStr t)) ->
               guidance_scale call = PyNum 7)
           /\ (forall q, MainPy.influence d = Some (PyNum q) -> scale call = PyNum q)
           /\ (MainPy.influence d = None \/ (exists t, MainPy.influence d = Some (PyStr t)) ->
               scale call = PyNum (8 # 10))
           /\ ((forall t, MainPy.prompt d <> Some (PyStr t)) ->
               prompt call
               = base_prompt_head +:+ newline +:+ MainPy.DEFAULT_PROMPT +:+ "."
                 +:+ newline +:+ base_prompt_tail).
Proof.
  destruct (stytrans_requests env web request s) as (calls & Hcalls & Hlen & Hshape).
  exists calls. split_and!; [done | done |].
  intros call Hin. destruct Hshape as [->|(d & Hd & Hbounds & Hmin)]; [destruct Hin|].
  rewrite List.Forall_forall in Hbounds, Hmin.
  destruct (Hbounds call Hin)
    as (Hscale & Hcap & _ & _ & _ & _ & _ & Hprompt & Hp & Him).
  specialize (Hmin call Hin).
  exists d. split_and!; try done.
  - intros q Hq. rewrite Hq in Hmin. cbn in Hmin. simplify_eq.
    by destruct (Qle_bool q 15).
  - intros Hq. rewrite Hq in Hmin. cbn in Hmin. by simplify_eq.
  - intros [Hq | [t Hq]]; rewrite Hq in Hmin; cbn in Hmin; by simplify_eq.
  - intros q Hq. by rewrite Hscale, Hq.
  - intros [Hq | [t Hq]]; by rewrite Hscale, Hq.
  - intros Hnot. by rewrite (text_or_spec _ _ Hnot) in Hprompt.
Qed.

(** A request that passes every check, and what it leaves behind. *)
Example stytrans_serves_a_request :
  let s := {| MainPy.module_state := PState_init ∅; MainPy.backend_calls := [] |} in
  let out := MainPy.stytrans working_env MainPy.working_web MainPy.sample_request s in
  out.1 = Ret (200%nat, MainPy.saved "http://backend:3000/files/42")
  /\ MainPy.backend_calls out.2
     = [MainPy.Get "http://backend:3000/files/t7" "Bearer abc";
        MainPy.Post "http://backend:3000/files/upload-avatar" "jpeg"
          "Style transfer result using template t7" "Bearer abc"]
  /\ map (fun c => (scale c, guidance_scale c))
       (generate_calls (MainPy.module_state out.2))
     = [(PyNum (8 # 10), PyNum 15)].
Proof. vm_compute. by split_and!. Qed.

(** * The test client *)

Section ClientFacts.
Context (requests_get : string -> nat -> res TestClient.HttpReply).
Context (latency : nat) (api_url : string).
Context (job_id : string) (start_time max_wait_time poll_interval : nat).

(** A status request always takes its time and is always counted. *)
Lemma check_status_spec c :
  TestClient.check_status requests_get latency api_url job_id c
  = (match requests_get (api_url +:+ "/api/status/" +:+ job_id) (TestClient.now c) with
     | Ret response =>
         if (TestClient.status_code response =? 200)%nat then Ret (TestClient.json response)
         else Raise (PyExc "Exception"
                       ("Failed to check status: " +:+ TestClient.text response))
     | Raise e => Raise e
     end,
     TestClient.after_request latency c).
Proof.
  unfold TestClient.check_status. unfold_monad.
  destruct (requests_get _ _) as [response|e]; [|done].
  by destruct (TestClient.status_code response =? 200)%nat.
Qed.

(** Once the waiting time is used up, the loop ends with [TimeoutError]. *)
Lemma wait_loop_timeout fuel c :
  (max_wait_time <= TestClient.now c - start_time)%nat ->
  TestClient.wait_loop requests_get latency api_url (S fuel) job_id
    start_time max_wait_time poll_interval c
  = Some (Raise (PyExc "TimeoutError"
                   ("Job " +:+ job_id +:+ " did not complete within "
                    +:+ pretty max_wait_time +:+ " seconds")), c).
Proof.
  intros H. cbn [TestClient.wait_loop].
  by replace (TestClient.now c - start_time <? max_wait_time)%nat with false
    by (symmetry; apply Nat.ltb_ge; lia).
Qed.

(** The loop ends within [k] status requests when [k] steps of the clock use
    up the waiting time. *)
Lemma wait_loop_ends k c :
  (0 < latency + poll_interval)%nat ->
  (start_time <= TestClient.now c)%nat ->
  (max_wait_time <= (TestClient.now c - start_time) + k * (latency + poll_interval))%nat ->
  exists r c',
    (forall fuel, (k < fuel)%nat ->
       TestClient.wait_loop requests_get latency api_url fuel job_id
         start_time max_wait_time poll_interval c = Some (r, c'))
    /\ (TestClient.polls c' <= TestClient.polls c + k)%nat
    /\ (TestClient.now c' <= TestClient.now c + k * (latency + poll_interval))%nat
    /\ (is_ret r = true ->
        (TestClient.polls c < TestClient.polls c')%nat
        /\ (TestClient.now c' < start_time + max_wait_time + latency)%nat).
Proof.
  intros Hstep. revert c. induction k as [|k IH]; intros c Hstart Hmax.
  - eexists _, c. split.
    { intros [|fuel] Hf; [lia|]. apply wait_loop_timeout. lia. }
    split_and!; [lia | lia | done].
  - destruct (TestClient.now c - start_time <? max_wait_time)%nat eqn:Hlt.
    2: { apply Nat.ltb_ge in Hlt. eexists _, c. split.
         { intros [|fuel] Hf; [lia|]. by apply wait_loop_timeout. }
         split_and!; [lia | lia | done]. }
    apply Nat.ltb_lt in Hlt.
    assert (Hiter : forall fuel,
              TestClient.wait_loop requests_get latency api_url (S fuel) job_id
                start_time max_wait_time poll_interval c
              = match TestClient.check_status requests_get latency api_url job_id c with
                | (Raise e, c) => Some (Raise e, c)
                | (Ret status_response, c) =>
                    match TestClient.status status_response with
                    | None => Some (Raise (KeyError "status"), c)
                    | Some st =>
                        if String.eqb st "completed" then
                          match TestClient.result status_response with
                          | Some r => Some (Ret r, c)
                          | None => Some (Raise (KeyError "result"), c)
                          end
                        else if String.eqb st "failed" then
                          Some (Raise (PyExc "Exception"
                                         ("Job failed: "
                                          +:+ default "Unknown error"
                                                (TestClient.error status_response))), c)
                        else
                          TestClient.wait_loop requests_get latency api_url fuel job_id
                            start_time max_wait_time poll_interval
                            (TestClient.sleep poll_interval c)
                    end
                end).
    { intros fuel. cbn [TestClient.wait_loop].
      by replace (TestClient.now c - start_time <? max_wait_time)%nat with true
        by (symmetry; apply Nat.ltb_lt; lia). }
    rewrite check_status_spec in Hiter.
    set (c1 := TestClient.after_request latency c) in *.
    assert (Hc1 : TestClient.polls c1 = S (TestClient.polls c)
                  /\ TestClient.now c1 = (TestClient.now c + latency)%nat) by done.
    destruct Hc1 as [Hp1 Hn1].
    assert (Hend : forall r,
              (forall fuel, TestClient.wait_loop requests_get latency api_url (S fuel) job_id
                              start_time max_wait_time poll_interval c = Some (r, c1)) ->
              exists r c',
                (forall fuel, (S k < fuel)%nat ->
                   TestClient.wait_loop requests_get latency api_url fuel job_id
                     start_time max_wait_time poll_interval c = Some (r, c'))
                /\ (TestClient.polls c' <= TestClient.polls c + S k)%nat
                /\ (TestClient.now c' <= TestClient.now c + S k * (latency + poll_interval))%nat
                /\ (is_ret r = true ->
                    (TestClient.polls c < TestClient.polls c')%nat
                    /\ (TestClient.now c' < start_time + max_wait_time + latency)%nat)).
    { intros r Hr. exists r, c1. split_and!; [|lia|lia|intros _; lia].
      intros [|fuel] Hf; [lia|]. apply Hr. }
    destruct (requests_get _ _) as [response|e]; [|(eapply Hend; exact Hiter)].
    destruct (TestClient.status_code response =? 200)%nat; [|(eapply Hend; exact Hiter)].
    destruct (TestClient.status (TestClient.json response)) as [st|]; [|(eapply Hend; exact Hiter)].
    destruct (String.eqb st "completed").
    { destruct (TestClient.result (TestClient.json response)); (eapply Hend; exact Hiter). }
    destruct (String.eqb st "failed"); [(eapply Hend; exact Hiter)|].
    destruct (IH (TestClient.sleep poll_interval c1)) as (r & c' & Hrun & Hp & Hn & Hret).
    { change (TestClient.now (TestClient.sleep poll_interval c1))
        with (TestClient.now c1 + poll_interval)%nat. lia. }
    { change (TestClient.now (TestClient.sleep poll_interval c1))
        with (TestClient.now c1 + poll_interval)%nat. lia. }
    change (TestClient.now (TestClient.sleep poll_interval c1))
      with (TestClient.now c1 + poll_interval)%nat in Hn.
    change (TestClient.polls (TestClient.sleep poll_interval c1))
      with (TestClient.polls c1) in Hp, Hret.
    exists r, c'. split_and!.
    + intros [|fuel] Hf; [lia|]. rewrite Hiter. apply Hrun. lia.
    + lia.
    + lia.
    + intros Hr. destruct (Hret Hr) as [H1 H2]. lia.
Qed.

(** With a job that stays pending the loop sends exactly as many status
    requests as fit into the waiting time. *)
Lemma wait_loop_pending k c :
  TestClient.always_pending requests_get ->
  (0 < latency + poll_interval)%nat ->
  (start_time <= TestClient.now c)%nat ->
  (max_wait_time <= (TestClient.now c - start_time) + k * (latency + poll_interval))%nat ->
  ((0 < k)%nat ->
   ((TestClient.now c - start_time) + (k - 1) * (latency + poll_interval) < max_wait_time)%nat) ->
  forall fuel, (k < fuel)%nat ->
    TestClient.wait_loop requests_get latency api_url fuel job_id
      start_time max_wait_time poll_interval c
    = Some (Raise (PyExc "TimeoutError"
                     ("Job " +:+ job_id +:+ " did not complete within "
                      +:+ pretty max_wait_time +:+ " seconds")),
            {| TestClient.now := TestClient.now c + k * (latency + poll_interval);
               TestClient.polls := TestClient.polls c + k |}).
Proof.
  intros Hpending Hstep. revert c. induction k as [|k IH]; intros c Hstart Hmax Hmin fuel Hf;
    (destruct fuel as [|fuel]; [lia|]).
  - rewrite wait_loop_timeout by lia. destruct c as [t p]. cbn. do 3 f_equal; lia.
  - assert (TestClient.now c - start_time < max_wait_time)%nat as Hlt.
    { specialize (Hmin ltac:(lia)). lia. }
    cbn [TestClient.wait_loop].
    replace (TestClient.now c - start_time <? max_wait_time)%nat with true
      by (symmetry; apply Nat.ltb_lt; lia).
    rewrite check_status_spec.
    destruct (Hpending (api_url +:+ "/api/status/" +:+ job_id) (TestClient.now c))
      as (reply & st & -> & -> & Hst & Hc & Hfl).
    rewrite Nat.eqb_refl, Hst, Hc, Hfl.
    rewrite IH.
    + cbn. do 3 f_equal; lia.
    + cbn. lia.
    + cbn. lia.
    + cbn. intros Hk. specialize (Hmin ltac:(lia)).
      replace (S k - 1)%nat with (S (k - 1)) in Hmin by lia. lia.
    + lia.
Qed.

(** The number of steps that fit into the waiting time uses the time up, and
    one step less does not. *)
Lemma polls_within_spec max step :
  (0 < step)%nat ->
  (max <= TestClient.polls_within max step * step)%nat
  /\ ((0 < TestClient.polls_within max step)%nat ->
      ((TestClient.polls_within max step - 1) * step < max)%nat).
Proof.
  intros Hstep. unfold TestClient.polls_within.
  pose proof (Nat.div_mod_eq (max + step - 1) step) as Hdiv.
  pose proof (Nat.mod_upper_bound (max + step - 1) step ltac:(lia)) as Hmod.
  set (n := ((max + step - 1) / step)%nat) in *.
  set (r := ((max + step - 1) mod step)%nat) in *.
  split; [nia|]. intros Hn.
  destruct n as [|n]; [lia|]. replace (S n - 1)%nat with n by lia. nia.
Qed.

End ClientFacts.

(** X19. [wait_for_completion] terminates, with a bound on the status
    requests it sends.  When a request and the pause after it take some time
    together, the loop ends after at most as many requests as steps fit into
    the waiting time, which is 60 for the default arguments and a server
    that answers at once.  A result is returned only for a request that was
    sent within the waiting time; and when the job stays pending, the call
    ends with [TimeoutError] after exactly that many requests. *)
Theorem wait_for_completion_terminates
    (requests_get : string -> nat -> res TestClient.HttpReply) (latency : nat)
    (api_url job_id : string) (max_wait_time poll_interval : nat) (c : TestClient.Clock) :
  (0 < latency + poll_interval)%nat ->
  let n := TestClient.polls_within max_wait_time (latency + poll_interval) in
  (exists r c',
      (forall fuel, (n < fuel)%nat ->
         TestClient.wait_for_completion requests_get latency api_url fuel job_id
           max_wait_time poll_interval c = Some (r, c'))
      /\ (TestClient.polls c' <= TestClient.polls c + n)%nat
      /\ (is_ret r = true ->
          (TestClient.polls c < TestClient.polls c')%nat
          /\ (TestClient.now c' < TestClient.now c + max_wait_time + latency)%nat))
  /\ (TestClient.always_pending requests_get ->
      forall fuel, (n < fuel)%nat ->
        TestClient.wait_for_completion requests_get latency api_url fuel job_id
          max_wait_time poll_interval c
        = Some (Raise (PyExc "TimeoutError"
                         ("Job " +:+ job_id +:+ " did not complete within "
                          +:+ pretty max_wait_time +:+ " seconds")),
                {| TestClient.now := TestClient.now c + n * (latency + poll_interval);
                   TestClient.polls := TestClient.polls c + n |}))
  /\ TestClient.polls_within 300 (0 + 5) = 60%nat.
Proof.
  intros Hstep n.
  destruct (polls_within_spec max_wait_time (latency + poll_interval) Hstep) as [Hmax Hmin].
  fold n in Hmax, Hmin. unfold TestClient.wait_for_completion. split_and!.
  - destruct (wait_loop_ends requests_get latency api_url job_id (TestClient.now c)
                max_wait_time poll_interval n c Hstep)
      as (r & c' & Hrun & Hp & _ & Hret); [lia | lia |].
    by exists r, c'.
  - intros Hpending fuel Hf.
    apply (wait_loop_pending requests_get latency api_url job_id (TestClient.now c)
             max_wait_time poll_interval n c Hpending Hstep); [lia | lia | | done].
    intros Hn. specialize (Hmin Hn). lia.
  - reflexivity.
Qed.

Lemma wait_for_completion_terminates_witness :
  let c := {| TestClient.now := 1000; TestClient.polls := 0 |} in
  let n := TestClient.polls_within 300 (0 + 5) in
  (exists r c',
      (forall fuel, (n < fuel)%nat ->
         TestClient.wait_for_completion TestClient.processing_server 0 "http://localhost:7071"
           fuel "j1" 300 5 c = Some (r, c'))
      /\ (TestClient.polls c' <= TestClient.polls c + n)%nat
      /\ (is_ret r = true ->
          (TestClient.polls c < TestClient.polls c')%nat
          /\ (TestClient.now c' < TestClient.now c + 300 + 0)%nat))
  /\ (TestClient.always_pending TestClient.processing_server ->
      forall fuel, (n < fuel)%nat ->
        TestClient.wait_for_completion TestClient.processing_server 0 "http://localhost:7071"
          fuel "j1" 300 5 c
        = Some (Raise (PyExc "TimeoutError"
                         ("Job " +:+ "j1" +:+ " did not complete within "
                          +:+ pretty 300%nat +:+ " seconds")),
                {| TestClient.now := TestClient.now c + n * (0 + 5);
                   TestClient.polls := TestClient.polls c + n |}))
  /\ TestClient.polls_within 300 (0 + 5) = 60%nat.
Proof.
  apply (wait_for_completion_terminates TestClient.processing_server 0
           "http://localhost:7071" "j1" 300 5
           {| TestClient.now := 1000; TestClient.polls := 0 |}).
  cbn. lia.
Defined.

(** * Filling the document store *)

Section FillFacts.

(** The id given to the chunk at index [k]. *)
Lemma chunk_id_inj (a b : nat) : "ID" +:+ pretty a = "ID" +:+ pretty b -> a = b.
Proof.
  intros H. apply (String.app_inj "ID") in H. by apply pretty_nat_inj in H.
Qed.

(** The lists built by the loop: contents, metadata, and the ids counting
    up from [i]. *)
Lemma enumerate_chunks_spec i chunks documents metadatas ids :
  FillChroma.enumerate_chunks i chunks (documents, metadatas, ids)
  = ((documents ++ map FillChroma.page_content chunks)%list,
     (metadatas ++ map FillChroma.metadata chunks)%list,
     (ids ++ map (fun k => "ID" +:+ pretty k) (seq i (List.length chunks)))%list).
Proof.
  revert i documents metadatas ids.
  induction chunks as [|chunk chunks IH]; intros i documents metadatas ids; cbn.
  - by rewrite !app_nil_r.
  - rewrite IH. by rewrite <- !app_assoc.
Qed.

(** An upsert leaves the ids it is not given alone. *)
Lemma upsert_lookup_other documents metadatas ids c key :
  ~ In key ids ->
  FillChroma.upsert documents metadatas ids c !! key = c !! key.
Proof.
  revert metadatas ids c.
  induction documents as [|d documents IH]; intros [|m metadatas] [|i ids] c Hnot; try done.
  cbn. rewrite IH by (intros H; apply Hnot; by right).
  apply lookup_insert_ne. intros ->. apply Hnot. by left.
Qed.

(** An upsert of distinct ids stores each document under its id. *)
Lemma upsert_lookup documents metadatas ids c k key d m :
  List.NoDup ids ->
  ids !! k = Some key -> documents !! k = Some d -> metadatas !! k = Some m ->
  FillChroma.upsert documents metadatas ids c !! key = Some (d, m).
Proof.
  revert metadatas ids c k.
  induction documents as [|d0 documents IH]; intros [|m0 metadatas] [|i ids] c k Hnd Hi Hd Hm;
    try done.
  apply List.NoDup_cons_iff in Hnd as [Hnot Hnd].
  destruct k as [|k]; cbn in *.
  - simplify_eq. rewrite upsert_lookup_other by done. apply lookup_insert_eq.
  - by apply (IH metadatas ids _ k).
Qed.

Lemma chunk_ids_NoDup n : List.NoDup (map (fun k => "ID" +:+ pretty k) (seq 0 n)).
Proof.
  apply Finite.Injective_map_NoDup; [|apply List.seq_NoDup].
  intros a b. apply chunk_id_inj.
Qed.

(** What the upsert of the script does to a collection. *)
Lemma upsert_chunks chunks c :
  let coll := FillChroma.upsert (map FillChroma.page_content chunks)
                (map FillChroma.metadata chunks)
                (map (fun k => "ID" +:+ pretty k) (seq 0 (List.length chunks))) c in
  (forall k chunk,
      chunks !! k = Some chunk ->
      coll !! ("ID" +:+ pretty k)
      = Some (FillChroma.page_content chunk, FillChroma.metadata chunk))
  /\ (forall key,
        (forall k, (k < List.length chunks)%nat -> key <> "ID" +:+ pretty k) ->
        coll !! key = c !! key).
Proof.
  intros coll. split.
  - intros k chunk Hk. subst coll.
    apply (upsert_lookup _ _ _ _ k); [apply chunk_ids_NoDup | | |].
    + change (map (fun k => "ID" +:+ pretty k) (seq 0 (List.length chunks)))
        with ((fun k => "ID" +:+ pretty k) <$> seq 0 (List.length chunks)).
      rewrite list_lookup_fmap, lookup_seq_lt; [done|].
      by apply lookup_lt_Some in Hk.
    + change (map FillChroma.page_content chunks) with (FillChroma.page_content <$> chunks).
      by rewrite list_lookup_fmap, Hk.
    + change (map FillChroma.metadata chunks) with (FillChroma.metadata <$> chunks).
      by rewrite list_lookup_fmap, Hk.
  - intros key Hkey. subst coll. apply upsert_lookup_other.
    intros Hin. apply List.in_map_iff in Hin as (k & <- & Hk).
    apply List.in_seq in Hk. by apply (Hkey k); [lia|].
Qed.

(** The script in terms of the upsert. *)
Lemma fill_chroma_unfold chunks db :
  FillChroma.fill_chroma chunks db
  = <[FillChroma.COLLECTION_NAME :=
        FillChroma.upsert (map FillChroma.page_content chunks)
          (map FillChroma.metadata chunks)
          (map (fun k => "ID" +:+ pretty k) (seq 0 (List.length chunks)))
          (FillChroma.get_or_create_collection FillChroma.COLLECTION_NAME db)]> db.
Proof.
  unfold FillChroma.fill_chroma. by rewrite enumerate_chunks_spec.
Qed.

End FillFacts.

(** X20. What [fill_chroma.py] does to the database, for whatever chunks
    the splitter returns.  The ids it gives the chunks are distinct, so the
    chunk at index [k] ends up stored under [ID<k>] in the collection
    [indonesian_culture], content and metadata.  Entries of the collection
    under other ids stay as they were, also numbered ones left by an earlier
    run with more chunks; other collections are not touched, and
    [cultural_documents], the one the worker opens, is not created.  Running
    the script again changes nothing. *)
Theorem fill_chroma_upserts (chunks : list FillChroma.Chunk) (db : FillChroma.Database) :
  exists coll,
    FillChroma.fill_chroma chunks db !! FillChroma.COLLECTION_NAME = Some coll
    /\ (forall k chunk,
          chunks !! k = Some chunk ->
          coll !! ("ID" +:+ pretty k)
          = Some (FillChroma.page_content chunk, FillChroma.metadata chunk))
    /\ (forall j k, (j < k)%nat -> "ID" +:+ pretty j <> "ID" +:+ pretty k)
    /\ (forall key,
          (forall k, (k < List.length chunks)%nat -> key <> "ID" +:+ pretty k) ->
          coll !! key
          = FillChroma.get_or_create_collection FillChroma.COLLECTION_NAME db !! key)
    /\ (forall name, name <> FillChroma.COLLECTION_NAME ->
                     FillChroma.fill_chroma chunks db !! name = db !! name)
    /\ FillChroma.fill_chroma chunks db !! "cultural_documents" = db !! "cultural_documents"
    /\ FillChroma.fill_chroma chunks (FillChroma.fill_chroma chunks db)
       = FillChroma.fill_chroma chunks db.
Proof.
  rewrite !fill_chroma_unfold.
  set (c0 := FillChroma.get_or_create_collection FillChroma.COLLECTION_NAME db).
  destruct (upsert_chunks chunks c0) as [Hin Hout].
  eexists. split; [apply lookup_insert_eq|].
  split_and!; [done | | done | | |].
  - intros j k Hlt H. apply chunk_id_inj in H. lia.
  - intros name Hne. by apply lookup_insert_ne.
  - by apply lookup_insert_ne.
  - set (c1 := FillChroma.upsert _ _ _ c0).
    assert (Hc1 : FillChroma.get_or_create_collection FillChroma.COLLECTION_NAME
                    (<[FillChroma.COLLECTION_NAME := c1]> db) = c1).
    { unfold FillChroma.get_or_create_collection.
      assert ((<[FillChroma.COLLECTION_NAME := c1]> db) !! FillChroma.COLLECTION_NAME
              = Some c1) as -> by apply lookup_insert_eq.
      done. }
    rewrite Hc1.
    assert (Hii : forall x, <[FillChroma.COLLECTION_NAME := x]>
                              (<[FillChroma.COLLECTION_NAME := c1]> db)
                            = <[FillChroma.COLLECTION_NAME := x]> db).
    { intros x. apply insert_insert_eq. }
    rewrite Hii. f_equal.
    destruct (upsert_chunks chunks c1) as [Hin1 Hout1].
    apply map_eq. intros key.
    destruct (List.in_dec string_dec key
                (map (fun k => "ID" +:+ pretty k) (seq 0 (List.length chunks))))
      as [Hk|Hk].
    + apply List.in_map_iff in Hk as (k & <- & Hk). apply List.in_seq in Hk.
      destruct (lookup_lt_is_Some_2 chunks k ltac:(lia)) as [chunk Hchunk].
      etrans; [apply (Hin1 k chunk Hchunk) | symmetry; apply (Hin k chunk Hchunk)].
    + apply Hout1. intros k Hlt ->. apply Hk, List.in_map_iff. exists k.
      split; [done|]. apply List.in_seq. lia.
Qed.

(** ** The lifetime of the worker *)

Section UptimeFacts.
Context (env : Env).

(** A cycle is counted, and the loop sleeps for one second after it unless
    it is the last. *)
Lemma poll_cycle_clock d :
  cycles (poll_cycle env d).2 = S (cycles d)
  /\ now (poll_cycle env d).2 = (now d + (if (poll_cycle env d).1 then 1 else 0))%nat.
Proof.
  unfold poll_cycle.
  destruct (poll_queues_spec env queue_order false (begin_cycle d) queue_order_NoDup)
    as (evs & _ & _ & _ & Hnow & Hcyc & _).
  destruct (poll_queues env queue_order false (begin_cycle d)) as [found d1].
  cbn [fst snd] in *.
  destruct found; cbn [negb].
  - cbn. rewrite Hnow, Hcyc. done.
  - destruct (max_idle_time <=? idle_count (set_idle_count (idle_count d1 + 1) d1))%nat;
      cbn; rewrite Hnow, Hcyc; split; try done; lia.
Qed.

(** The loop below its idle allowance: when it ends, the counter has just
    reached the allowance, at least the missing idle cycles have passed, and
    every cycle but the last took a second. *)
Lemma main_loop_uptime fuel d :
  (idle_count d < max_idle_time)%nat ->
  match main_loop env fuel d with
  | Some d' =>
      idle_count d' = max_idle_time
      /\ (cycles d + (max_idle_time - idle_count d) <= cycles d')%nat
      /\ (now d' + 1 = now d + (cycles d' - cycles d))%nat
  | None => True
  end.
Proof.
  revert d. induction fuel as [|fuel IH]; intros d Hidle; [done|].
  cbn [main_loop].
  destruct (poll_cycle_counter env d) as [Hgo Hcount].
  destruct (poll_cycle_clock d) as [Hcyc Hnow].
  destruct (poll_cycle env d) as [go d1]. cbn [fst snd] in *.
  destruct go.
  - assert (idle_count d1 < max_idle_time)%nat as Hidle1.
    { destruct (any_yields d); [unfold max_idle_time in *; lia|].
      cbn [orb] in Hgo. symmetry in Hgo. apply negb_true_iff, Nat.leb_gt in Hgo. lia. }
    specialize (IH d1 Hidle1).
    destruct (main_loop env fuel d1) as [d'|]; [|done].
    destruct IH as (H1 & H2 & H3). split_and!; [done | | lia].
    destruct (any_yields d); lia.
  - destruct (any_yields d); [discriminate|].
    cbn [orb] in Hgo. symmetry in Hgo. apply negb_false_iff, Nat.leb_le in Hgo.
    split_and!; lia.
Qed.

End UptimeFacts.

(** X4. A worker that finds one visible message, and nothing else in its
    queues, tries it in that cycle.  The cycle resets the idle counter and
    the loop goes on, so that the worker cannot shut down before 120 more
    cycles have passed: whenever its loop ends, it has gone through 121
    cycles at least.  After the cycle the message is gone when the
    dispatcher got a result out of its handler; otherwise, also when its
    body is not a JSON object, it is still queued, received once more than
    before and hidden until ten minutes after it was received.  No other
    queue has got anything. *)
Theorem single_message_is_tried_once
    (env : Env) (d : Dispatcher) (svc : Service) (m : Message) :
  queue svc d = [m] ->
  (forall svc', svc' <> svc -> queue svc' d = []) ->
  (visible_from m <= now d)%nat ->
  (poll_cycle env d).1 = true
  /\ idle_count (poll_cycle env d).2 = 0%nat
  /\ queue svc (poll_cycle env d).2
     = (if handled env svc m d then []
        else [ {| message_id := message_id m; content := content m;
                  visible_from := now d + 600;
                  dequeue_count := S (dequeue_count m) |} ])
  /\ (forall svc', svc' <> svc -> queue svc' (poll_cycle env d).2 = [])
  /\ (forall fuel d', main_loop env fuel d = Some d' -> (cycles d + 121 <= cycles d')%nat).
Proof.
  intros Hq Hothers Hvis.
  destruct (poll_cycle_single_message env d svc m Hq Hothers Hvis)
    as (Hgo & Hnow & Hidle & Hcyc & Hsvc & Hrest).
  split_and!; [done | done | done | done |].
  intros [|fuel] d'; [done|]. cbn [main_loop].
  destruct (poll_cycle env d) as [go d1]. cbn [fst snd] in *. subst go.
  pose proof (main_loop_uptime env fuel d1) as Hup.
  destruct (main_loop env fuel d1) as [d2|]; [|done].
  intros [= <-]. destruct Hup as (_ & Hc & _).
  - rewrite Hidle. unfold max_idle_time. lia.
  - rewrite Hidle, Hcyc in Hc. unfold max_idle_time in Hc. lia.
Qed.

Lemma single_message_is_tried_once_witness :
  let d := ready (sample_deployment [message_of 1 style_job] [] []) in
  (poll_cycle working_env d).1 = true
  /\ idle_count (poll_cycle working_env d).2 = 0%nat
  /\ queue style_transfer (poll_cycle working_env d).2
     = (if handled working_env style_transfer (message_of 1 style_job) d then []
        else [ {| message_id := 1; content := JsonObject style_job;
                  visible_from := 1000 + 600;
                  dequeue_count := 1 |} ])
  /\ (forall svc', svc' <> style_transfer -> queue svc' (poll_cycle working_env d).2 = [])
  /\ (forall fuel d', main_loop working_env fuel d = Some d' ->
                      (cycles d + 121 <= cycles d')%nat).
Proof.
  apply (single_message_is_tried_once working_env
           (ready (sample_deployment [message_of 1 style_job] [] []))
           style_transfer (message_of 1 style_job)).
  - reflexivity.
  - intros svc' Hne. by destruct svc'.
  - cbn. lia.
Defined.

(** X21. How long the worker lives.  A loop that starts below its idle
    allowance ends, if it ends, with the idle counter exactly at the
    allowance of 120; by then it has gone through at least as many cycles as
    the counter was short of it, so a fresh worker never stops before its
    120th cycle; and as every cycle but the last one sleeps for a second, its
    clock has advanced by no less than the number of cycles less one: a
    fresh worker lives for 119 seconds at least.  (Handlers take time too,
    which only adds to it.) *)
Theorem worker_uptime (env : Env) (d : Dispatcher) (fuel : nat) :
  (idle_count d < max_idle_time)%nat ->
  match main_loop env fuel d with
  | Some d' =>
      idle_count d' = 120%nat
      /\ (cycles d + (120 - idle_count d) <= cycles d')%nat
      /\ (now d + (cycles d' - cycles d) <= now d' + 1)%nat
      /\ (now d + (120 - idle_count d) <= now d' + 1)%nat
  | None => True
  end.
Proof.
  intros Hidle. pose proof (main_loop_uptime env fuel d Hidle) as H.
  destruct (main_loop env fuel d) as [d'|]; [|done].
  destruct H as (H1 & H2 & H3). unfold max_idle_time in *. split_and!; [done | done | lia | lia].
Qed.

Lemma worker_uptime_witness :
  match main_loop working_env 200
          (ready (sample_deployment [] [] [message_of 2 budaya_job])) with
  | Some d' =>
      idle_count d' = 120%nat
      /\ (cycles (ready (sample_deployment [] [] [message_of 2 budaya_job]))
          + (120 - idle_count (ready (sample_deployment [] [] [message_of 2 budaya_job])))
          <= cycles d')%nat
      /\ (now (ready (sample_deployment [] [] [message_of 2 budaya_job]))
          + (cycles d' - cycles (ready (sample_deployment [] [] [message_of 2 budaya_job])))
          <= now d' + 1)%nat
      /\ (now (ready (sample_deployment [] [] [message_of 2 budaya_job]))
          + (120 - idle_count (ready (sample_deployment [] [] [message_of 2 budaya_job])))
          <= now d' + 1)%nat
  | None => True
  end.
Proof.
  apply (worker_uptime working_env
           (ready (sample_deployment [] [] [message_of 2 budaya_job])) 200).
  unfold max_idle_time. cbn. lia.
Defined.
